(** * A tick-driven trading relay: validator, recommendation requester,
      portfolio accounting, persistence and orchestration

    Shallow embedding of [validators.py], [aitool.py], [business.py] and
    the routes of [app.py].

    The program manipulates decoded JSON throughout, so the embedding works
    on a type [pyval] of Python values as [json.loads] produces them, with
    Python's dynamic checks written out: a failed lookup, a wrong type or
    an overflowing conversion raises, and an exception is a result of its
    own ([Raise]).  Floats are IEEE binary64 numbers (Rocq's primitive
    floats), integers are unbounded, strings are kept as their UTF-8
    bytes.  The two files of [business.py] are a record threaded through
    the functions that read or write them; the language model, the
    trade-execution service and the Unicode tables of the interpreter are
    oracles of an environment record. *)

From Stdlib Require Import ZArith List String Ascii Bool Lia Floats DecimalString.
Import ListNotations.

Set Warnings "-register-all,-inexact-float".

Local Open Scope string_scope.
Local Open Scope Z_scope.

(* ===================================================================== *)
(** ** Exceptions *)
(* ===================================================================== *)

(** A computation returns a value or raises.  The handlers of the program
    are all [except Exception] or bare [except], and the HTTP front end
    turns whatever escapes into one and the same error response, so the
    class of the exception is never consulted and is not recorded. *)
Inductive exn (A : Type) : Type :=
| Val (a : A)
| Raise.
Arguments Val {A} a.
Arguments Raise {A}.

Definition bind {A B : Type} (m : exn A) (k : A -> exn B) : exn B :=
  match m with
  | Val a => k a
  | Raise => Raise
  end.

Declare Scope exn_scope.
Delimit Scope exn_scope with exn.
Notation "x <- m ;; k" := (bind m (fun x => k))
  (at level 61, m at next level, right associativity) : exn_scope.
Local Open Scope exn_scope.

(** [for x in xs: s = body(s, x)], stopping at the first exception. *)
Fixpoint for_each {A S : Type} (xs : list A) (body : S -> A -> exn S) (s : S)
  : exn S :=
  match xs with
  | [] => Val s
  | x :: rest => s' <- body s x ;; for_each rest body s'
  end.

(* ===================================================================== *)
(** ** Python values *)
(* ===================================================================== *)

(** What [json.loads] (and [request.get_json], [response.json]) returns.
    A JSON object is a [dict] with string keys, kept as an association
    list in insertion order, looked up by its first binding for a key. *)
Inductive pyval : Type :=
| PNone
| PBool (b : bool)
| PInt (z : Z)
| PFloat (f : float)
| PStr (s : string)
| PList (l : list pyval)
| PDict (d : list (string * pyval)).

Definition dict := list (string * pyval).

Fixpoint dict_get (d : dict) (k : string) : option pyval :=
  match d with
  | [] => None
  | (k', v) :: rest => if String.eqb k' k then Some v else dict_get rest k
  end.

(** [d[k] = v]: an existing key keeps its place, a new one goes last. *)
Fixpoint dict_set (d : dict) (k : string) (v : pyval) : dict :=
  match d with
  | [] => [(k, v)]
  | (k', v') :: rest =>
      if String.eqb k' k then (k', v) :: rest else (k', v') :: dict_set rest k v
  end.

(** [k in d] *)
Definition dict_mem (d : dict) (k : string) : bool :=
  match dict_get d k with Some _ => true | None => false end.

(** [isinstance(v, list)] and [isinstance(v, str)].
    [bool] is a subclass of [int] in Python, so [True] and [False] pass
    every [isinstance(v, int)] test. *)
Definition is_list (v : pyval) : bool :=
  match v with PList _ => true | _ => false end.
Definition is_str (v : pyval) : bool :=
  match v with PStr _ => true | _ => false end.
(** [isinstance(v, (int, float))] *)
Definition is_int_or_float (v : pyval) : bool :=
  match v with PInt _ | PBool _ | PFloat _ => true | _ => false end.
(** [isinstance(v, (int, str))] *)
Definition is_int_or_str (v : pyval) : bool :=
  match v with PInt _ | PBool _ | PStr _ => true | _ => false end.

(** [v[k]] for a string [k]: only a dict can be indexed by a string. *)
Definition py_getitem (v : pyval) (k : string) : exn pyval :=
  match v with
  | PDict d => match dict_get d k with
               | Some x => Val x
               | None => Raise
               end
  | _ => Raise
  end.

(** [v.get(k, default)]: of the JSON types only dict has a [get]. *)
Definition py_get (v : pyval) (k : string) (default : pyval) : exn pyval :=
  match v with
  | PDict d => Val (match dict_get d k with Some x => x | None => default end)
  | _ => Raise
  end.

(** A byte that continues the UTF-8 encoding of a character. *)
Definition is_continuation (c : ascii) : bool :=
  let n := nat_of_ascii c in ((128 <=? n) && (n <=? 191))%nat.

(** The characters of [s], each with the bytes that encode it. *)
Fixpoint code_points (s : string) : list string :=
  match s with
  | EmptyString => []
  | String c rest =>
      match code_points rest with
      | p :: ps =>
          if match p with
             | String c' _ => is_continuation c'
             | EmptyString => false
             end
          then String c p :: ps
          else String c EmptyString :: p :: ps
      | [] => [String c EmptyString]
      end
  end.

Definition chars (s : string) : list pyval := map PStr (code_points s).

(** The items a [for] loop over [v] visits: the elements of a list, the
    keys of a dict, the characters of a string; anything else is not
    iterable. *)
Definition py_iter (v : pyval) : exn (list pyval) :=
  match v with
  | PList l => Val l
  | PDict d => Val (map (fun kv => PStr (fst kv)) d)
  | PStr s => Val (chars s)
  | _ => Raise
  end.

(** Truth value, as [if v:] tests it. *)
Definition py_truthy (v : pyval) : bool :=
  match v with
  | PNone => false
  | PBool b => b
  | PInt z => negb (z =? 0)
  | PFloat f => negb (PrimFloat.eqb f PrimFloat.zero)
  | PStr s => negb (String.eqb s "")
  | PList l => match l with [] => false | _ => true end
  | PDict d => match d with [] => false | _ => true end
  end.

(* ===================================================================== *)
(** ** Numbers *)
(* ===================================================================== *)

Inductive pynum : Type :=
| NInt (z : Z)
| NFloat (f : float).

Definition Z_of_bool (b : bool) : Z := if b then 1 else 0.

Definition as_num (v : pyval) : exn pynum :=
  match v with
  | PBool b => Val (NInt (Z_of_bool b))
  | PInt z => Val (NInt z)
  | PFloat f => Val (NFloat f)
  | _ => Raise
  end.

Definition of_num (n : pynum) : pyval :=
  match n with NInt z => PInt z | NFloat f => PFloat f end.

(** [float(z)] for an int: the nearest double (ties to even); Python
    raises [OverflowError] when that is not finite. *)
Definition float_of_Z (z : Z) : exn float :=
  let f := SF2Prim (binary_normalize prec emax z 0 false) in
  if PrimFloat.is_infinity f then Raise else Val f.

(** A binary arithmetic operator: exact on two ints, IEEE on two floats,
    and the int converted first when the operands are mixed. *)
Definition num_binop (iop : Z -> Z -> Z) (fop : float -> float -> float)
  (a b : pynum) : exn pynum :=
  match a, b with
  | NInt x, NInt y => Val (NInt (iop x y))
  | NFloat x, NFloat y => Val (NFloat (fop x y))
  | NInt x, NFloat y => x' <- float_of_Z x ;; Val (NFloat (fop x' y))
  | NFloat x, NInt y => y' <- float_of_Z y ;; Val (NFloat (fop x y'))
  end.

(** [a + b], [a - b] and [a * b] as the program uses them, on prices and
    quantities.  An operand that is not a number raises.  For [-] Python
    does so itself, and so it does for [+], whose left operand is a float
    wherever the program adds.  [n * s] with [s] a string or a list would
    repeat [s], but the program hands every product to [round] or adds it
    to a float, and either raises [TypeError] on such a value. *)
Definition py_arith (iop : Z -> Z -> Z) (fop : float -> float -> float)
  (a b : pyval) : exn pyval :=
  x <- as_num a ;; y <- as_num b ;; r <- num_binop iop fop x y ;; Val (of_num r).

Definition py_add := py_arith Z.add PrimFloat.add.
Definition py_sub := py_arith Z.sub PrimFloat.sub.
Definition py_mul := py_arith Z.mul PrimFloat.mul.

(** [n / d] rounded to the nearest integer, ties to even ([0 < d]). *)
Definition div_half_even (n d : Z) : Z :=
  let q := n / d in
  match Z.compare (2 * (n mod d)) d with
  | Lt => q
  | Gt => q + 1
  | Eq => if Z.even q then q else q + 1
  end.

(** [round(x, 2)] on a float: the exact binary value is rounded to two
    decimals (ties to even, as the correctly rounded [repr] does), and the
    decimal is read back as the nearest double.  Infinities and NaN round
    to themselves, and a zero result keeps the sign. *)
Definition round2 (x : float) : float :=
  match Prim2SF x with
  | S754_finite s m e =>
      let n := if 0 <=? e then Z.pos m * 100 * 2 ^ e
               else div_half_even (Z.pos m * 100) (2 ^ (- e)) in
      match n with
      | Z.pos p =>
          SF2Prim (SFdiv prec emax (S754_finite s p 0) (S754_finite false 100 0))
      | _ => if s then PrimFloat.neg_zero else PrimFloat.zero
      end
  | _ => x
  end.

(** [round(v, 2)]: an int rounds to itself (a bool to the int it is). *)
Definition py_round2 (v : pyval) : exn pyval :=
  match v with
  | PFloat f => Val (PFloat (round2 f))
  | PInt z => Val (PInt z)
  | PBool b => Val (PInt (Z_of_bool b))
  | _ => Raise
  end.

(* ===================================================================== *)
(** ** Strings *)
(* ===================================================================== *)

(** Python strings are sequences of code points; the embedding keeps their
    bytes (UTF-8).  [str.upper], [str.strip] and [int] consult the
    Unicode tables of the interpreter, which are not embedded: what they
    do on ASCII text is written out below ([ascii_upper], [ascii_strip],
    [parse_int] and [too_long]), and what they do on any other text is
    left to the environment (see [env] and [AITool.py_upper],
    [AITool.py_strip], [AITool.py_int]). *)

(** Every character of [s] is an ASCII character. *)
Definition is_ascii (s : string) : bool :=
  forallb (fun c => (nat_of_ascii c <? 128)%nat) (list_ascii_of_string s).

Definition string_of_nat (n : nat) : string :=
  NilZero.string_of_uint (Nat.to_uint n).

(** [str(z)] for an int. *)
Definition string_of_Z (z : Z) : string :=
  NilZero.string_of_int (Z.to_int z).

Definition upper_ascii (c : ascii) : ascii :=
  let n := nat_of_ascii c in
  if ((97 <=? n) && (n <=? 122))%nat then ascii_of_nat (n - 32) else c.

(** [s.upper()] for an ASCII [s] *)
Fixpoint ascii_upper (s : string) : string :=
  match s with
  | EmptyString => EmptyString
  | String c rest => String (upper_ascii c) (ascii_upper rest)
  end.

(** The ASCII characters for which [str.isspace] holds: tab, line feed,
    vertical tab, form feed, carriage return, the four separators
    0x1c-0x1f and the space. *)
Definition is_space (c : ascii) : bool :=
  let n := nat_of_ascii c in
  (((9 <=? n) && (n <=? 13)) || ((28 <=? n) && (n <=? 32)))%nat.

(** The characters [int] skips around an ASCII literal: those of C's
    [isspace], which leave the four separators out. *)
Definition is_c_space (c : ascii) : bool :=
  let n := nat_of_ascii c in
  (((9 <=? n) && (n <=? 13)) || (n =? 32))%nat.

Fixpoint lstrip (space : ascii -> bool) (s : string) : string :=
  match s with
  | EmptyString => EmptyString
  | String c rest => if space c then lstrip space rest else s
  end.

Fixpoint rstrip (space : ascii -> bool) (s : string) : string :=
  match s with
  | EmptyString => EmptyString
  | String c rest =>
      match rstrip space rest with
      | EmptyString => if space c then EmptyString else String c EmptyString
      | rest' => String c rest'
      end
  end.

(** [s.strip()] for an ASCII [s] *)
Definition ascii_strip (s : string) : string :=
  rstrip is_space (lstrip is_space s).

Definition digit_of (c : ascii) : option Z :=
  let n := nat_of_ascii c in
  if ((48 <=? n) && (n <=? 57))%nat then Some (Z.of_nat (n - 48)) else None.

(** The digits of an integer literal as [int] reads them in base 10:
    at least one digit, single underscores allowed between digits.
    [after_digit] tells whether the previous character was a digit. *)
Fixpoint parse_digits (s : string) (acc : Z) (after_digit : bool) : option Z :=
  match s with
  | EmptyString => if after_digit then Some acc else None
  | String c rest =>
      match digit_of c with
      | Some d => parse_digits rest (10 * acc + d) true
      | None =>
          if Ascii.eqb c "_" && after_digit then parse_digits rest acc false
          else None
      end
  end.

(** [int(s)] for an ASCII string, the limit on its length apart:
    surrounding whitespace is dropped, then an optional sign and the
    digits. *)
Definition parse_int (s : string) : option Z :=
  match rstrip is_c_space (lstrip is_c_space s) with
  | String "-" rest => option_map Z.opp (parse_digits rest 0 false)
  | String "+" rest => parse_digits rest 0 false
  | s' => parse_digits s' 0 false
  end.

(** The number of digits among the characters of [s]. *)
Definition count_digits (s : string) : Z :=
  Z.of_nat
    (List.length
       (filter (fun c => match digit_of c with Some _ => true | None => false end)
          (list_ascii_of_string s))).

(** The limit [int] puts on a decimal literal: one of more than
    [max_str_digits] digits is refused, unless the limit is 0 (there is
    none) or the literal has no more than 640 digits (the limit is not
    looked at below that). *)
Definition too_long (max_str_digits : Z) (s : string) : bool :=
  let digits := count_digits (rstrip is_c_space (lstrip is_c_space s)) in
  (640 <? digits) && (0 <? max_str_digits) && (max_str_digits <? digits).

(** [int(f)] for a float: truncation toward zero. *)
Definition trunc_float (f : float) : exn Z :=
  match Prim2SF f with
  | S754_zero _ => Val 0
  | S754_finite s m e =>
      let a := if 0 <=? e then Z.pos m * 2 ^ e else Z.pos m / 2 ^ (- e) in
      Val (if s then - a else a)
  | S754_infinity _ => Raise
  | S754_nan => Raise
  end.


(* ===================================================================== *)
(** ** validators.py *)
(* ===================================================================== *)

Module Validators.

(** One iteration of the loop over [Positions]; [None] when the element
    passes, otherwise the message of the first check that fails. *)
Definition check_position (i : nat) (pos : pyval) : option string :=
  match pos with
  | PDict d =>
      match dict_get d "ticker", dict_get d "quantity",
            dict_get d "purchase_price" with
      | None, _, _ =>
          Some ("Position at index " ++ string_of_nat i ++ " missing 'ticker'")
      | Some _, None, _ =>
          Some ("Position at index " ++ string_of_nat i ++ " missing 'quantity'")
      | Some _, Some _, None =>
          Some ("Position at index " ++ string_of_nat i
                ++ " missing 'purchase_price'")
      | Some t, Some q, Some pp =>
          if negb (is_str t) then
            Some ("Position at index " ++ string_of_nat i
                  ++ ": 'ticker' must be a string")
          else if negb (is_int_or_float q) then
            Some ("Position at index " ++ string_of_nat i
                  ++ ": 'quantity' must be a number")
          else if negb (is_int_or_float pp) then
            Some ("Position at index " ++ string_of_nat i
                  ++ ": 'purchase_price' must be a number")
          else None
      end
  | _ => Some ("Position at index " ++ string_of_nat i ++ " must be an object")
  end.

(** One iteration of the loop over [Market_Summary]. *)
Definition check_summary (i : nat) (item : pyval) : option string :=
  match item with
  | PDict d =>
      match dict_get d "ticker", dict_get d "current_price",
            dict_get d "category" with
      | None, _, _ =>
          Some ("Market_Summary at index " ++ string_of_nat i
                ++ " missing 'ticker'")
      | Some _, None, _ =>
          Some ("Market_Summary at index " ++ string_of_nat i
                ++ " missing 'current_price'")
      | Some _, Some _, None =>
          Some ("Market_Summary at index " ++ string_of_nat i
                ++ " missing 'category'")
      | Some t, Some cp, Some c =>
          if negb (is_str t) then
            Some ("Market_Summary at index " ++ string_of_nat i
                  ++ ": 'ticker' must be a string")
          else if negb (is_int_or_float cp) then
            Some ("Market_Summary at index " ++ string_of_nat i
                  ++ ": 'current_price' must be a number")
          else if negb (is_str c) then
            Some ("Market_Summary at index " ++ string_of_nat i
                  ++ ": 'category' must be a string")
          else None
      end
  | _ => Some ("Market_Summary item at index " ++ string_of_nat i
               ++ " must be an object")
  end.

(** One iteration of the loop over [market_history]. *)
Definition check_history (i : nat) (item : pyval) : option string :=
  match item with
  | PDict d =>
      match dict_get d "ticker", dict_get d "price", dict_get d "day" with
      | None, _, _ =>
          Some ("market_history at index " ++ string_of_nat i
                ++ " missing 'ticker'")
      | Some _, None, _ =>
          Some ("market_history at index " ++ string_of_nat i
                ++ " missing 'price'")
      | Some _, Some _, None =>
          Some ("market_history at index " ++ string_of_nat i ++ " missing 'day'")
      | Some t, Some pr, Some dy =>
          if negb (is_str t) then
            Some ("market_history at index " ++ string_of_nat i
                  ++ ": 'ticker' must be a string")
          else if negb (is_int_or_float pr) then
            Some ("market_history at index " ++ string_of_nat i
                  ++ ": 'price' must be a number")
          else if negb (is_int_or_str dy) then
            Some ("market_history at index " ++ string_of_nat i
                  ++ ": 'day' must be a string or integer")
          else None
      end
  | _ => Some ("market_history item at index " ++ string_of_nat i
               ++ " must be an object")
  end.

(** [for i, x in enumerate(xs)] with a body that may [return] a message:
    the message of the first element that fails, counting from [i]. *)
Fixpoint first_failure (check : nat -> pyval -> option string) (i : nat)
  (xs : list pyval) : option string :=
  match xs with
  | [] => None
  | x :: rest =>
      match check i x with
      | Some msg => Some msg
      | None => first_failure check (S i) rest
      end
  end.

(** The three sections share one shape: present, a list, not empty, every
    element accepted.  The messages are passed in because the source
    spells the empty [Market_Summary] differently from the others. *)
Definition check_section (payload : dict) (key : string)
  (msg_missing msg_not_list msg_empty : string)
  (check : nat -> pyval -> option string) : option string :=
  match dict_get payload key with
  | None => Some msg_missing
  | Some (PList []) => Some msg_empty
  | Some (PList items) => first_failure check 0 items
  | Some _ => Some msg_not_list
  end.

Definition validate_tick_payload (payload : pyval) : bool * string :=
  match payload with
  | PDict d =>
      match check_section d "Positions"
              "Missing required field: Positions"
              "Positions must be a list"
              "Positions must be a non-empty list" check_position with
      | Some msg => (false, msg)
      | None =>
      match check_section d "Market_Summary"
              "Missing required field: Market_Summary"
              "Market_Summary must be a list"
              "Market Summary must be a non-empty list" check_summary with
      | Some msg => (false, msg)
      | None =>
      match check_section d "market_history"
              "Missing required field: market_history"
              "market_history must be a list"
              "market_history must be a non-empty list" check_history with
      | Some msg => (false, msg)
      | None =>
          match dict_get d "DAY" with
          | Some day =>
              if negb (is_str day)
              then (false, "DAY must be a string in 'yyyy-mm-dd' format")
              else (true, "")
          | None => (true, "")
          end
      end end end
  | _ => (false, "Payload must be a JSON object")
  end.

End Validators.

(* ===================================================================== *)
(** ** The surroundings of the program *)
(* ===================================================================== *)

(** The text of a JSON document, represented by what [json.loads] (or
    [response.json()]) makes of it. *)
Inductive json_text : Type :=
| Unparsable
| Parses (v : pyval).

(** One entry of [choice.message.tool_calls]: [call.type],
    [call.function.name] and [call.function.arguments or "{}"]. *)
Record tool_call : Type := {
  call_type : string;
  function_name : string;
  function_arguments : json_text
}.

(** What [_client.chat.completions.create(...)] followed by
    [resp.choices[0]] gives: an exception, or a message with its [content]
    and its [tool_calls], either of which may be [None]. *)
Inductive llm_outcome : Type :=
| LlmRaises
| LlmMessage (content : option string) (tool_calls : option (list tool_call)).

(** What [requests.post(...)] gives: an exception, or a response with its
    [status_code] and body. *)
Inductive http_outcome : Type :=
| HttpRaises
| HttpResponse (status_code : Z) (body : json_text).

(** Everything the program takes from outside its own code. *)
Record env : Type := {
  (** [repr] of a float, a list or a dict, which is what [str] returns for
      them; left uninterpreted *)
  py_repr : pyval -> string;
  (** [s.upper()], [s.strip()] and [int(s)] ([None] when it raises) for a
      string [s] that is not ASCII; left uninterpreted *)
  unicode_upper : string -> string;
  unicode_strip : string -> string;
  unicode_int : string -> option Z;
  (** [sys.get_int_max_str_digits()]: 4300 unless configured otherwise,
      and 0 in an interpreter that has no such limit *)
  int_max_str_digits : Z;
  (** the language model, asked about a payload *)
  chat_completion : pyval -> llm_outcome;
  (** the trade-execution service, sent a request body *)
  post_make_trade : pyval -> http_outcome;
  (** [os.getenv('MOTHERSHIP_API_KEY')] *)
  MOTHERSHIP_API_KEY : option string;
  (** [datetime.now().strftime('%Y-%m-%d')] *)
  today : string
}.

(** A recommendation is the dict [{"action", "ticker", "quantity"}] that
    [evaluate_portfolio] and the fallback of [analyze_tick] build: two
    strings and an int, by construction. *)
Record recommendation : Type := {
  action : string;
  ticker : string;
  quantity : Z
}.

Definition rec_dict (r : recommendation) : pyval :=
  PDict [("action", PStr (action r)); ("ticker", PStr (ticker r));
         ("quantity", PInt (quantity r))].

(* ===================================================================== *)
(** ** aitool.py *)
(* ===================================================================== *)

Module AITool.

(** [str(v)] *)
Definition py_str (E : env) (v : pyval) : string :=
  match v with
  | PStr s => s
  | PNone => "None"
  | PBool true => "True"
  | PBool false => "False"
  | PInt z => string_of_Z z
  | PFloat _ | PList _ | PDict _ => py_repr E v
  end.

(** [s.upper()] *)
Definition py_upper (E : env) (s : string) : string :=
  if is_ascii s then ascii_upper s else unicode_upper E s.

(** [s.strip()] *)
Definition py_strip (E : env) (s : string) : string :=
  if is_ascii s then ascii_strip s else unicode_strip E s.

(** [int(v)] *)
Definition py_int (E : env) (v : pyval) : exn Z :=
  match v with
  | PInt z => Val z
  | PBool b => Val (Z_of_bool b)
  | PFloat f => trunc_float f
  | PStr s =>
      match (if is_ascii s
             then if too_long (int_max_str_digits E) s then None
                  else parse_int s
             else unicode_int E s) with
      | Some z => Val z
      | None => Raise
      end
  | PNone | PList _ | PDict _ => Raise
  end.

(** The body of [for item in recs]: the three fields of one item. *)
Definition normalize_item (E : env) (item : pyval) : exn recommendation :=
  a <- py_get item "action" (PStr "") ;;
  t <- py_get item "ticker" (PStr "") ;;
  q <- py_get item "quantity" (PInt 0) ;;
  qty <- py_int E q ;;
  Val {| action := py_upper E (py_str E a);
         ticker := py_strip E (py_str E t);
         quantity := qty |}.

(** The body of the [try]: [Val (Some l)] when [recommendations] is
    assigned [l], [Val None] when the [isinstance] test skips the
    assignment, [Raise] when the handler is entered. *)
Definition parse_call (E : env) (call : tool_call)
  : exn (option (list recommendation)) :=
  match function_arguments call with
  | Unparsable => Raise
  | Parses args =>
      recs <- py_get args "recommendations" (PList []) ;;
      match recs with
      | PList items =>
          normalized <-
            for_each items
              (fun normalized item =>
                 r <- normalize_item E item ;; Val (normalized ++ [r])%list)
              [] ;;
          Val (Some normalized)
      | _ => Val None
      end
  end.

(** [call.type == "function" and
    call.function.name == "set_recommendations"] *)
Definition names_schema (call : tool_call) : bool :=
  String.eqb (call_type call) "function"
  && String.eqb (function_name call) "set_recommendations".

(** The body of [for call in tool_calls], on the variable
    [recommendations]. *)
Definition scan_call (E : env) (recommendations : list recommendation)
  (call : tool_call) : list recommendation :=
  if names_schema call
  then match parse_call E call with
       | Val (Some normalized) => normalized
       | Val None => recommendations
       | Raise => recommendations
       end
  else recommendations.

Definition evaluate_portfolio (E : env) (sim_payload : pyval)
  : exn (string * list recommendation) :=
  match chat_completion E sim_payload with
  | LlmRaises => Raise
  | LlmMessage content tool_calls =>
      let assistant_text :=
        py_strip E (match content with Some s => s | None => "" end) in
      let recommendations :=
        match tool_calls with
        | Some calls => fold_left (scan_call E) calls []
        | None => []
        end in
      Val (assistant_text, recommendations)
  end.

End AITool.

(* ===================================================================== *)
(** ** business.py *)
(* ===================================================================== *)

Module Business.

(** A file of the working directory: absent, present with content that
    [json.load] rejects, or holding a JSON document. *)
Inductive file : Type :=
| Missing
| Corrupt
| Holds (doc : pyval).

(** [current_positions.txt] and [trading_log.txt]. *)
Record files : Type := {
  POSITIONS_FILE : file;
  TRADING_HISTORY_FILE : file
}.

Definition write_positions (fs : files) (doc : pyval) : files :=
  {| POSITIONS_FILE := Holds doc;
     TRADING_HISTORY_FILE := TRADING_HISTORY_FILE fs |}.

Definition write_history (fs : files) (doc : pyval) : files :=
  {| POSITIONS_FILE := POSITIONS_FILE fs;
     TRADING_HISTORY_FILE := Holds doc |}.

(** A function that may raise and may change the files; the files are
    returned in either case. *)
Definition io (A : Type) : Type := files -> exn A * files.

Definition io_bind {A B : Type} (m : io A) (k : A -> io B) : io B :=
  fun fs => match m fs with
            | (Val a, fs') => k a fs'
            | (Raise, fs') => (Raise, fs')
            end.

Definition io_ret {A : Type} (a : A) : io A := fun fs => (Val a, fs).

(** A computation that does not touch the files. *)
Definition pure {A : Type} (m : exn A) : io A := fun fs => (m, fs).

Notation "x <~ m ;; k" := (io_bind m (fun x => k))
  (at level 61, m at next level, right associativity).

(** [{item['ticker']: item['current_price'] for item in market_summary}].
    The keys of this dict are the tickers of [Market_Summary], which
    [validate_tick_payload] has checked to be strings before [analyze_tick]
    runs, so the embedding keeps string keys only: a ticker that is a list
    or a dict raises, as an unhashable key does, and so does here any other
    ticker that is not a string. *)
Definition price_dict (market_summary : pyval) : exn dict :=
  items <- py_iter market_summary ;;
  for_each items
    (fun prices item =>
       t <- py_getitem item "ticker" ;;
       p <- py_getitem item "current_price" ;;
       match t with
       | PStr k => Val (dict_set prices k p)
       | _ => Raise
       end)
    [].

(** [prices.get(ticker, default)] on a dict with string keys: an
    unhashable [ticker] raises, one that is no string is not found. *)
Definition prices_get (prices : dict) (ticker default : pyval) : exn pyval :=
  match ticker with
  | PStr k => Val (match dict_get prices k with Some p => p | None => default end)
  | PList _ | PDict _ => Raise
  | _ => Val default
  end.

(** [prices[ticker]] *)
Definition prices_getitem (prices : dict) (ticker : pyval) : exn pyval :=
  match ticker with
  | PStr k => match dict_get prices k with Some p => Val p | None => Raise end
  | _ => Raise
  end.

(** [ticker in prices] *)
Definition prices_mem (prices : dict) (ticker : pyval) : exn bool :=
  match ticker with
  | PStr k => Val (dict_mem prices k)
  | PList _ | PDict _ => Raise
  | _ => Val false
  end.

Definition save_positions (payload : pyval) : io unit :=
  positions_data <~ pure (
    positions <- py_get payload "Positions" (PList []) ;;
    market_summary <- py_get payload "Market_Summary" (PList []) ;;
    market_prices <- price_dict market_summary ;;
    items <- py_iter positions ;;
    for_each items
      (fun positions_data position =>
         ticker <- py_getitem position "ticker" ;;
         quantity <- py_getitem position "quantity" ;;
         purchase_price <- py_getitem position "purchase_price" ;;
         current_price <- prices_get market_prices ticker purchase_price ;;
         diff <- py_sub current_price purchase_price ;;
         unrealized_pnl <- py_mul diff quantity ;;
         rounded <- py_round2 unrealized_pnl ;;
         Val (positions_data ++
              [PDict [("ticker", ticker); ("quantity", quantity);
                      ("purchase_price", purchase_price);
                      ("current_price", current_price);
                      ("unrealized_pnl", rounded)]])%list)
      []) ;;
  fun fs => (Val tt, write_positions fs (PList positions_data)).

(** [history.append(x)]: of the JSON types only list has an [append]. *)
Definition py_append (history x : pyval) : exn pyval :=
  match history with
  | PList l => Val (PList (l ++ [x]))
  | _ => Raise
  end.

(** The history as [log_ai_recommendations] reads it: the document of
    the file, and the empty list when the file is absent or unreadable. *)
Definition load_history (fs : files) : pyval :=
  match TRADING_HISTORY_FILE fs with
  | Holds doc => doc
  | Missing | Corrupt => PList []
  end.

(** The [transaction] built for one recommendation. *)
Definition transaction (date_str : pyval) (price_lookup : dict)
  (rec : recommendation) : pyval :=
  let current_price :=
    match dict_get price_lookup (ticker rec) with
    | Some p => p
    | None => PFloat 0
    end in
  let fields :=
    [("date", date_str);
     ("ticker", PStr (ticker rec));
     ("action", PStr (action rec));
     ("price", current_price);
     ("note", PStr ("AI recommendation: " ++ action rec ++ " "
                    ++ string_of_Z (quantity rec) ++ " shares"))] in
  PDict (if 0 <? quantity rec
         then fields ++ [("quantity", PInt (quantity rec))]
         else fields)%list.

Definition log_ai_recommendations (recommendations : list recommendation)
  (date_str market_summary : pyval) : io unit :=
  fun fs =>
    let history := load_history fs in
    match
      price_lookup <- price_dict market_summary ;;
      for_each recommendations
        (fun history rec =>
           py_append history (transaction date_str price_lookup rec))
        history
    with
    | Val history' => (Val tt, write_history fs history')
    | Raise => (Raise, fs)
    end.

(** A string as [if not s] tests it. *)
Definition key_present (k : option string) : bool :=
  match k with
  | Some s => negb (String.eqb s "")
  | None => false
  end.

(** The result is a Python value: [PNone] is the [None] of the three
    failure returns. *)
Definition make_trade (E : env) (trade_id : string)
  (recommendations : list recommendation) : pyval :=
  if negb (key_present (MOTHERSHIP_API_KEY E)) then PNone
  else
    let trades := map rec_dict recommendations in
    let payload := PDict [("id", PStr trade_id); ("trades", PList trades)] in
    match post_make_trade E payload with
    | HttpRaises => PNone
    | HttpResponse status_code body =>
        if status_code =? 200 then
          match body with
          | Unparsable => PNone
          | Parses result =>
              match py_get result "Positions" (PList []) with
              | Val positions => positions
              | Raise => PNone
              end
          end
        else PNone
    end.

Definition update_positions_from_api (api_positions market_summary : pyval)
  : io unit :=
  positions_data <~ pure (
    market_prices <- price_dict market_summary ;;
    items <- py_iter api_positions ;;
    for_each items
      (fun positions_data position =>
         ticker <- py_getitem position "ticker" ;;
         quantity <- py_getitem position "quantity" ;;
         purchase_price <- py_getitem position "purchase_price" ;;
         current_price <- prices_get market_prices ticker purchase_price ;;
         diff <- py_sub current_price purchase_price ;;
         unrealized_pnl <- py_mul diff quantity ;;
         rounded <- py_round2 unrealized_pnl ;;
         Val (positions_data ++
              [PDict [("ticker", ticker); ("quantity", quantity);
                      ("purchase_price", purchase_price);
                      ("current_price", current_price);
                      ("unrealized_pnl", rounded)]])%list)
      []) ;;
  fun fs => (Val tt, write_positions fs (PList positions_data)).

(** Lines 215-232 of [analyze_tick]: the loop over [positions] on the pair
    [(total_unrealized_pnl, positions_evaluated)]. *)
Definition unrealized_pnl_loop (current_prices : dict) (positions : pyval)
  : exn (pyval * Z) :=
  items <- py_iter positions ;;
  for_each items
    (fun '(total_unrealized_pnl, positions_evaluated) position =>
       ticker <- py_getitem position "ticker" ;;
       quantity <- py_getitem position "quantity" ;;
       purchase_price <- py_getitem position "purchase_price" ;;
       found <- prices_mem current_prices ticker ;;
       if found then
         current_price <- prices_getitem current_prices ticker ;;
         diff <- py_sub current_price purchase_price ;;
         position_pnl <- py_mul diff quantity ;;
         total <- py_add total_unrealized_pnl position_pnl ;;
         Val (total, positions_evaluated + 1)
       else Val (total_unrealized_pnl, positions_evaluated))
    (PFloat 0, 0).

(** [position['ticker'] != 'CASH'] *)
Definition not_cash (ticker : pyval) : bool :=
  match ticker with
  | PStr s => negb (String.eqb s "CASH")
  | _ => true
  end.

(** The handler of lines 246-255: a STAY for every position that is not
    CASH.  Only a string can be the [ticker] of a recommendation record;
    the positions reaching this loop have passed [validate_tick_payload],
    and a ticker that is no string raises here. *)
Definition fallback_recommendations (positions : pyval)
  : exn (list recommendation) :=
  items <- py_iter positions ;;
  for_each items
    (fun recommendations position =>
       t <- py_getitem position "ticker" ;;
       if not_cash t then
         t' <- py_getitem position "ticker" ;;
         match t' with
         | PStr s =>
             Val (recommendations ++
                  [{| action := "STAY"; ticker := s; quantity := 0 |}])%list
         | _ => Raise
         end
       else Val recommendations)
    [].

(** Lines 234-255 of [analyze_tick]: the [try] around the call of
    [evaluate_portfolio] and its handler. *)
Definition get_recommendations (E : env) (payload positions : pyval)
  : exn (list recommendation) :=
  match AITool.evaluate_portfolio E payload with
  | Val (assistant_text, recommendations) => Val recommendations
  | Raise => fallback_recommendations positions
  end.

(** Lines 260-275 of [analyze_tick]: log, forward, and write the
    positions file. *)
Definition log_forward_persist (E : env) (payload : pyval) (trade_id : string)
  (market_summary date_str : pyval) (recommendations : list recommendation)
  : io unit :=
  match recommendations with
  | _ :: _ =>
      _ <~ log_ai_recommendations recommendations date_str market_summary ;;
      let updated_positions := make_trade E trade_id recommendations in
      if py_truthy updated_positions
      then update_positions_from_api updated_positions market_summary
      else save_positions payload
  | [] => save_positions payload
  end.

(** The dict [analyze_tick] returns. *)
Definition tick_result (positions_evaluated unrealized_pnl : pyval) : pyval :=
  PDict [("result", PStr "success");
         ("summary",
          PDict [("positions_evaluated", positions_evaluated);
                 ("unrealized_pnl", unrealized_pnl)]);
         ("decisions", PList [])].

Definition analyze_tick (E : env) (payload : pyval) (trade_id : string)
  : io pyval :=
  positions <~ pure (py_get payload "Positions" (PList [])) ;;
  market_summary <~ pure (py_get payload "Market_Summary" (PList [])) ;;
  current_prices <~ pure (price_dict market_summary) ;;
  totals <~ pure (unrealized_pnl_loop current_prices positions) ;;
  recommendations <~ pure (get_recommendations E payload positions) ;;
  date_str <~ pure (py_get payload "DAY" (PStr (today E))) ;;
  _ <~ log_forward_persist E payload trade_id market_summary date_str
         recommendations ;;
  rounded <~ pure (py_round2 (fst totals)) ;;
  io_ret (tick_result (PInt (snd totals)) rounded).

(** [load_previous_prices]: the comprehension is that of [price_dict],
    over the rows of the positions file, with the string keys of
    [price_dict] (the tickers written for an accepted payload are
    strings); a file that is absent or unreadable, and any exception of
    the comprehension, give the empty dict. *)
Definition load_previous_prices (fs : files) : dict :=
  match POSITIONS_FILE fs with
  | Holds data =>
      match price_dict data with
      | Val prices => prices
      | Raise => []
      end
  | Missing | Corrupt => []
  end.

(** [get_dashboard_data]: the documents of the two files, each replaced
    by the empty list when the file is absent or unreadable. *)
Definition get_dashboard_data (fs : files) : pyval :=
  let positions_data :=
    match POSITIONS_FILE fs with
    | Holds doc => doc
    | Missing | Corrupt => PList []
    end in
  let trading_history :=
    match TRADING_HISTORY_FILE fs with
    | Holds doc => doc
    | Missing | Corrupt => PList []
    end in
  PDict [("positions", positions_data);
         ("trading_history", trading_history)].

End Business.

(* ===================================================================== *)
(** ** app.py *)
(* ===================================================================== *)

Module App.

(** What the routes read of a request: the four headers that may carry
    the key ([request.headers.get], [None] when the header is absent),
    [request.is_json] and [request.get_json()], which raises on a body
    that is no JSON. *)
Record request : Type := {
  header_apikey : option string;
  header_api_key : option string;
  header_x_api_key : option string;
  header_Authorization : option string;
  is_json : bool;
  get_json : json_text
}.

(** What a route returns: [jsonify(body), status], or the reply of the
    handler [except Exception as e], whose status is 500 and whose body
    is [{"result": "failure", "message": "Server error: " + str(e)}]; the
    text of the exception is not modelled. *)
Inductive response : Type :=
| Reply (body : pyval) (status : Z)
| ServerError.

(** [a or b] on two optional strings. *)
Definition py_or (a b : option string) : option string :=
  if Business.key_present a then a else b.

(** [s[n:]] *)
Fixpoint drop (n : nat) (s : string) : string :=
  match n, s with
  | O, _ => s
  | S n', String _ rest => drop n' rest
  | S _, EmptyString => EmptyString
  end.

(** The key a request presents: the first of the four headers that is
    present and not empty, without a leading ["Bearer "]. *)
Definition presented_key (req : request) : option string :=
  let api_key :=
    py_or (py_or (py_or (header_apikey req) (header_api_key req))
                 (header_x_api_key req))
          (header_Authorization req) in
  match api_key with
  | Some k =>
      if Business.key_present api_key && String.prefix "Bearer " k
      then Some (drop 7 k)
      else api_key
  | None => None
  end.

(** The negation of [not api_key or api_key != API_KEY]. *)
Definition authorized (API_KEY : string) (req : request) : bool :=
  match presented_key req with
  | Some k => negb (String.eqb k "") && String.eqb k API_KEY
  | None => false
  end.

Definition failure (message : string) : pyval :=
  PDict [("result", PStr "failure"); ("message", PStr message)].

(** The decorator: the route runs only for an authorized request. *)
Definition require_auth (API_KEY : string) (req : request)
  (f : Business.files -> response * Business.files)
  : Business.files -> response * Business.files :=
  fun fs =>
    if authorized API_KEY req then f fs
    else (Reply (failure "Unauthorized") 401, fs).

Definition healthcheck (API_KEY : string) (req : request)
  : Business.files -> response * Business.files :=
  require_auth API_KEY req
    (fun fs =>
       (Reply (PDict [("result", PStr "success");
                      ("message", PStr "Ready to Trade")]) 200, fs)).

Definition tick (E : env) (API_KEY : string) (trade_id : string)
  (req : request) : Business.files -> response * Business.files :=
  require_auth API_KEY req
    (fun fs =>
       if negb (is_json req) then
         (Reply (failure "Content-Type must be application/json") 400, fs)
       else
         match get_json req with
         | Unparsable => (ServerError, fs)
         | Parses payload =>
             let '(is_valid, error_message) :=
               Validators.validate_tick_payload payload in
             if negb is_valid then
               (Reply (failure ("Invalid payload: " ++ error_message)) 400, fs)
             else
               match Business.analyze_tick E payload trade_id fs with
               | (Val result, fs') => (Reply result 200, fs')
               | (Raise, fs') => (ServerError, fs')
               end
         end).

End App.


(* ===================================================================== *)
(** ** Vocabulary of the statements *)
(* ===================================================================== *)

(** An invocation that leaves [recommendations] as it finds it: it does
    not name the schema, or its [try] raises, or its [recommendations]
    argument is no list. *)
Definition ignored (E : env) (call : tool_call) : Prop :=
  AITool.names_schema call = false
  \/ AITool.parse_call E call = Raise
  \/ AITool.parse_call E call = Val None.

(** *** Shapes

    What the checks of [validate_tick_payload] accept, element by
    element, with Python's [isinstance]. *)

Definition position_shape (pos : pyval) : bool :=
  match pos with
  | PDict d =>
      match dict_get d "ticker", dict_get d "quantity",
            dict_get d "purchase_price" with
      | Some t, Some q, Some pp =>
          is_str t && is_int_or_float q && is_int_or_float pp
      | _, _, _ => false
      end
  | _ => false
  end.

Definition summary_shape (item : pyval) : bool :=
  match item with
  | PDict d =>
      match dict_get d "ticker", dict_get d "current_price",
            dict_get d "category" with
      | Some t, Some cp, Some c => is_str t && is_int_or_float cp && is_str c
      | _, _, _ => false
      end
  | _ => false
  end.

Definition history_shape (item : pyval) : bool :=
  match item with
  | PDict d =>
      match dict_get d "ticker", dict_get d "price", dict_get d "day" with
      | Some t, Some pr, Some dy =>
          is_str t && is_int_or_float pr && is_int_or_str dy
      | _, _, _ => false
      end
  | _ => false
  end.

(** The section [key] is present and is a non-empty list of elements of
    the given shape. *)
Definition section_shape (d : dict) (key : string) (shape : pyval -> bool)
  : bool :=
  match dict_get d key with
  | Some (PList (x :: xs)) => forallb shape (x :: xs)
  | _ => false
  end.

Definition day_shape (d : dict) : bool :=
  match dict_get d "DAY" with
  | Some day => is_str day
  | None => true
  end.

Definition accepted (payload : pyval) : bool :=
  match payload with
  | PDict d =>
      section_shape d "Positions" position_shape
      && section_shape d "Market_Summary" summary_shape
      && section_shape d "market_history" history_shape
      && day_shape d
  | _ => false
  end.

(** The list under [key] of a payload (empty when there is none). *)
Definition section_items (payload : pyval) (key : string) : list pyval :=
  match payload with
  | PDict d => match dict_get d key with
               | Some (PList items) => items
               | _ => []
               end
  | _ => []
  end.

(** The string under [key] of an element (empty when there is none). *)
Definition str_field (v : pyval) (key : string) : string :=
  match v with
  | PDict d => match dict_get d key with
               | Some (PStr s) => s
               | _ => ""
               end
  | _ => ""
  end.

(** The value under [key] of an element ([None] when there is none). *)
Definition field (v : pyval) (key : string) : pyval :=
  match v with
  | PDict d => match dict_get d key with
               | Some x => x
               | None => PNone
               end
  | _ => PNone
  end.

(** What a check says about a shape: silence when the element has it, a
    message that is not empty when it has not. *)
Definition decides (r : option string) (shape : bool) : Prop :=
  match r with
  | None => shape = true
  | Some msg => shape = false /\ msg <> ""
  end.

(** The accounting part of [analyze_tick], from the payload to the two
    numbers of the summary it returns: lines 206-232 and the rounding of
    line 282. *)
Definition accounting (payload : pyval) : exn (pyval * pyval) :=
  positions <- py_get payload "Positions" (PList []) ;;
  market_summary <- py_get payload "Market_Summary" (PList []) ;;
  current_prices <- Business.price_dict market_summary ;;
  totals <- Business.unrealized_pnl_loop current_prices positions ;;
  rounded <- py_round2 (fst totals) ;;
  Val (PInt (snd totals), rounded).

(** [f] on every element, in order, stopping at the first that raises. *)
Fixpoint map_exn {A B : Type} (f : A -> exn B) (xs : list A) : exn (list B) :=
  match xs with
  | [] => Val []
  | x :: rest => y <- f x ;; ys <- map_exn f rest ;; Val (y :: ys)
  end.

(** A trade-execution call that fails: the request raises, the status is
    not 200, or the body cannot be read as a JSON object. *)
Definition failed (outcome : http_outcome) : bool :=
  match outcome with
  | HttpRaises => true
  | HttpResponse status_code body =>
      negb (status_code =? 200)
      || match body with Parses (PDict _) => false | _ => true end
  end.

(** The request a tick posts to the trade-execution service: its id and
    its recommendations, in order. *)
Definition trade_request (trade_id : string) (recs : list recommendation)
  : pyval :=
  PDict [("id", PStr trade_id); ("trades", PList (map rec_dict recs))].

(** A success whose body reports no position: status 200 and an object
    whose [Positions] is absent or the empty list. *)
Definition reports_no_position (outcome : http_outcome) : bool :=
  match outcome with
  | HttpResponse status_code (Parses (PDict d)) =>
      (status_code =? 200)
      && match dict_get d "Positions" with
         | None | Some (PList []) => true
         | Some _ => false
         end
  | _ => false
  end.

(** [k in v] for a dict [v]. *)
Definition has_field (v : pyval) (k : string) : bool :=
  match v with
  | PDict d => dict_mem d k
  | _ => false
  end.

(** What one tick hands to [log_ai_recommendations]: the recommendations,
    the date and the market summary. *)
Definition logged : Type := list recommendation * pyval * list pyval.

Definition logged_count (t : logged) : nat := List.length (fst (fst t)).

(** The calls of [log_ai_recommendations] of successive ticks. *)
Fixpoint log_ticks (ticks : list logged) : Business.io unit :=
  match ticks with
  | [] => Business.io_ret tt
  | (recs, date_str, ms) :: rest =>
      Business.io_bind
        (Business.log_ai_recommendations recs date_str (PList ms))
        (fun _ => log_ticks rest)
  end.

(** *** The specification's reading *)

Module Spec.

(** A JSON number, and a JSON integer: [true] and [false] are neither. *)
Definition is_number (v : pyval) : bool :=
  match v with PInt _ | PFloat _ => true | _ => false end.
Definition is_integer (v : pyval) : bool :=
  match v with PInt _ => true | _ => false end.

(** Rules 2 to 4 of the Payload Validator, element by element. *)
Definition position_rule (pos : pyval) : bool :=
  match pos with
  | PDict d =>
      match dict_get d "ticker", dict_get d "quantity",
            dict_get d "purchase_price" with
      | Some t, Some q, Some pp => is_str t && is_number q && is_number pp
      | _, _, _ => false
      end
  | _ => false
  end.

Definition summary_rule (item : pyval) : bool :=
  match item with
  | PDict d =>
      match dict_get d "ticker", dict_get d "current_price",
            dict_get d "category" with
      | Some t, Some cp, Some c => is_str t && is_number cp && is_str c
      | _, _, _ => false
      end
  | _ => false
  end.

Definition history_rule (item : pyval) : bool :=
  match item with
  | PDict d =>
      match dict_get d "ticker", dict_get d "price", dict_get d "day" with
      | Some t, Some pr, Some dy =>
          is_str t && is_number pr && (is_integer dy || is_str dy)
      | _, _, _ => false
      end
  | _ => false
  end.

(** Rules 1 to 5 together. *)
Definition satisfies_rules (payload : pyval) : bool :=
  match payload with
  | PDict d =>
      section_shape d "Positions" position_rule
      && section_shape d "Market_Summary" summary_rule
      && section_shape d "market_history" history_rule
      && day_shape d
  | _ => false
  end.

(** The current price of the market-summary entry matching ticker [t],
    if there is one (the last one, should several match). *)
Fixpoint summary_price (ms : list pyval) (t : string) : option pyval :=
  match ms with
  | [] => None
  | entry :: rest =>
      match summary_price rest t with
      | Some p => Some p
      | None => if String.eqb (str_field entry "ticker") t
                then Some (field entry "current_price")
                else None
      end
  end.

Definition has_entry (ms : list pyval) (pos : pyval) : bool :=
  match summary_price ms (str_field pos "ticker") with
  | Some _ => true
  | None => false
  end.

(** [pnl = (current_price - purchase_price) * quantity] *)
Definition pnl (current_price pos : pyval) : exn pyval :=
  diff <- py_sub current_price (field pos "purchase_price") ;;
  py_mul diff (field pos "quantity").

(** The [pnl] of a position against its matching entry. *)
Definition entry_pnl (ms : list pyval) (pos : pyval) : exn pyval :=
  match summary_price ms (str_field pos "ticker") with
  | Some cp => pnl cp pos
  | None => Raise
  end.

(** Portfolio Accounting: over the positions that have a matching entry,
    their number and the sum of their [pnl] (from 0.0, in order) rounded
    to two decimals. *)
Definition accounting (positions ms : list pyval) : exn (pyval * pyval) :=
  let evaluated := filter (has_entry ms) positions in
  pnls <- map_exn (entry_pnl ms) evaluated ;;
  total <- for_each pnls py_add (PFloat 0) ;;
  rounded <- py_round2 total ;;
  Val (PInt (Z.of_nat (List.length evaluated)), rounded).

(** The snapshot row of a position: its three fields, the current price
    of the matching entry or else the purchase price, and the [pnl] at
    that price rounded to two decimals. *)
Definition snapshot_row (ms : list pyval) (pos : pyval) : exn pyval :=
  let current_price :=
    match summary_price ms (str_field pos "ticker") with
    | Some cp => cp
    | None => field pos "purchase_price"
    end in
  unrealized <- pnl current_price pos ;;
  rounded <- py_round2 unrealized ;;
  Val (PDict [("ticker", PStr (str_field pos "ticker"));
              ("quantity", field pos "quantity");
              ("purchase_price", field pos "purchase_price");
              ("current_price", current_price);
              ("unrealized_pnl", rounded)]).

(** The snapshot derived from the payload's Positions and
    Market_Summary. *)
Definition snapshot (positions ms : list pyval) : exn (list pyval) :=
  map_exn (snapshot_row ms) positions.

(** The synthetic set of the orchestrator: a STAY of quantity 0 for every
    position that is not CASH. *)
Definition stay (t : string) : recommendation :=
  {| action := "STAY"; ticker := t; quantity := 0 |}.

Definition stay_set (positions : list pyval) : list recommendation :=
  map stay
    (filter (fun t => negb (String.eqb t "CASH"))
       (map (fun pos => str_field pos "ticker") positions)).

(** *** Rounding to two decimals *)

(** The sum of the [pnl] of the positions that have a matching entry,
    from 0.0 and in order, before any rounding. *)
Definition total (positions ms : list pyval) : exn pyval :=
  pnls <- map_exn (entry_pnl ms) (filter (has_entry ms) positions) ;;
  for_each pnls py_add (PFloat 0).

(** [k] is the number of hundredths nearest to the magnitude
    [m * 2 ^ e]: with [N / D] the exact value of [100 * m * 2 ^ e], [k]
    is at most one half away from it, and is even when it is exactly one
    half away. *)
Definition nearest_hundredths (m : positive) (e k : Z) : Prop :=
  let N := Z.pos m * 100 * 2 ^ Z.max e 0 in
  let D := 2 ^ Z.max (- e) 0 in
  0 <= k
  /\ Z.abs (2 * N - 2 * k * D) <= D
  /\ (Z.abs (2 * N - 2 * k * D) = D -> Z.even k = true).

(** The double nearest to [k] hundredths, with the sign [s]. *)
Definition hundredths (s : bool) (k : Z) : float :=
  match k with
  | Z.pos p =>
      SF2Prim (SFdiv prec emax (S754_finite s p 0) (S754_finite false 100 0))
  | _ => if s then PrimFloat.neg_zero else PrimFloat.zero
  end.

(** [r] is [x] rounded to two decimals: a finite [x] becomes the nearest
    number of hundredths, ties going to the even one; a zero, an infinity
    and NaN are left as they are. *)
Definition two_decimals (x r : float) : Prop :=
  match Prim2SF x with
  | S754_finite s m e => exists k, nearest_hundredths m e k /\ r = hundredths s k
  | _ => r = x
  end.

(** A number that no operation of the accounting can take out of the
    range of the doubles: a float, a boolean, or an int below [2 ^ 26]
    in magnitude. *)
Definition plain_number (v : pyval) : bool :=
  match v with
  | PFloat _ | PBool _ => true
  | PInt z => Z.abs z <? 2 ^ 26
  | _ => false
  end.

Definition plain_position (pos : pyval) : bool :=
  plain_number (field pos "quantity")
  && plain_number (field pos "purchase_price").

Definition plain_summary (item : pyval) : bool :=
  plain_number (field item "current_price").

(** *** Text and integers of the Recommendation Requester *)

(** The text of a field that may be absent: [str] of its value, and the
    empty string without it; and the quantity of an item, 0 when it is
    absent. *)
Definition text (E : env) (value : option pyval) : string :=
  match value with
  | Some v => AITool.py_str E v
  | None => ""
  end.

Definition amount (value : option pyval) : pyval :=
  match value with
  | Some q => q
  | None => PInt 0
  end.

(** ASCII text: no character has its top bit set. *)
Definition ascii_text (s : string) : bool :=
  forallb (fun c => match c with Ascii _ _ _ _ _ _ _ top => negb top end)
    (list_ascii_of_string s).

(** The place of a character in a table of characters. *)
Fixpoint position_in (table : string) (c : ascii) : option nat :=
  match table with
  | EmptyString => None
  | String x rest =>
      if Ascii.eqb c x then Some O else option_map S (position_in rest c)
  end.

(** The capital of a small letter, read off the two alphabets; any other
    character is its own. *)
Definition capital (c : ascii) : ascii :=
  match position_in "abcdefghijklmnopqrstuvwxyz" c with
  | Some i =>
      match String.get i "ABCDEFGHIJKLMNOPQRSTUVWXYZ" with
      | Some u => u
      | None => c
      end
  | None => c
  end.

Definition uppercase (s : string) : string :=
  string_of_list_ascii (map capital (list_ascii_of_string s)).

(** Upper case: of ASCII text, letter by letter; of any other text, what
    the tables of the interpreter give. *)
Definition upper (E : env) (s : string) : string :=
  if ascii_text s then uppercase s else unicode_upper E s.

(** The whitespace of ASCII, and the part of it that an integer literal
    may be padded with. *)
Definition whitespace : list nat := [9; 10; 11; 12; 13; 28; 29; 30; 31; 32]%nat.
Definition padding : list nat := [9; 10; 11; 12; 13; 32]%nat.

Definition among (codes : list nat) (c : ascii) : bool :=
  existsb (Nat.eqb (nat_of_ascii c)) codes.

Fixpoint drop_while (p : ascii -> bool) (l : list ascii) : list ascii :=
  match l with
  | [] => []
  | c :: rest => if p c then drop_while p rest else l
  end.

(** [s] without the characters of [codes] at either end. *)
Definition trimmed (codes : list nat) (s : string) : string :=
  string_of_list_ascii
    (rev (drop_while (among codes)
            (rev (drop_while (among codes) (list_ascii_of_string s))))).

(** Trimming: ASCII text loses the whitespace at either end; any other
    text, what the tables of the interpreter say. *)
Definition trim (E : env) (s : string) : string :=
  if ascii_text s then trimmed whitespace s else unicode_strip E s.

(** The value of a decimal digit. *)
Definition digit (c : ascii) : option Z :=
  option_map Z.of_nat (position_in "0123456789" c).

(** A numeral and its value: digits, with single underscores allowed
    between two of them. *)
Inductive numeral : string -> Z -> Prop :=
| numeral_digit (c : ascii) (d : Z) :
    digit c = Some d -> numeral (String c "") d
| numeral_more (s : string) (z : Z) (c : ascii) (d : Z) :
    numeral s z -> digit c = Some d ->
    numeral (s ++ String c "") (10 * z + d)
| numeral_underscore (s : string) (z : Z) (c : ascii) (d : Z) :
    numeral s z -> digit c = Some d ->
    numeral (s ++ String "_" (String c "")) (10 * z + d).

(** The number of digits among the characters of [s]. *)
Definition digits (s : string) : Z :=
  Z.of_nat
    (List.length
       (filter (fun c => match digit c with Some _ => true | None => false end)
          (list_ascii_of_string s))).

(** A literal that [int] agrees to read: it has no more than 640 digits,
    or there is no limit on them, or it is within the limit. *)
Definition readable (E : env) (s : string) : Prop :=
  digits s <= 640 \/ int_max_str_digits E <= 0
  \/ digits s <= int_max_str_digits E.

(** An integer literal: a numeral, with a sign or without. *)
Inductive literal : string -> Z -> Prop :=
| literal_unsigned (s : string) (z : Z) : numeral s z -> literal s z
| literal_plus (s : string) (z : Z) : numeral s z -> literal (String "+" s) z
| literal_minus (s : string) (z : Z) :
    numeral s z -> literal (String "-" s) (- z).

(** [z] is the float [f] without its fraction: [f] is finite, [z] has
    its sign, and the magnitude of [z] is the greatest integer that is
    not above the magnitude [N / D] of [f]. *)
Definition truncation (f : float) (z : Z) : Prop :=
  match Prim2SF f with
  | S754_zero _ => z = 0
  | S754_finite s m e =>
      let N := Z.pos m * 2 ^ Z.max e 0 in
      let D := 2 ^ Z.max (- e) 0 in
      Z.abs z * D <= N < (Z.abs z + 1) * D
      /\ (if s then z <= 0 else 0 <= z)
  | S754_infinity _ | S754_nan => False
  end.

(** Coercion to an integer: an int is its own, a boolean is 0 or 1, a
    float loses its fraction, and a string is read as a padded integer
    literal of a readable length (by the tables of the interpreter when
    it is not ASCII).  Nothing else coerces. *)
Inductive coerces (E : env) : pyval -> Z -> Prop :=
| coerces_int (z : Z) : coerces E (PInt z) z
| coerces_true : coerces E (PBool true) 1
| coerces_false : coerces E (PBool false) 0
| coerces_float (f : float) (z : Z) :
    truncation f z -> coerces E (PFloat f) z
| coerces_literal (s : string) (z : Z) :
    ascii_text s = true -> literal (trimmed padding s) z ->
    readable E (trimmed padding s) ->
    coerces E (PStr s) z
| coerces_unicode (s : string) (z : Z) :
    ascii_text s = false -> unicode_int E s = Some z ->
    coerces E (PStr s) z.

End Spec.

(* ===================================================================== *)
(** ** Sample data *)
(* ===================================================================== *)

Module Sample.

Definition position (t : string) (q pp : pyval) : pyval :=
  PDict [("ticker", PStr t); ("quantity", q); ("purchase_price", pp)].

Definition summary (t : string) (cp : pyval) (c : string) : pyval :=
  PDict [("ticker", PStr t); ("current_price", cp); ("category", PStr c)].

Definition history (t : string) (pr : pyval) (day : Z) : pyval :=
  PDict [("ticker", PStr t); ("price", pr); ("day", PInt day)].

(** The payload quoted at the head of [aitool.py]. *)
Definition positions : list pyval :=
  [position "AAPL" (PInt 10) (PFloat 180.0);
   position "MSFT" (PInt 5) (PFloat 410.0);
   position "CASH" (PInt 1000) (PFloat 1.0)].

Definition market_summary : list pyval :=
  [summary "AAPL" (PFloat 182.5) "high";
   summary "MSFT" (PFloat 405.0) "low"].

Definition market_history : list pyval :=
  [history "AAPL" (PFloat 179.8) 1; history "AAPL" (PFloat 181.2) 2;
   history "MSFT" (PFloat 409.5) 1; history "MSFT" (PFloat 405.0) 2].

Definition payload : pyval :=
  PDict [("Positions", PList positions);
         ("Market_Summary", PList market_summary);
         ("market_history", PList market_history)].

(** The positions and summary of the Portfolio Accounting example, in a
    payload of the accepted shape. *)
Definition one_position : pyval :=
  PDict [("Positions", PList [position "AAPL" (PInt 10) (PFloat 180.0)]);
         ("Market_Summary", PList [summary "AAPL" (PFloat 182.5) "high"]);
         ("market_history", PList market_history)].

(** A payload whose only position has the quantity [true]. *)
Definition boolean_quantity : pyval :=
  PDict [("Positions", PList [position "AAPL" (PBool true) (PFloat 180.0)]);
         ("Market_Summary", PList market_summary);
         ("market_history", PList market_history)].

(** An accepted payload whose quoted position has a quantity beyond the
    doubles, and one where the unquoted CASH has. *)
Definition huge_quantity : pyval :=
  PDict [("Positions",
          PList [position "AAPL" (PInt (10 ^ 400)) (PFloat 180.0)]);
         ("Market_Summary", PList [summary "AAPL" (PFloat 182.5) "high"]);
         ("market_history", PList market_history)].

Definition huge_cash : pyval :=
  PDict [("Positions",
          PList [position "AAPL" (PInt 10) (PFloat 180.0);
                 position "CASH" (PInt (10 ^ 400)) (PFloat 1.0)]);
         ("Market_Summary", PList [summary "AAPL" (PFloat 182.5) "high"]);
         ("market_history", PList market_history)].

(** The snapshot rows of [payload]. *)
Definition rows : list pyval :=
  [PDict [("ticker", PStr "AAPL"); ("quantity", PInt 10);
          ("purchase_price", PFloat 180.0); ("current_price", PFloat 182.5);
          ("unrealized_pnl", PFloat 25.0)];
   PDict [("ticker", PStr "MSFT"); ("quantity", PInt 5);
          ("purchase_price", PFloat 410.0); ("current_price", PFloat 405.0);
          ("unrealized_pnl", PFloat (-25.0))];
   PDict [("ticker", PStr "CASH"); ("quantity", PInt 1000);
          ("purchase_price", PFloat 1.0); ("current_price", PFloat 1.0);
          ("unrealized_pnl", PFloat 0.0)]].

Definition no_files : Business.files :=
  {| Business.POSITIONS_FILE := Business.Missing;
     Business.TRADING_HISTORY_FILE := Business.Missing |}.

(** An environment built from one answer of the language model and one of
    the trade service.  The samples never take [str] of a float, a list
    or a dict, and their strings are ASCII, so [py_repr] and the three
    Unicode functions are not consulted. *)
Definition world (llm : llm_outcome) (http : http_outcome) : env :=
  {| py_repr := fun _ => "";
     unicode_upper := fun s => s;
     unicode_strip := fun s => s;
     unicode_int := fun _ => None;
     int_max_str_digits := 4300;
     chat_completion := fun _ => llm;
     post_make_trade := fun _ => http;
     MOTHERSHIP_API_KEY := Some "secret";
     today := "2025-01-01" |}.

(** A trade service that treats the request of tick [t1] in its own way
    and confirms 12 AAPL to every other request, behind a language model
    that is down. *)
Definition confirmation : http_outcome :=
  HttpResponse 200
    (Parses (PDict [("Positions",
                     PList [position "AAPL" (PInt 12) (PFloat 181.0)])])).

Definition service_for_t1 (answer : http_outcome) : env :=
  {| py_repr := fun _ => "";
     unicode_upper := fun s => s;
     unicode_strip := fun s => s;
     unicode_int := fun _ => None;
     int_max_str_digits := 4300;
     chat_completion := fun _ => LlmRaises;
     post_make_trade :=
       fun request =>
         if String.eqb (str_field request "id") "t1" then answer
         else confirmation;
     MOTHERSHIP_API_KEY := Some "secret";
     today := "2025-01-01" |}.

Definition item (a t : string) (q : pyval) : pyval :=
  PDict [("action", PStr a); ("ticker", PStr t); ("quantity", q)].

(** The literal of [10 ^ n]. *)
Definition power_of_ten (n : nat) : string :=
  String "1" (string_of_list_ascii (repeat "0"%char n)).

(** A [set_recommendations] invocation carrying [items]. *)
Definition invocation (items : list pyval) : tool_call :=
  {| call_type := "function";
     function_name := "set_recommendations";
     function_arguments :=
       Parses (PDict [("recommendations", PList items)]) |}.

Definition answers (calls : list tool_call) : llm_outcome :=
  LlmMessage None (Some calls).

End Sample.

(* ===================================================================== *)
(** ** Vocabulary of the further properties *)
(* ===================================================================== *)

(** [isinstance(v, dict)] *)
Definition is_object (v : pyval) : bool :=
  match v with PDict _ => true | _ => false end.

(** An element that the row loop of [update_positions_from_api] cannot
    read: it is no object, or one of the three fields is missing. *)
Definition unreadable_position (pos : pyval) : bool :=
  match py_getitem pos "ticker", py_getitem pos "quantity",
        py_getitem pos "purchase_price" with
  | Val _, Val _, Val _ => false
  | _, _, _ => true
  end.

(** A position whose two numbers are floats, and a market-summary entry
    whose price is one. *)
Definition float_position (pos : pyval) : bool :=
  match field pos "quantity", field pos "purchase_price" with
  | PFloat _, PFloat _ => true
  | _, _ => false
  end.

Definition float_summary (item : pyval) : bool :=
  match field item "current_price" with
  | PFloat _ => true
  | _ => false
  end.

(** A float, or an int (a boolean counting as one) below [b] in
    magnitude. *)
Definition within (b : Z) (v : pyval) : Prop :=
  match as_num v with
  | Val (NInt z) => Z.abs z < b
  | Val (NFloat _) => True
  | Raise => False
  end.

(** Case analysis on the 256 characters. *)
Ltac each_character c := destruct c as [[] [] [] [] [] [] [] []].

(** A request that carries the key [k] in the header [Authorization]
    only, and one that carries no header at all. *)
Definition bearer_request (k : string) (json : bool) (body : json_text)
  : App.request :=
  {| App.header_apikey := None;
     App.header_api_key := None;
     App.header_x_api_key := None;
     App.header_Authorization := Some ("Bearer " ++ k);
     App.is_json := json;
     App.get_json := body |}.

(* ===================================================================== *)
(** ** General facts about the embedding *)
(* ===================================================================== *)

Lemma dict_get_set_eq (d : dict) (k : string) (v : pyval) :
  dict_get (dict_set d k v) k = Some v.
Proof.
  induction d as [|[k' v'] d IH]; simpl.
  - now rewrite String.eqb_refl.
  - destruct (String.eqb k' k) eqn:Hk; simpl; rewrite Hk; auto.
Qed.

Lemma dict_get_set_neq (d : dict) (k k' : string) (v : pyval) :
  k <> k' -> dict_get (dict_set d k v) k' = dict_get d k'.
Proof.
  intros Hne. induction d as [|[k0 v0] d IH]; simpl.
  - destruct (String.eqb_spec k k'); [contradiction | reflexivity].
  - destruct (String.eqb_spec k0 k) as [->|Hk0]; simpl.
    + destruct (String.eqb_spec k k'); [contradiction | reflexivity].
    + destruct (String.eqb k0 k'); auto.
Qed.

(** A [for] loop over a string visits its characters, not its bytes:
    the two bytes of U+00E9 are one item. *)
Example iteration_by_character :
  let e_acute := String (ascii_of_nat 195) (String (ascii_of_nat 169) "") in
  py_iter (PStr ("a" ++ e_acute ++ "b"))
  = Val [PStr "a"; PStr e_acute; PStr "b"].
Proof. reflexivity. Qed.

(* ===================================================================== *)
(** ** The recommendation requester *)
(* ===================================================================== *)

Section Requester.
Import AITool.
Variable E : env.

Lemma scan_call_assigns (recs l : list recommendation) (call : tool_call) :
  names_schema call = true -> parse_call E call = Val (Some l) ->
  scan_call E recs call = l.
Proof.
  unfold scan_call. intros -> ->. reflexivity.
Qed.

Lemma scan_call_ignored (recs : list recommendation) (call : tool_call) :
  ignored E call -> scan_call E recs call = recs.
Proof.
  unfold scan_call, ignored.
  intros [-> | [-> | ->]]; [reflexivity | |];
    now destruct (names_schema call).
Qed.

Lemma scan_ignored_calls (recs : list recommendation) (calls : list tool_call) :
  Forall (ignored E) calls -> fold_left (scan_call E) calls recs = recs.
Proof.
  induction 1 as [|c cs Hc _ IH]; simpl; [reflexivity|].
  now rewrite scan_call_ignored.
Qed.

(** The loop over the items of a batch stops at the first one that
    raises, whatever was normalized before it. *)
Lemma normalize_loop_raises (items : list pyval) (acc : list recommendation) :
  Exists (fun item => normalize_item E item = Raise) items ->
  for_each items
    (fun normalized item =>
       r <- normalize_item E item ;; Val (normalized ++ [r])%list) acc = Raise.
Proof.
  intros H. revert acc. induction H as [x xs Hx | x xs _ IH]; intros acc; simpl.
  - now rewrite Hx.
  - destruct (normalize_item E x); simpl; auto.
Qed.

End Requester.

(* ===================================================================== *)
(** ** Text and integers *)
(* ===================================================================== *)

Lemma ascii_bound_top (c : ascii) :
  (nat_of_ascii c <? 128)%nat
  = match c with Ascii _ _ _ _ _ _ _ top => negb top end.
Proof. each_character c; reflexivity. Qed.

Lemma is_ascii_text (s : string) : is_ascii s = Spec.ascii_text s.
Proof.
  unfold is_ascii, Spec.ascii_text.
  induction (list_ascii_of_string s) as [|c l IH]; simpl; [reflexivity|].
  now rewrite ascii_bound_top, IH.
Qed.

Lemma upper_ascii_capital (c : ascii) : upper_ascii c = Spec.capital c.
Proof. each_character c; reflexivity. Qed.

Lemma ascii_upper_uppercase (s : string) : ascii_upper s = Spec.uppercase s.
Proof.
  unfold Spec.uppercase. induction s as [|c s IH]; simpl; [reflexivity|].
  now rewrite upper_ascii_capital, IH.
Qed.

Lemma is_space_whitespace (c : ascii) :
  is_space c = Spec.among Spec.whitespace c.
Proof. each_character c; reflexivity. Qed.

Lemma is_c_space_padding (c : ascii) :
  is_c_space c = Spec.among Spec.padding c.
Proof. each_character c; reflexivity. Qed.

Lemma digit_of_digit (c : ascii) : digit_of c = Spec.digit c.
Proof. each_character c; reflexivity. Qed.

Section Stripping.
Variables (space : ascii -> bool) (codes : list nat).
Hypothesis space_codes : forall c, space c = Spec.among codes c.

Lemma lstrip_drop_while (s : string) :
  list_ascii_of_string (lstrip space s)
  = Spec.drop_while (Spec.among codes) (list_ascii_of_string s).
Proof.
  induction s as [|c s IH]; simpl; [reflexivity|].
  rewrite <- space_codes. now destruct (space c).
Qed.

Lemma drop_while_snoc (l : list ascii) (c : ascii) :
  Spec.drop_while (Spec.among codes) (l ++ [c])
  = match Spec.drop_while (Spec.among codes) l with
    | [] => if Spec.among codes c then [] else [c]
    | kept => kept ++ [c]
    end%list.
Proof.
  induction l as [|x l IH]; simpl; [reflexivity|].
  destruct (Spec.among codes x); [exact IH | reflexivity].
Qed.

Lemma rstrip_drop_while (s : string) :
  list_ascii_of_string (rstrip space s)
  = rev (Spec.drop_while (Spec.among codes) (rev (list_ascii_of_string s))).
Proof.
  induction s as [|c s IH]; simpl; [reflexivity|].
  rewrite drop_while_snoc.
  destruct (Spec.drop_while _ (rev _)) as [|x kept].
  - destruct (rstrip space s); [|discriminate].
    rewrite <- space_codes. now destruct (space c).
  - rewrite rev_app_distr, <- IH.
    destruct (rstrip space s) as [|y t].
    + apply (f_equal (@List.length ascii)) in IH.
      rewrite length_rev in IH. discriminate.
    + reflexivity.
Qed.

Lemma strip_trimmed (s : string) :
  rstrip space (lstrip space s) = Spec.trimmed codes s.
Proof.
  unfold Spec.trimmed.
  rewrite <- lstrip_drop_while, <- rstrip_drop_while.
  now rewrite string_of_list_ascii_of_string.
Qed.

End Stripping.

Lemma ascii_strip_trimmed (s : string) :
  ascii_strip s = Spec.trimmed Spec.whitespace s.
Proof. apply strip_trimmed, is_space_whitespace. Qed.

Lemma append_nil_r (s : string) : s ++ "" = s.
Proof. induction s as [|c s IH]; simpl; congruence. Qed.

Lemma append_assoc (s t u : string) : (s ++ t) ++ u = s ++ t ++ u.
Proof. induction s as [|c s IH]; simpl; congruence. Qed.

(** The digits read by [parse_digits] after a numeral [p] of value [z]
    make a numeral with it. *)
Lemma parse_digits_numeral (t : string) :
  forall (p : string) (z r : Z), Spec.numeral p z ->
  (parse_digits t z true = Some r -> Spec.numeral (p ++ t) r)
  /\ (parse_digits t z false = Some r ->
      Spec.numeral (p ++ String "_" t) r).
Proof.
  induction t as [|c t IH]; intros p z r Hp; simpl.
  - split; [|discriminate]. intros H. inversion H; subst.
    now rewrite append_nil_r.
  - rewrite digit_of_digit. destruct (Spec.digit c) as [d|] eqn:Hd.
    + split; intros H.
      * replace (p ++ String c t) with ((p ++ String c "") ++ t)
          by now rewrite append_assoc.
        apply (IH _ (10 * z + d)); [|exact H].
        now apply Spec.numeral_more.
      * replace (p ++ String "_" (String c t))
          with ((p ++ String "_" (String c "")) ++ t)
          by now rewrite append_assoc.
        apply (IH _ (10 * z + d)); [|exact H].
        now apply Spec.numeral_underscore.
    + rewrite andb_false_r. split; [|discriminate].
      rewrite andb_true_r.
      destruct (Ascii.eqb_spec c "_") as [->|]; [|discriminate].
      now apply IH.
Qed.

Lemma parse_digits_sound (s : string) (z : Z) :
  parse_digits s 0 false = Some z -> Spec.numeral s z.
Proof.
  destruct s as [|c t]; simpl; [discriminate|].
  rewrite digit_of_digit. destruct (Spec.digit c) as [d|] eqn:Hd.
  - intros H.
    apply (parse_digits_numeral t (String c "") d z);
      [now apply Spec.numeral_digit | exact H].
  - now rewrite andb_false_r.
Qed.

Lemma parse_digits_append (s : string) (z : Z) :
  Spec.numeral s z ->
  forall t, parse_digits (s ++ t) 0 false = parse_digits t z true.
Proof.
  induction 1 as [c d Hd | s z c d _ IH Hd | s z c d _ IH Hd]; intros t.
  - simpl. now rewrite digit_of_digit, Hd.
  - rewrite append_assoc, IH. simpl. now rewrite digit_of_digit, Hd.
  - rewrite append_assoc, IH. simpl. now rewrite digit_of_digit, Hd.
Qed.

Lemma parse_digits_complete (s : string) (z : Z) :
  Spec.numeral s z -> parse_digits s 0 false = Some z.
Proof.
  intros H. rewrite <- (append_nil_r s).
  now rewrite (parse_digits_append s z H).
Qed.

Lemma numeral_head (s : string) (z : Z) :
  Spec.numeral s z ->
  exists c t d, s = String c t /\ Spec.digit c = Some d.
Proof.
  induction 1 as [c d Hd | s z c d _ IH Hd | s z c d _ IH Hd].
  - eauto.
  - destruct IH as [c' [t [d' [-> H]]]]. simpl. eauto.
  - destruct IH as [c' [t [d' [-> H]]]]. simpl. eauto.
Qed.

(** The three ways of [parse_int], by the first character left. *)
Lemma parse_int_cases (s : string) :
  parse_int s
  = match rstrip is_c_space (lstrip is_c_space s) with
    | EmptyString => None
    | String c rest =>
        if Ascii.eqb c "-" then option_map Z.opp (parse_digits rest 0 false)
        else if Ascii.eqb c "+" then parse_digits rest 0 false
        else parse_digits (String c rest) 0 false
    end.
Proof.
  unfold parse_int. destruct (rstrip _ _) as [|c rest]; [reflexivity|].
  each_character c; reflexivity.
Qed.

Lemma parse_int_literal (s : string) (z : Z) :
  parse_int s = Some z <-> Spec.literal (Spec.trimmed Spec.padding s) z.
Proof.
  rewrite parse_int_cases, (strip_trimmed _ _ is_c_space_padding).
  destruct (Spec.trimmed Spec.padding s) as [|c rest].
  - split; [discriminate|]. intros H. inversion H as [s0 z0 Hn| |]; subst.
    destruct (numeral_head _ _ Hn) as [c [t [d [Hs _]]]]. discriminate.
  - destruct (Ascii.eqb_spec c "-") as [->|Hminus];
      [|destruct (Ascii.eqb_spec c "+") as [->|Hplus]].
    + split.
      * destruct (parse_digits rest 0 false) as [z'|] eqn:Hd; [|discriminate].
        intros H. inversion H. apply Spec.literal_minus.
        now apply parse_digits_sound.
      * intros H. inversion H as [s0 z0 Hn| |s0 z0 Hn]; subst.
        -- destruct (numeral_head _ _ Hn) as [c [t [d [Hs Hd]]]].
           inversion Hs; subst. discriminate.
        -- now rewrite (parse_digits_complete _ _ Hn).
    + split.
      * intros H. apply Spec.literal_plus. now apply parse_digits_sound.
      * intros H. inversion H as [s0 z0 Hn|s0 z0 Hn|]; subst.
        -- destruct (numeral_head _ _ Hn) as [c [t [d [Hs Hd]]]].
           inversion Hs; subst. discriminate.
        -- now apply parse_digits_complete.
    + split.
      * intros H. apply Spec.literal_unsigned. now apply parse_digits_sound.
      * intros H. inversion H as [s0 z0 Hn|s0 z0 Hn|s0 z0 Hn]; subst;
          try contradiction.
        now apply parse_digits_complete.
Qed.

Lemma trunc_float_truncation (f : float) (z : Z) :
  trunc_float f = Val z <-> Spec.truncation f z.
Proof.
  unfold trunc_float, Spec.truncation.
  destruct (Prim2SF f) as [s|s| |s m e].
  - split; [now inversion 1 | now intros ->].
  - split; [discriminate | contradiction].
  - split; [discriminate | contradiction].
  - cbv zeta. destruct (Z.leb_spec 0 e) as [He|He].
    + rewrite (Z.max_l e 0), (Z.max_r (- e) 0) by lia.
      change (2 ^ 0) with 1.
      assert (0 <= Z.pos m * 2 ^ e)
        by (apply Z.mul_nonneg_nonneg; [lia | apply Z.pow_nonneg; lia]).
      set (a := Z.pos m * 2 ^ e) in *. clearbody a.
      split.
      * intros [= <-]. destruct s; split; lia.
      * intros [Hb Hs]. f_equal. destruct s; lia.
    + rewrite (Z.max_r e 0), (Z.max_l (- e) 0) by lia.
      change (2 ^ 0) with 1.
      assert (HD : 0 < 2 ^ (- e)) by (apply Z.pow_pos_nonneg; lia).
      pose proof (Z.mul_div_le (Z.pos m) _ HD).
      pose proof (Z.mul_succ_div_gt (Z.pos m) _ HD).
      assert (0 <= Z.pos m / 2 ^ (- e)) by (apply Z.div_pos; lia).
      assert (Hu : forall k, k * 2 ^ (- e) <= Z.pos m * 1 < (k + 1) * 2 ^ (- e)
                         -> k = Z.pos m / 2 ^ (- e)).
      { intros k Hk.
        apply (Z.div_unique_pos _ _ _ (Z.pos m * 1 - k * 2 ^ (- e))); lia. }
      set (a := Z.pos m / 2 ^ (- e)) in *. clearbody a.
      split.
      * intros [= <-]. destruct s; split; lia.
      * intros [Hb Hs]. f_equal. apply Hu in Hb. destruct s; lia.
Qed.

Lemma count_digits_digits (s : string) : count_digits s = Spec.digits s.
Proof.
  unfold count_digits, Spec.digits. do 2 f_equal.
  apply filter_ext. intros c. now rewrite digit_of_digit.
Qed.

Lemma too_long_readable (E : env) (s : string) :
  too_long (int_max_str_digits E) s = false
  <-> Spec.readable E (Spec.trimmed Spec.padding s).
Proof.
  unfold too_long, Spec.readable. cbv zeta.
  rewrite (strip_trimmed _ _ is_c_space_padding), count_digits_digits.
  rewrite !andb_false_iff, !Z.ltb_ge. tauto.
Qed.

Section Coercion.
Import AITool.
Variable E : env.

Lemma py_upper_upper (s : string) : py_upper E s = Spec.upper E s.
Proof.
  unfold py_upper, Spec.upper.
  now rewrite is_ascii_text, ascii_upper_uppercase.
Qed.

Lemma py_strip_trim (s : string) : py_strip E s = Spec.trim E s.
Proof.
  unfold py_strip, Spec.trim.
  now rewrite is_ascii_text, ascii_strip_trimmed.
Qed.

Lemma py_int_coerces (q : pyval) (n : Z) :
  py_int E q = Val n <-> Spec.coerces E q n.
Proof.
  split.
  - destruct q as [|b|z|f|s|l|d]; simpl; try discriminate.
    + destruct b; inversion 1; constructor.
    + inversion 1. constructor.
    + intros H. constructor. now apply trunc_float_truncation.
    + rewrite is_ascii_text.
      destruct (Spec.ascii_text s) eqn:Hs.
      * destruct (too_long (int_max_str_digits E) s) eqn:Hlong;
          [discriminate|].
        destruct (parse_int s) as [z|] eqn:Hz; [|discriminate].
        inversion 1; subst.
        apply Spec.coerces_literal;
          [exact Hs | now apply parse_int_literal | now apply too_long_readable].
      * destruct (unicode_int E s) as [z|] eqn:Hz; [|discriminate].
        inversion 1; subst. now apply Spec.coerces_unicode.
  - intros H. destruct H as [z| | |f z Hf|s z Hs Hl Hr|s z Hs Hu]; simpl;
      try reflexivity.
    + now apply trunc_float_truncation.
    + rewrite is_ascii_text, Hs.
      apply too_long_readable in Hr. apply parse_int_literal in Hl.
      now rewrite Hr, Hl.
    + now rewrite is_ascii_text, Hs, Hu.
Qed.

End Coercion.

Section RequesterClaims.
Import AITool.
Variable E : env.

(** C6.  Normalization maps an item to its action in upper case, its
    ticker without the whitespace at either end and its quantity coerced
    to an integer, for every integer the quantity coerces to; an item
    whose quantity coerces to no integer has no normal form.  Upper case,
    trimming and coercion are those of [Spec], which do not share a
    definition with the program's; an absent action or ticker counts as
    the empty string and an absent quantity as 0. *)
Theorem normalize_item_fields (d : dict) :
  (forall n, Spec.coerces E (Spec.amount (dict_get d "quantity")) n ->
     normalize_item E (PDict d)
     = Val {| action := Spec.upper E (Spec.text E (dict_get d "action"));
              ticker := Spec.trim E (Spec.text E (dict_get d "ticker"));
              quantity := n |})
  /\ ((forall n, ~ Spec.coerces E (Spec.amount (dict_get d "quantity")) n) ->
      normalize_item E (PDict d) = Raise).
Proof.
  unfold normalize_item. cbn [py_get bind].
  rewrite py_upper_upper, py_strip_trim.
  assert (Ha : py_str E match dict_get d "action" with
                        | Some x => x
                        | None => PStr ""
                        end = Spec.text E (dict_get d "action"))
    by now destruct (dict_get d "action").
  assert (Ht : py_str E match dict_get d "ticker" with
                        | Some x => x
                        | None => PStr ""
                        end = Spec.text E (dict_get d "ticker"))
    by now destruct (dict_get d "ticker").
  rewrite Ha, Ht. fold (Spec.amount (dict_get d "quantity")). split.
  - intros n Hn. apply py_int_coerces in Hn. now rewrite Hn.
  - intros Hnone.
    destruct (py_int E (Spec.amount (dict_get d "quantity"))) as [n|] eqn:Hn;
      [|reflexivity].
    apply py_int_coerces in Hn. now destruct (Hnone n).
Qed.

(** C5, amended.  The recommendations returned are those of the last
    invocation that names the schema and whose arguments parse into a
    list of items that all normalize: every later invocation being
    ignored, what earlier ones assigned is overwritten. *)
Theorem last_parsed_invocation_wins (p : pyval) (content : option string)
  (pre post : list tool_call) (call : tool_call) (l : list recommendation) :
  chat_completion E p = LlmMessage content (Some (pre ++ call :: post)%list) ->
  names_schema call = true ->
  parse_call E call = Val (Some l) ->
  Forall (ignored E) post ->
  evaluate_portfolio E p
  = Val (py_strip E (match content with Some s => s | None => "" end), l).
Proof.
  intros Hllm Hname Hparse Hpost. unfold evaluate_portfolio.
  rewrite Hllm, fold_left_app. simpl.
  rewrite (scan_call_assigns E _ l call Hname Hparse).
  now rewrite scan_ignored_calls.
Qed.

(** C4, amended.  An item that fails to normalize makes the [try] of its
    invocation raise, so the invocation assigns nothing: the
    recommendations stay what they were before it, and no item of the
    batch is returned. *)
Theorem failed_item_discards_batch (call : tool_call) (d : dict)
  (items : list pyval) (before : list recommendation) :
  function_arguments call = Parses (PDict d) ->
  dict_get d "recommendations" = Some (PList items) ->
  Exists (fun item => normalize_item E item = Raise) items ->
  parse_call E call = Raise /\ scan_call E before call = before.
Proof.
  intros Hargs Hrecs Hbad.
  assert (Hp : parse_call E call = Raise).
  { unfold parse_call. rewrite Hargs. simpl. rewrite Hrecs.
    now rewrite normalize_loop_raises. }
  split; [exact Hp|].
  apply scan_call_ignored. right. now left.
Qed.

End RequesterClaims.

(** The item of the specification: [{"action": "sell",
    "ticker": " AAPL ", "quantity": "5"}] becomes SELL, AAPL, 5. *)
Lemma normalize_item_fields_witness :
  AITool.normalize_item (Sample.world LlmRaises HttpRaises)
    (Sample.item "sell" " AAPL " (PStr "5"))
  = Val {| action := "SELL"; ticker := "AAPL"; quantity := 5 |}.
Proof.
  apply (proj1 (normalize_item_fields (Sample.world LlmRaises HttpRaises)
                  [("action", PStr "sell"); ("ticker", PStr " AAPL ");
                   ("quantity", PStr "5")]) 5).
  apply Spec.coerces_literal; [reflexivity | | left; discriminate].
  apply Spec.literal_unsigned. apply (Spec.numeral_digit "5" 5). reflexivity.
Defined.

(** Letters beyond the sample: every small letter has its capital, a
    separator counts as whitespace for trimming but not for a literal,
    and a literal may carry a sign, padding and underscores. *)
Example normalize_item_text :
  let E := Sample.world LlmRaises HttpRaises in
  AITool.normalize_item E
    (Sample.item "the quick brown fox jumps over the lazy dog"
       (String (ascii_of_nat 28) " BRK.B ") (PStr "  -1_000 "))
  = Val {| action := "THE QUICK BROWN FOX JUMPS OVER THE LAZY DOG";
           ticker := "BRK.B"; quantity := -1000 |}
  /\ AITool.normalize_item E
       (Sample.item "buy" "AAPL" (PStr (String (ascii_of_nat 28) "5")))
     = Raise
  /\ AITool.normalize_item E (Sample.item "buy" "AAPL" (PFloat (-2.75)))
     = Val {| action := "BUY"; ticker := "AAPL"; quantity := -2 |}.
Proof. repeat split. Qed.

(** With the limit of 4300 digits, the literal of [10 ^ 4299] is read
    and that of [10 ^ 4300], which has one digit more, is refused. *)
Example long_literal_refused :
  let E := Sample.world LlmRaises HttpRaises in
  AITool.py_int E (PStr (Sample.power_of_ten 4299)) = Val (10 ^ 4299)
  /\ AITool.py_int E (PStr (Sample.power_of_ten 4300)) = Raise.
Proof. split; vm_compute; reflexivity. Qed.

(** Two invocations name the schema; the recommendations returned are
    those of the second, the first being overwritten. *)
Lemma last_parsed_invocation_wins_witness :
  AITool.evaluate_portfolio
    (Sample.world
       (Sample.answers [Sample.invocation [Sample.item "BUY" "AAPL" (PInt 1)];
                        Sample.invocation [Sample.item "SELL" "MSFT" (PInt 2)]])
       HttpRaises)
    Sample.payload
  = Val ("", [{| action := "SELL"; ticker := "MSFT"; quantity := 2 |}]).
Proof.
  apply (last_parsed_invocation_wins _ Sample.payload None
           [Sample.invocation [Sample.item "BUY" "AAPL" (PInt 1)]] []
           (Sample.invocation [Sample.item "SELL" "MSFT" (PInt 2)])).
  - reflexivity.
  - reflexivity.
  - reflexivity.
  - constructor.
Defined.

(** C5 fails as stated: with two invocations naming the schema, the first
    parsing to a BUY of AAPL and the second to a SELL of MSFT, the
    requester returns the SELL of MSFT, not what the first one carries. *)
Lemma first_invocation_overwritten :
  let first := Sample.invocation [Sample.item "BUY" "AAPL" (PInt 1)] in
  let second := Sample.invocation [Sample.item "SELL" "MSFT" (PInt 2)] in
  let E := Sample.world (Sample.answers [first; second]) HttpRaises in
  AITool.names_schema first = true
  /\ AITool.names_schema second = true
  /\ AITool.parse_call E first
     = Val (Some [{| action := "BUY"; ticker := "AAPL"; quantity := 1 |}])
  /\ AITool.evaluate_portfolio E Sample.payload
     <> Val ("", [{| action := "BUY"; ticker := "AAPL"; quantity := 1 |}]).
Proof.
  repeat split; try reflexivity. vm_compute. discriminate.
Qed.

(** A batch whose first item carries the quantity ["abc"]: nothing of it
    is returned, and what an earlier invocation assigned is kept. *)
Lemma failed_item_discards_batch_witness :
  let E := Sample.world LlmRaises HttpRaises in
  let call := Sample.invocation [Sample.item "sell" "AAPL" (PStr "abc");
                                 Sample.item "buy" "MSFT" (PInt 5)] in
  AITool.parse_call E call = Raise /\ AITool.scan_call E [] call = [].
Proof.
  apply (failed_item_discards_batch (Sample.world LlmRaises HttpRaises)
           (Sample.invocation [Sample.item "sell" "AAPL" (PStr "abc");
                               Sample.item "buy" "MSFT" (PInt 5)])
           [("recommendations",
             PList [Sample.item "sell" "AAPL" (PStr "abc");
                    Sample.item "buy" "MSFT" (PInt 5)])]
           [Sample.item "sell" "AAPL" (PStr "abc");
            Sample.item "buy" "MSFT" (PInt 5)] []).
  - reflexivity.
  - reflexivity.
  - apply Exists_cons_hd. reflexivity.
Defined.

(** C4 fails as stated: in a batch of two items, the first with a
    quantity that is no number and the second well formed, neither the
    first with quantity 0 nor the second is returned: the requester
    returns no recommendation at all. *)
Lemma bad_quantity_loses_other_items :
  let E := Sample.world
             (Sample.answers
                [Sample.invocation [Sample.item "sell" "AAPL" (PStr "abc");
                                    Sample.item "buy" "MSFT" (PInt 5)]])
             HttpRaises in
  AITool.py_int E (PStr "abc") = Raise
  /\ AITool.normalize_item E (Sample.item "buy" "MSFT" (PInt 5))
     = Val {| action := "BUY"; ticker := "MSFT"; quantity := 5 |}
  /\ AITool.evaluate_portfolio E Sample.payload = Val ("", []).
Proof.
  repeat split.
Qed.

(* ===================================================================== *)
(** ** The payload validator *)
(* ===================================================================== *)

Section ValidatorFacts.
Import Validators.

Lemma check_position_decides (i : nat) (pos : pyval) :
  decides (check_position i pos) (position_shape pos).
Proof.
  unfold check_position, position_shape, decides.
  destruct pos; try (split; [reflexivity | discriminate]).
  destruct (dict_get d "ticker") as [t|];
    [|split; [reflexivity | discriminate]].
  destruct (dict_get d "quantity") as [q|];
    [|split; [reflexivity | discriminate]].
  destruct (dict_get d "purchase_price") as [pp|];
    [|split; [reflexivity | discriminate]].
  destruct (is_str t), (is_int_or_float q), (is_int_or_float pp); simpl;
    first [reflexivity | split; [reflexivity | discriminate]].
Qed.

Lemma check_summary_decides (i : nat) (item : pyval) :
  decides (check_summary i item) (summary_shape item).
Proof.
  unfold check_summary, summary_shape, decides.
  destruct item; try (split; [reflexivity | discriminate]).
  destruct (dict_get d "ticker") as [t|];
    [|split; [reflexivity | discriminate]].
  destruct (dict_get d "current_price") as [cp|];
    [|split; [reflexivity | discriminate]].
  destruct (dict_get d "category") as [c|];
    [|split; [reflexivity | discriminate]].
  destruct (is_str t), (is_int_or_float cp), (is_str c); simpl;
    first [reflexivity | split; [reflexivity | discriminate]].
Qed.

Lemma check_history_decides (i : nat) (item : pyval) :
  decides (check_history i item) (history_shape item).
Proof.
  unfold check_history, history_shape, decides.
  destruct item; try (split; [reflexivity | discriminate]).
  destruct (dict_get d "ticker") as [t|];
    [|split; [reflexivity | discriminate]].
  destruct (dict_get d "price") as [pr|];
    [|split; [reflexivity | discriminate]].
  destruct (dict_get d "day") as [dy|];
    [|split; [reflexivity | discriminate]].
  destruct (is_str t), (is_int_or_float pr), (is_int_or_str dy); simpl;
    first [reflexivity | split; [reflexivity | discriminate]].
Qed.

Lemma first_failure_decides (check : nat -> pyval -> option string)
  (shape : pyval -> bool) :
  (forall i x, decides (check i x) (shape x)) ->
  forall xs i, decides (first_failure check i xs) (forallb shape xs).
Proof.
  intros Hc. induction xs as [|x xs IH]; intros i; simpl; [reflexivity|].
  specialize (Hc i x). specialize (IH (S i)).
  destruct (check i x) as [msg|]; simpl in *.
  - destruct Hc as [-> Hm]. now split.
  - rewrite Hc. exact IH.
Qed.

Lemma check_section_decides (d : dict) (key m1 m2 m3 : string)
  (check : nat -> pyval -> option string) (shape : pyval -> bool) :
  m1 <> "" -> m2 <> "" -> m3 <> "" ->
  (forall i x, decides (check i x) (shape x)) ->
  decides (check_section d key m1 m2 m3 check) (section_shape d key shape).
Proof.
  intros H1 H2 H3 Hc. unfold check_section, section_shape.
  destruct (dict_get d key) as [v|]; [|now split].
  destruct v; try now split.
  destruct l as [|x xs]; [now split|].
  exact (first_failure_decides check shape Hc (x :: xs) 0%nat).
Qed.

(** The validator accepts exactly the payloads of the accepted shape,
    with the empty message, and rejects the others with a message that
    is not empty. *)
Lemma validate_tick_payload_decides (payload : pyval) :
  (validate_tick_payload payload = (true, "") /\ accepted payload = true)
  \/ (exists msg, validate_tick_payload payload = (false, msg)
                  /\ msg <> "" /\ accepted payload = false).
Proof.
  unfold validate_tick_payload, accepted.
  destruct payload;
    try (right; eexists; repeat split; discriminate).
  pose proof (check_section_decides d "Positions"
    "Missing required field: Positions" "Positions must be a list"
    "Positions must be a non-empty list" check_position position_shape
    ltac:(discriminate) ltac:(discriminate) ltac:(discriminate)
    check_position_decides) as HP.
  pose proof (check_section_decides d "Market_Summary"
    "Missing required field: Market_Summary" "Market_Summary must be a list"
    "Market Summary must be a non-empty list" check_summary summary_shape
    ltac:(discriminate) ltac:(discriminate) ltac:(discriminate)
    check_summary_decides) as HS.
  pose proof (check_section_decides d "market_history"
    "Missing required field: market_history" "market_history must be a list"
    "market_history must be a non-empty list" check_history history_shape
    ltac:(discriminate) ltac:(discriminate) ltac:(discriminate)
    check_history_decides) as HH.
  unfold decides in HP, HS, HH.
  destruct (check_section d "Positions" _ _ _ _) as [m|].
  { destruct HP as [-> Hm]. right. exists m. now repeat split. }
  rewrite HP.
  destruct (check_section d "Market_Summary" _ _ _ _) as [m|].
  { destruct HS as [-> Hm]. right. exists m. now repeat split. }
  rewrite HS.
  destruct (check_section d "market_history" _ _ _ _) as [m|].
  { destruct HH as [-> Hm]. right. exists m. now repeat split. }
  rewrite HH. unfold day_shape.
  destruct (dict_get d "DAY") as [day|]; [|now left].
  destruct (is_str day); simpl; [now left|].
  right. eexists. repeat split. discriminate.
Qed.

Lemma validate_true_accepted (payload : pyval) :
  fst (validate_tick_payload payload) = true -> accepted payload = true.
Proof.
  destruct (validate_tick_payload_decides payload)
    as [[_ H] | [msg [-> _]]]; [auto | discriminate].
Qed.

(** The sections are examined in the documented order: a message about
    [Positions] is returned whatever the other sections hold. *)
Lemma positions_checked_first (d : dict) (msg : string) :
  check_section d "Positions" "Missing required field: Positions"
    "Positions must be a list" "Positions must be a non-empty list"
    check_position = Some msg ->
  validate_tick_payload (PDict d) = (false, msg).
Proof.
  intros H. unfold validate_tick_payload. now rewrite H.
Qed.

Lemma rule_implies_shape (rule shape : pyval -> bool) (d : dict) (key : string) :
  (forall x, rule x = true -> shape x = true) ->
  section_shape d key rule = true -> section_shape d key shape = true.
Proof.
  intros Himp. unfold section_shape.
  destruct (dict_get d key) as [v|]; [|discriminate].
  destruct v; try discriminate. destruct l as [|x xs]; [discriminate|].
  rewrite !forallb_forall. intros H y Hy. apply Himp, H, Hy.
Qed.

Lemma number_is_int_or_float (v : pyval) :
  Spec.is_number v = true -> is_int_or_float v = true.
Proof. now destruct v. Qed.

(** Every payload that satisfies the documented rules is accepted. *)
Lemma satisfies_rules_accepted (payload : pyval) :
  Spec.satisfies_rules payload = true ->
  validate_tick_payload payload = (true, "").
Proof.
  intros H.
  destruct (validate_tick_payload_decides payload)
    as [[Hv _] | [msg [_ [_ Hacc]]]]; [exact Hv|].
  exfalso. revert H Hacc. unfold Spec.satisfies_rules, accepted.
  destruct payload; try discriminate.
  rewrite !andb_true_iff. intros [[[HP HS] HH] HD].
  rewrite (rule_implies_shape Spec.position_rule position_shape), 
          (rule_implies_shape Spec.summary_rule summary_shape),
          (rule_implies_shape Spec.history_rule history_shape), HD;
    try assumption; try discriminate.
  - intros x. unfold Spec.history_rule, history_shape.
    destruct x; try discriminate.
    destruct (dict_get d0 "ticker"), (dict_get d0 "price"),
      (dict_get d0 "day"); try discriminate.
    rewrite !andb_true_iff. intros [[-> Hn] Hd].
    rewrite (number_is_int_or_float _ Hn). now destruct p1.
  - intros x. unfold Spec.summary_rule, summary_shape.
    destruct x; try discriminate.
    destruct (dict_get d0 "ticker"), (dict_get d0 "current_price"),
      (dict_get d0 "category"); try discriminate.
    rewrite !andb_true_iff. intros [[-> Hn] ->].
    now rewrite (number_is_int_or_float _ Hn).
  - intros x. unfold Spec.position_rule, position_shape.
    destruct x; try discriminate.
    destruct (dict_get d0 "ticker"), (dict_get d0 "quantity"),
      (dict_get d0 "purchase_price"); try discriminate.
    rewrite !andb_true_iff. intros [[-> Hq] Hp].
    now rewrite (number_is_int_or_float _ Hq), (number_is_int_or_float _ Hp).
Qed.

End ValidatorFacts.

(* ===================================================================== *)
(** ** Accepted payloads *)
(* ===================================================================== *)

Lemma section_shape_items (d : dict) (key : string) (shape : pyval -> bool) :
  section_shape d key shape = true ->
  dict_get d key = Some (PList (section_items (PDict d) key))
  /\ forallb shape (section_items (PDict d) key) = true
  /\ section_items (PDict d) key <> [].
Proof.
  unfold section_shape, section_items.
  destruct (dict_get d key) as [v|]; [|discriminate].
  destruct v; try discriminate. destruct l as [|x xs]; [discriminate|].
  intros H. repeat split; [exact H | discriminate].
Qed.

(** What the later stages rely on once a payload has been accepted. *)
Lemma accepted_sections (payload : pyval) :
  accepted payload = true ->
  py_get payload "Positions" (PList [])
  = Val (PList (section_items payload "Positions"))
  /\ py_get payload "Market_Summary" (PList [])
     = Val (PList (section_items payload "Market_Summary"))
  /\ forallb position_shape (section_items payload "Positions") = true
  /\ forallb summary_shape (section_items payload "Market_Summary") = true.
Proof.
  unfold accepted. destruct payload as [| | | | | |d]; try discriminate.
  rewrite !andb_true_iff. intros [[[HP HS] _] _].
  destruct (section_shape_items _ _ _ HP) as [HP1 [HP2 _]].
  destruct (section_shape_items _ _ _ HS) as [HS1 [HS2 _]].
  simpl py_get. rewrite HP1, HS1. repeat split; eauto.
Qed.

Lemma accepted_has_positions (payload : pyval) :
  accepted payload = true -> section_items payload "Positions" <> [].
Proof.
  unfold accepted. destruct payload as [| | | | | |d]; try discriminate.
  rewrite !andb_true_iff. intros [[[HP _] _] _].
  now destruct (section_shape_items _ _ _ HP) as [_ [_ H]].
Qed.

Lemma map_exn_length {A B : Type} (f : A -> exn B) (xs : list A)
  (ys : list B) :
  map_exn f xs = Val ys -> List.length ys = List.length xs.
Proof.
  revert ys. induction xs as [|x xs IH]; simpl; intros ys H.
  - now inversion H.
  - destruct (f x) as [y|]; [|discriminate]. simpl in H.
    destruct (map_exn f xs) as [ys'|]; [|discriminate].
    inversion H. simpl. f_equal. now apply IH.
Qed.

Lemma position_shape_fields (pos : pyval) :
  position_shape pos = true ->
  py_getitem pos "ticker" = Val (PStr (str_field pos "ticker"))
  /\ py_getitem pos "quantity" = Val (field pos "quantity")
  /\ py_getitem pos "purchase_price" = Val (field pos "purchase_price").
Proof.
  unfold position_shape, py_getitem, str_field, field.
  destruct pos; try discriminate.
  destruct (dict_get d "ticker") as [t|]; [|discriminate].
  destruct (dict_get d "quantity") as [q|]; [|discriminate].
  destruct (dict_get d "purchase_price") as [pp|]; [|discriminate].
  destruct t; try discriminate. auto.
Qed.

Lemma summary_shape_fields (item : pyval) :
  summary_shape item = true ->
  py_getitem item "ticker" = Val (PStr (str_field item "ticker"))
  /\ py_getitem item "current_price" = Val (field item "current_price").
Proof.
  unfold summary_shape, py_getitem, str_field, field.
  destruct item; try discriminate.
  destruct (dict_get d "ticker") as [t|]; [|discriminate].
  destruct (dict_get d "current_price") as [cp|]; [|discriminate].
  destruct (dict_get d "category") as [c|]; [|discriminate].
  destruct t; try discriminate. auto.
Qed.

(* ===================================================================== *)
(** ** The price dict *)
(* ===================================================================== *)

Section Prices.
Import Business.

Lemma price_loop_lookup (ms : list pyval) (acc : dict) :
  forallb summary_shape ms = true ->
  exists prices,
    for_each ms
      (fun prices item =>
         t <- py_getitem item "ticker" ;;
         p <- py_getitem item "current_price" ;;
         match t with
         | PStr k => Val (dict_set prices k p)
         | _ => Raise
         end)
      acc = Val prices
    /\ forall t, dict_get prices t
                 = match Spec.summary_price ms t with
                   | Some p => Some p
                   | None => dict_get acc t
                   end.
Proof.
  revert acc. induction ms as [|item ms IH]; intros acc; simpl.
  - intros _. exists acc. auto.
  - rewrite andb_true_iff. intros [Hitem Hms].
    destruct (summary_shape_fields item Hitem) as [Ht Hp].
    rewrite Ht, Hp. simpl.
    destruct (IH (dict_set acc (str_field item "ticker")
                    (field item "current_price")) Hms) as [prices [Hrun Hget]].
    exists prices. split; [exact Hrun|].
    intros t. rewrite Hget.
    destruct (Spec.summary_price ms t); [reflexivity|].
    destruct (String.eqb_spec (str_field item "ticker") t) as [<-|Hne].
    + apply dict_get_set_eq.
    + now apply dict_get_set_neq.
Qed.

(** On a market summary of the accepted shape the dict is built, and
    looking a ticker up in it finds the price of its matching entry. *)
Lemma price_dict_lookup (ms : list pyval) :
  forallb summary_shape ms = true ->
  exists prices,
    price_dict (PList ms) = Val prices
    /\ forall t, dict_get prices t = Spec.summary_price ms t.
Proof.
  intros Hms. destruct (price_loop_lookup ms [] Hms) as [prices [Hrun Hget]].
  exists prices. split; [exact Hrun|].
  intros t. rewrite Hget. now destruct (Spec.summary_price ms t).
Qed.

End Prices.

(* ===================================================================== *)
(** ** The positions snapshot *)
(* ===================================================================== *)

Section Snapshot.
Import Business.

Variables (prices : dict) (ms : list pyval).
Hypothesis prices_ms : forall t, dict_get prices t = Spec.summary_price ms t.

(** The loop of [save_positions], which is also that of
    [update_positions_from_api], appends the rows of the snapshot. *)
Lemma rows_loop (ps acc : list pyval) :
  forallb position_shape ps = true ->
  for_each ps
    (fun positions_data position =>
       ticker <- py_getitem position "ticker" ;;
       quantity <- py_getitem position "quantity" ;;
       purchase_price <- py_getitem position "purchase_price" ;;
       current_price <- prices_get prices ticker purchase_price ;;
       diff <- py_sub current_price purchase_price ;;
       unrealized_pnl <- py_mul diff quantity ;;
       rounded <- py_round2 unrealized_pnl ;;
       Val (positions_data ++
            [PDict [("ticker", ticker); ("quantity", quantity);
                    ("purchase_price", purchase_price);
                    ("current_price", current_price);
                    ("unrealized_pnl", rounded)]])%list)
    acc
  = (rows <- Spec.snapshot ps ms ;; Val (acc ++ rows)%list).
Proof.
  unfold Spec.snapshot.
  revert acc. induction ps as [|pos ps IH]; intros acc; simpl.
  - intros _. now rewrite app_nil_r.
  - rewrite andb_true_iff. intros [Hpos Hps].
    destruct (position_shape_fields pos Hpos) as [Ht [Hq Hpp]].
    rewrite Ht, Hq, Hpp. simpl. rewrite prices_ms.
    unfold Spec.snapshot_row, Spec.pnl.
    destruct (py_sub _ _) as [diff|]; simpl; [|reflexivity].
    destruct (py_mul diff _) as [u|]; simpl; [|reflexivity].
    destruct (py_round2 u) as [r|]; simpl; [|reflexivity].
    rewrite (IH _ Hps).
    destruct (map_exn _ ps) as [rows|]; simpl; [|reflexivity].
    now rewrite <- app_assoc.
Qed.

(** The loop of the accounting step sums and counts the positions that
    have an entry, from whatever the accumulators hold. *)
Lemma accounting_loop (ps : list pyval) (total : pyval) (n : Z) :
  forallb position_shape ps = true ->
  for_each ps
    (fun '(total_unrealized_pnl, positions_evaluated) position =>
       ticker <- py_getitem position "ticker" ;;
       quantity <- py_getitem position "quantity" ;;
       purchase_price <- py_getitem position "purchase_price" ;;
       found <- prices_mem prices ticker ;;
       if found then
         current_price <- prices_getitem prices ticker ;;
         diff <- py_sub current_price purchase_price ;;
         position_pnl <- py_mul diff quantity ;;
         total <- py_add total_unrealized_pnl position_pnl ;;
         Val (total, positions_evaluated + 1)
       else Val (total_unrealized_pnl, positions_evaluated))
    (total, n)
  = (pnls <- map_exn (Spec.entry_pnl ms) (filter (Spec.has_entry ms) ps) ;;
     total' <- for_each pnls py_add total ;;
     Val (total',
          n + Z.of_nat (List.length (filter (Spec.has_entry ms) ps)))).
Proof.
  revert total n. induction ps as [|pos ps IH]; intros total n; simpl.
  - intros _. now rewrite Z.add_0_r.
  - rewrite andb_true_iff. intros [Hpos Hps].
    destruct (position_shape_fields pos Hpos) as [Ht [Hq Hpp]].
    rewrite Ht, Hq, Hpp. simpl.
    unfold dict_mem, Spec.has_entry, Spec.entry_pnl. rewrite prices_ms.
    destruct (Spec.summary_price ms (str_field pos "ticker")) as [cp|] eqn:Hcp;
      simpl.
    + rewrite Hcp. unfold Spec.pnl.
      destruct (py_sub cp _) as [diff|]; simpl; [|reflexivity].
      destruct (py_mul diff _) as [u|]; simpl; [|reflexivity].
      destruct (py_add total u) as [total'|] eqn:Hadd; simpl.
      * rewrite (IH _ _ Hps).
        destruct (map_exn _ _) as [pnls|]; simpl; [|reflexivity].
        rewrite Hadd. simpl.
        destruct (for_each pnls py_add total'); simpl; [|reflexivity].
        f_equal. f_equal. rewrite Zpos_P_of_succ_nat.
        unfold Spec.has_entry. lia.
      * destruct (map_exn _ _) as [pnls|]; simpl; [|reflexivity].
        now rewrite Hadd.
    + rewrite (IH _ _ Hps). reflexivity.
Qed.

End Snapshot.

(* ===================================================================== *)
(** ** Integers within the range of the doubles *)
(* ===================================================================== *)

Lemma digits2_pos_iter (m : positive) (k : positive) :
  Z.pos (digits2_pos (Pos.iter xO m k)) = Z.pos (digits2_pos m) + Z.pos k.
Proof.
  induction k as [|k IH] using Pos.peano_ind.
  - simpl. lia.
  - rewrite Pos.iter_succ. simpl. lia.
Qed.

Lemma digits2_pos_le (m : positive) (n : Z) :
  0 <= n -> Z.pos m < 2 ^ n -> Z.pos (digits2_pos m) <= n.
Proof.
  revert n. induction m as [m IH|m IH|]; intros n Hn H; simpl digits2_pos.
  - assert (n <> 0) by (intros ->; simpl in H; lia).
    replace n with (Z.succ (n - 1)) in H by lia.
    rewrite Z.pow_succ_r in H by lia.
    specialize (IH (n - 1)). lia.
  - assert (n <> 0) by (intros ->; simpl in H; lia).
    replace n with (Z.succ (n - 1)) in H by lia.
    rewrite Z.pow_succ_r in H by lia.
    specialize (IH (n - 1)). lia.
  - assert (n <> 0) by (intros ->; simpl in H; lia). lia.
Qed.

(** A mantissa of 53 bits with an exponent in range is a double. *)
Lemma binary_round_aux_exact (s : bool) (m : positive) (e : Z) :
  Z.pos (digits2_pos m) = prec -> -1074 <= e <= 971 ->
  binary_round_aux prec emax s (Z.pos m) e loc_Exact = S754_finite s m e.
Proof.
  intros Hd He.
  assert (Hshift : fexp prec emax (Z.pos (digits2_pos m) + e) - e = 0).
  { rewrite Hd. unfold fexp, emin, prec, emax. lia. }
  unfold binary_round_aux, shr_fexp. cbn [Zdigits2 shr_record_of_loc].
  rewrite Hshift. cbn [shr shr_m loc_of_shr_record round_nearest_even
                        Zdigits2 shr_record_of_loc].
  rewrite Hshift. cbn [shr shr_m].
  replace (e <=? emax - prec) with true; [reflexivity|].
  symmetry. apply Z.leb_le. unfold emax, prec. lia.
Qed.

Lemma binary_round_small (s : bool) (m : positive) :
  Z.pos m < 2 ^ 53 ->
  exists m' e, binary_round prec emax s m 0 = S754_finite s m' e
               /\ valid_binary (S754_finite s m' e) = true.
Proof.
  intros Hm.
  assert (Hd : Z.pos (digits2_pos m) <= 53) by (apply digits2_pos_le; lia).
  unfold binary_round, shl_align.
  assert (Hf : fexp prec emax (Z.pos (digits2_pos m) + 0)
               = Z.pos (digits2_pos m) - 53).
  { unfold fexp, emin, prec, emax. lia. }
  rewrite Hf.
  destruct (Z.pos (digits2_pos m) - 53 - 0) as [|k|k] eqn:Hk; try lia.
  - rewrite binary_round_aux_exact by (unfold prec; lia).
    exists m, 0. split; [reflexivity|].
    unfold valid_binary, bounded, canonical_mantissa.
    rewrite Hf. replace (Z.pos (digits2_pos m) - 53) with 0 by lia.
    reflexivity.
  - assert (Hk' : Z.pos (digits2_pos (Pos.iter xO m k)) = prec).
    { rewrite digits2_pos_iter. unfold prec. lia. }
    rewrite binary_round_aux_exact by (trivial; lia).
    eexists _, _. split; [reflexivity|].
    unfold valid_binary, bounded, canonical_mantissa.
    rewrite Hk'.
    replace (fexp prec emax (prec + (Z.pos (digits2_pos m) - 53)))
      with (Z.pos (digits2_pos m) - 53)
      by (unfold fexp, emin, prec, emax; lia).
    rewrite Z.eqb_refl. cbn [andb]. apply Z.leb_le. unfold emax, prec. lia.
Qed.

Lemma finite_not_infinity (s : bool) (m : positive) (e : Z) :
  valid_binary (S754_finite s m e) = true ->
  PrimFloat.is_infinity (SF2Prim (S754_finite s m e)) = false.
Proof.
  intros Hv. unfold PrimFloat.is_infinity.
  rewrite eqb_spec, abs_spec, (Prim2SF_SF2Prim _ Hv). reflexivity.
Qed.

(** An int below [2 ^ 53] in magnitude converts to a float. *)
Lemma float_of_Z_small (z : Z) :
  Z.abs z < 2 ^ 53 -> exists f, float_of_Z z = Val f.
Proof.
  intros Hz. unfold float_of_Z. destruct z as [|m|m].
  - eexists. reflexivity.
  - destruct (binary_round_small false m) as [m' [e [Hr Hv]]]; [lia|].
    cbn [binary_normalize]. rewrite Hr, (finite_not_infinity _ _ _ Hv). eauto.
  - destruct (binary_round_small true m) as [m' [e [Hr Hv]]]; [lia|].
    cbn [binary_normalize]. rewrite Hr, (finite_not_infinity _ _ _ Hv). eauto.
Qed.

(* ===================================================================== *)
(** ** Rounding to two decimals *)
(* ===================================================================== *)

(** [div_half_even n d] is the integer nearest to [n / d], the even one
    of the two when [n / d] lies half way. *)
Lemma div_half_even_nearest (n d : Z) :
  0 <= n -> 0 < d ->
  let k := div_half_even n d in
  0 <= k
  /\ Z.abs (2 * n - 2 * k * d) <= d
  /\ (Z.abs (2 * n - 2 * k * d) = d -> Z.even k = true).
Proof.
  intros Hn Hd. unfold div_half_even.
  pose proof (Z.div_mod n d ltac:(lia)) as Hdiv.
  pose proof (Z.mod_pos_bound n d Hd) as Hmod.
  assert (Hq : 0 <= n / d) by (apply Z.div_pos; lia).
  set (q := n / d) in *. set (r := n mod d) in *. clearbody q r.
  assert (Hk : forall k, 2 * n - 2 * k * d = 2 * r + 2 * (q - k) * d)
    by (intros k; subst n; ring).
  cbv zeta. destruct (Z.compare_spec (2 * r) d) as [He|Hl|Hg].
  - destruct (Z.even q) eqn:Hev.
    + rewrite Hk, Z.sub_diag. repeat split; try lia. trivial.
    + rewrite Hk. replace (q - (q + 1)) with (-1) by lia.
      repeat split; try lia. intros _.
      rewrite Z.add_1_r, Z.even_succ, <- Z.negb_even, Hev. reflexivity.
  - rewrite Hk, Z.sub_diag. repeat split; lia.
  - rewrite Hk. replace (q - (q + 1)) with (-1) by lia.
    repeat split; lia.
Qed.

Lemma round2_two_decimals (x : float) : Spec.two_decimals x (round2 x).
Proof.
  unfold Spec.two_decimals, round2.
  destruct (Prim2SF x) as [s|s| |s m e]; try reflexivity.
  cbv zeta. destruct (Z.leb_spec 0 e) as [He|He].
  - exists (Z.pos m * 100 * 2 ^ e). split; [|reflexivity].
    unfold Spec.nearest_hundredths.
    rewrite (Z.max_l e 0), (Z.max_r (- e) 0) by lia. change (2 ^ 0) with 1.
    assert (0 < 2 ^ e) by (apply Z.pow_pos_nonneg; lia).
    set (n := Z.pos m * 100 * 2 ^ e).
    assert (0 <= n) by (unfold n; nia).
    clearbody n. cbv zeta.
    replace (2 * n - 2 * n * 1) with 0 by ring. simpl Z.abs.
    repeat split; lia.
  - exists (div_half_even (Z.pos m * 100) (2 ^ (- e))). split; [|reflexivity].
    unfold Spec.nearest_hundredths.
    rewrite (Z.max_r e 0), (Z.max_l (- e) 0) by lia. change (2 ^ 0) with 1.
    rewrite Z.mul_1_r.
    apply div_half_even_nearest; [lia|]. apply Z.pow_pos_nonneg; lia.
Qed.

(** Rounding to two decimals has one result. *)
Lemma nearest_hundredths_unique (m : positive) (e k k' : Z) :
  Spec.nearest_hundredths m e k -> Spec.nearest_hundredths m e k' -> k = k'.
Proof.
  unfold Spec.nearest_hundredths. cbv zeta.
  assert (HD : 0 < 2 ^ Z.max (- e) 0) by (apply Z.pow_pos_nonneg; lia).
  set (N := Z.pos m * 100 * 2 ^ Z.max e 0).
  set (D := 2 ^ Z.max (- e) 0) in *. clearbody N D.
  intros [Hk [Hn He]] [Hk' [Hn' He']].
  assert (Hclose : k' = k \/ k' = k + 1 \/ k = k' + 1) by nia.
  destruct Hclose as [-> | [-> | ->]]; [reflexivity| |].
  - assert (Z.abs (2 * N - 2 * k * D) = D) by nia.
    assert (Z.abs (2 * N - 2 * (k + 1) * D) = D) by nia.
    specialize (He ltac:(assumption)). specialize (He' ltac:(assumption)).
    rewrite Z.add_1_r, Z.even_succ, <- Z.negb_even, He in He'. discriminate.
  - assert (Z.abs (2 * N - 2 * k' * D) = D) by nia.
    assert (Z.abs (2 * N - 2 * (k' + 1) * D) = D) by nia.
    specialize (He ltac:(assumption)). specialize (He' ltac:(assumption)).
    rewrite Z.add_1_r, Z.even_succ, <- Z.negb_even, He' in He. discriminate.
Qed.

Lemma two_decimals_unique (x r r' : float) :
  Spec.two_decimals x r -> Spec.two_decimals x r' -> r = r'.
Proof.
  unfold Spec.two_decimals.
  destruct (Prim2SF x) as [s|s| |s m e]; try congruence.
  intros [k [Hk ->]] [k' [Hk' ->]].
  now rewrite (nearest_hundredths_unique m e k k' Hk Hk').
Qed.

(* ===================================================================== *)
(** ** Numbers that stay within the doubles *)
(* ===================================================================== *)

Lemma plain_number_within (v : pyval) :
  Spec.plain_number v = true -> within (2 ^ 26) v.
Proof.
  destruct v as [|[]|z|f|s|l|d]; simpl; try discriminate; unfold within; simpl;
    trivial; try lia.
  intros H. now apply Z.ltb_lt.
Qed.

(** An operation on two numbers within bounds that the doubles hold
    raises nothing, and an int it gives is within the bound of the
    operation. *)
Lemma py_arith_within (iop : Z -> Z -> Z) (fop : float -> float -> float)
  (b1 b2 b3 : Z) (a b : pyval) :
  b1 <= 2 ^ 53 -> b2 <= 2 ^ 53 ->
  (forall x y, Z.abs x < b1 -> Z.abs y < b2 -> Z.abs (iop x y) < b3) ->
  within b1 a -> within b2 b ->
  exists r, py_arith iop fop a b = Val r /\ within b3 r.
Proof.
  intros Hb1 Hb2 Hop. unfold within, py_arith.
  destruct (as_num a) as [[x|x]|]; [| |contradiction];
    (destruct (as_num b) as [[y|y]|]; [| |contradiction]); intros Ha Hb; simpl.
  - eexists. split; [reflexivity|]. simpl. now apply Hop.
  - destruct (float_of_Z_small x) as [f ->]; [lia|]. simpl.
    eexists. split; [reflexivity|]. exact I.
  - destruct (float_of_Z_small y) as [f ->]; [lia|]. simpl.
    eexists. split; [reflexivity|]. exact I.
  - eexists. split; [reflexivity|]. exact I.
Qed.

Lemma plain_pnl (cp pos : pyval) :
  Spec.plain_number cp = true -> Spec.plain_position pos = true ->
  exists u, Spec.pnl cp pos = Val u /\ within (2 ^ 53) u.
Proof.
  unfold Spec.plain_position, Spec.pnl. rewrite andb_true_iff.
  intros Hcp [Hq Hpp].
  destruct (py_arith_within Z.sub PrimFloat.sub (2 ^ 26) (2 ^ 26) (2 ^ 27)
              cp (field pos "purchase_price")) as [d [Hd Hdw]];
    try (now apply plain_number_within); try lia.
  unfold py_sub. rewrite Hd. simpl.
  apply (py_arith_within Z.mul PrimFloat.mul (2 ^ 27) (2 ^ 26) (2 ^ 53));
    try (now apply plain_number_within); try lia; try assumption.
  intros x y Hx Hy. rewrite Z.abs_mul.
  change (2 ^ 53) with (2 ^ 27 * 2 ^ 26). nia.
Qed.

Lemma plain_summary_price (ms : list pyval) (t : string) (cp : pyval) :
  forallb Spec.plain_summary ms = true ->
  Spec.summary_price ms t = Some cp -> Spec.plain_number cp = true.
Proof.
  induction ms as [|entry ms IH]; simpl; [discriminate|].
  rewrite andb_true_iff. intros [Hentry Hms].
  destruct (Spec.summary_price ms t) as [p'|].
  - intros H. inversion H; subst. now apply IH.
  - destruct (String.eqb _ t); [|discriminate].
    intros H. inversion H; subst. exact Hentry.
Qed.

Lemma plain_sum (pnls : list pyval) (a : float) :
  Forall (within (2 ^ 53)) pnls ->
  exists b, for_each pnls py_add (PFloat a) = Val (PFloat b).
Proof.
  intros H. revert a. induction H as [|x pnls Hx _ IH]; intros a; simpl.
  - eauto.
  - unfold within in Hx. unfold py_add, py_arith. simpl.
    destruct (as_num x) as [[z|f]|]; [| |contradiction]; simpl.
    + destruct (float_of_Z_small z) as [f ->]; [lia|]. simpl. apply IH.
    + apply IH.
Qed.

Lemma plain_total (ps ms : list pyval) :
  forallb Spec.plain_position ps = true ->
  forallb Spec.plain_summary ms = true ->
  exists t, Spec.total ps ms = Val (PFloat t).
Proof.
  intros Hps Hms. unfold Spec.total.
  assert (Hpnls : exists pnls,
             map_exn (Spec.entry_pnl ms) (filter (Spec.has_entry ms) ps)
             = Val pnls /\ Forall (within (2 ^ 53)) pnls).
  { induction ps as [|pos ps IH]; simpl.
    - exists []. split; [reflexivity | constructor].
    - simpl in Hps. apply andb_true_iff in Hps. destruct Hps as [Hpos Hps].
      destruct (IH Hps) as [pnls [Hmap Hall]].
      unfold Spec.has_entry at 1.
      destruct (Spec.summary_price ms (str_field pos "ticker")) as [cp|] eqn:Hcp;
        [|eauto].
      destruct (plain_pnl cp pos (plain_summary_price ms _ cp Hms Hcp) Hpos)
        as [u [Hu Huw]].
      simpl. unfold Spec.entry_pnl at 1. rewrite Hcp, Hu. simpl.
      rewrite Hmap. simpl. exists (u :: pnls). split; [reflexivity|].
      now constructor. }
  destruct Hpnls as [pnls [-> Hall]]. simpl. now apply plain_sum.
Qed.

Lemma plain_snapshot (ps ms : list pyval) :
  forallb Spec.plain_position ps = true ->
  forallb Spec.plain_summary ms = true ->
  exists rows, Spec.snapshot ps ms = Val rows.
Proof.
  intros Hps Hms. unfold Spec.snapshot. induction ps as [|pos ps IH]; simpl.
  - eauto.
  - simpl in Hps. apply andb_true_iff in Hps. destruct Hps as [Hpos Hps].
    destruct (IH Hps) as [rows ->].
    unfold Spec.snapshot_row.
    assert (Hcp : Spec.plain_number
                    match Spec.summary_price ms (str_field pos "ticker") with
                    | Some cp => cp
                    | None => field pos "purchase_price"
                    end = true).
    { destruct (Spec.summary_price ms _) as [cp|] eqn:Hcp.
      - exact (plain_summary_price ms _ cp Hms Hcp).
      - unfold Spec.plain_position in Hpos.
        now apply andb_true_iff in Hpos. }
    destruct (plain_pnl _ pos Hcp Hpos) as [u [-> Huw]]. simpl.
    unfold within in Huw.
    destruct u as [|[]|z|f|s|l|d]; simpl in *; try contradiction; eauto.
Qed.

(* ===================================================================== *)
(** ** Portfolio accounting *)
(* ===================================================================== *)

Lemma accounting_on_accepted (payload : pyval) :
  accepted payload = true ->
  accounting payload
  = Spec.accounting (section_items payload "Positions")
      (section_items payload "Market_Summary").
Proof.
  intros Hok.
  destruct (accepted_sections payload Hok) as [HP [HS [Hps Hms]]].
  destruct (price_dict_lookup _ Hms) as [prices [Hprices Hget]].
  unfold accounting, Business.unrealized_pnl_loop.
  rewrite HP, HS. simpl. rewrite Hprices. simpl.
  rewrite (accounting_loop prices _ Hget _ _ _ Hps).
  unfold Spec.accounting.
  destruct (map_exn _ _) as [pnls|]; simpl; [|reflexivity].
  destruct (for_each pnls py_add _) as [total|]; simpl; reflexivity.
Qed.

Lemma py_add_float (a : float) (x t : pyval) :
  py_add (PFloat a) x = Val t -> exists b, t = PFloat b.
Proof.
  unfold py_add, py_arith. simpl.
  destruct (as_num x) as [[z|f]|]; simpl; try discriminate.
  - destruct (float_of_Z z); simpl; [|discriminate].
    intros H. inversion H. eauto.
  - intros H. inversion H. eauto.
Qed.

Lemma sum_float (pnls : list pyval) (a : float) (t : pyval) :
  for_each pnls py_add (PFloat a) = Val t -> exists x, t = PFloat x.
Proof.
  revert a. induction pnls as [|u pnls IH]; intros a; simpl.
  - intros H. inversion H. eauto.
  - destruct (py_add (PFloat a) u) as [b|] eqn:Hadd; [|discriminate].
    destruct (py_add_float a u b Hadd) as [b' ->]. apply IH.
Qed.

(** C3, amended.  On an accepted payload the accounting step sums
    [(current_price - purchase_price) * quantity], from 0.0 and in order,
    over exactly the positions whose ticker has a matching market-summary
    entry, and counts them; the other positions, whatever their ticker,
    enter neither the count nor the sum.  A result is reported exactly
    when neither a product nor the sum raises: then the count is
    reported with the sum rounded to two decimals (to the nearest number
    of hundredths, ties to the even one), and otherwise the step raises.
    Nothing raises when every number of the positions and of the summary
    is a float, a boolean or an int below [2 ^ 26] in magnitude. *)
Theorem accounting_sums_matched_positions (payload : pyval) :
  fst (Validators.validate_tick_payload payload) = true ->
  match Spec.total (section_items payload "Positions")
          (section_items payload "Market_Summary") with
  | Val t =>
      exists x r,
        t = PFloat x
        /\ Spec.two_decimals x r
        /\ accounting payload
           = Val (PInt (Z.of_nat
                          (List.length
                             (filter
                                (Spec.has_entry
                                   (section_items payload "Market_Summary"))
                                (section_items payload "Positions")))),
                  PFloat r)
  | Raise => accounting payload = Raise
  end
  /\ (forallb Spec.plain_position (section_items payload "Positions") = true ->
      forallb Spec.plain_summary (section_items payload "Market_Summary")
      = true ->
      Spec.total (section_items payload "Positions")
        (section_items payload "Market_Summary") <> Raise).
Proof.
  intros Hv. split.
  - rewrite (accounting_on_accepted payload (validate_true_accepted _ Hv)).
    unfold Spec.total, Spec.accounting.
    destruct (map_exn _ _) as [pnls|]; simpl; [|reflexivity].
    destruct (for_each pnls py_add (PFloat 0)) as [t|] eqn:Hsum; simpl;
      [|reflexivity].
    destruct (sum_float pnls _ t Hsum) as [x ->].
    exists x, (round2 x). repeat split. apply round2_two_decimals.
  - intros Hps Hms. destruct (plain_total _ _ Hps Hms) as [t ->].
    discriminate.
Qed.

(** Ten AAPL bought at 180.0 and quoted at 182.5: one position evaluated,
    an unrealized profit of 25.0. *)
Lemma accounting_sums_matched_positions_witness :
  accounting Sample.one_position = Val (PInt 1, PFloat 25.0).
Proof.
  destruct (accounting_sums_matched_positions Sample.one_position eq_refl)
    as [[x [r [Hx [Hr Hacc]]]] _].
  injection Hx as <-. rewrite Hacc. do 3 f_equal.
  apply (two_decimals_unique 25.0 r 25.0 Hr).
  exists 2500. repeat split; discriminate.
Defined.

(** C3 fails as stated, a result not being reported for every positions
    list and market summary: an accepted payload whose AAPL position has
    the quantity [10 ^ 400], quoted at 182.5 against 180.0, makes the
    product overflow the doubles, and the tick raises before anything is
    written. *)
Lemma huge_quantity_reports_nothing :
  Validators.validate_tick_payload Sample.huge_quantity = (true, "")
  /\ Spec.has_entry (section_items Sample.huge_quantity "Market_Summary")
       (Sample.position "AAPL" (PInt (10 ^ 400)) (PFloat 180.0)) = true
  /\ accounting Sample.huge_quantity = Raise
  /\ Business.analyze_tick (Sample.world LlmRaises HttpRaises)
       Sample.huge_quantity "t1" Sample.no_files
     = (Raise, Sample.no_files).
Proof. repeat split. Qed.

(** The sum 2.675 lies below the half way point as a double, and is
    reported as 2.67; 0.125 lies on it, and goes to the even 0.12. *)
Example accounting_rounds_the_sum :
  accounting
    (PDict [("Positions",
             PList [Sample.position "AAPL" (PInt 1) (PFloat 0.0)]);
            ("Market_Summary", PList [Sample.summary "AAPL" (PFloat 2.675) "high"]);
            ("market_history", PList [])])
  = Val (PInt 1, PFloat 2.67)
  /\ accounting
       (PDict [("Positions",
                PList [Sample.position "AAPL" (PFloat 0.5) (PFloat 0.0)]);
               ("Market_Summary",
                PList [Sample.summary "AAPL" (PFloat 0.25) "high"]);
               ("market_history", PList [])])
     = Val (PInt 1, PFloat 0.12).
Proof. split; reflexivity. Qed.

(** A position without a matching entry changes nothing. *)
Lemma unmatched_position_ignored (before after ms : list pyval) (pos : pyval) :
  Spec.has_entry ms pos = false ->
  Spec.accounting (before ++ pos :: after) ms
  = Spec.accounting (before ++ after) ms.
Proof.
  intros H. unfold Spec.accounting. rewrite !filter_app. simpl.
  now rewrite H.
Qed.

(** The sentinel is not recognised by its name: a CASH position that has
    a market-summary entry is evaluated like any other. *)
Example cash_with_entry_is_evaluated :
  Spec.accounting
    [Sample.position "CASH" (PInt 1000) (PFloat 1.0)]
    [Sample.summary "CASH" (PFloat 1.5) "low"]
  = Val (PInt 1, PFloat 500.0).
Proof. reflexivity. Qed.

(** The sample payload: AAPL gains 25.0, MSFT loses 25.0, CASH has no
    entry. *)
Example sample_accounting :
  accounting Sample.payload = Val (PInt 2, PFloat 0.0).
Proof. reflexivity. Qed.

(** The summary of the dict a tick returns holds the two numbers of the
    accounting step. *)
Lemma analyze_tick_summary (E : env) (payload : pyval) (trade_id : string)
  (fs fs' : Business.files) (result : pyval) :
  Business.analyze_tick E payload trade_id fs = (Val result, fs') ->
  exists n u,
    accounting payload = Val (n, u) /\ result = Business.tick_result n u.
Proof.
  unfold Business.analyze_tick, accounting, Business.io_bind, Business.pure,
    Business.io_ret.
  destruct (py_get payload "Positions" _) as [positions|]; [|discriminate].
  destruct (py_get payload "Market_Summary" _) as [ms|]; [|discriminate].
  simpl.
  destruct (Business.price_dict ms) as [prices|]; [|discriminate]. simpl.
  destruct (Business.unrealized_pnl_loop prices positions) as [totals|];
    [|discriminate].
  simpl.
  destruct (Business.get_recommendations E payload positions) as [recs|];
    [|discriminate].
  destruct (py_get payload "DAY" _) as [date_str|]; [|discriminate].
  destruct (Business.log_forward_persist _ _ _ _ _ _ _) as [[[]|] fs1];
    [|discriminate].
  destruct (py_round2 (fst totals)) as [rounded|]; [|discriminate].
  intros H. inversion H. simpl. eauto.
Qed.

(* ===================================================================== *)
(** ** The fallback of the orchestrator *)
(* ===================================================================== *)

Lemma fallback_loop (ps : list pyval) (acc : list recommendation) :
  forallb position_shape ps = true ->
  for_each ps
    (fun recommendations position =>
       t <- py_getitem position "ticker" ;;
       if Business.not_cash t then
         t' <- py_getitem position "ticker" ;;
         match t' with
         | PStr s =>
             Val (recommendations ++
                  [{| action := "STAY"; ticker := s; quantity := 0 |}])%list
         | _ => Raise
         end
       else Val recommendations)
    acc
  = Val (acc ++ Spec.stay_set ps)%list.
Proof.
  unfold Spec.stay_set.
  revert acc. induction ps as [|pos ps IH]; intros acc; simpl.
  - intros _. now rewrite app_nil_r.
  - rewrite andb_true_iff. intros [Hpos Hps].
    destruct (position_shape_fields pos Hpos) as [Ht _].
    rewrite Ht. simpl.
    destruct (String.eqb (str_field pos "ticker") "CASH"); simpl.
    + apply IH, Hps.
    + rewrite (IH _ Hps), <- app_assoc. reflexivity.
Qed.

Lemma fallback_recommendations_stay_set (ps : list pyval) :
  forallb position_shape ps = true ->
  Business.fallback_recommendations (PList ps) = Val (Spec.stay_set ps).
Proof.
  intros Hps. unfold Business.fallback_recommendations. simpl.
  exact (fallback_loop ps [] Hps).
Qed.

(** C1, amended.  On an accepted payload, a recommendation request that
    raises is answered by the synthetic set: one STAY of quantity 0 for
    every position that is not CASH, none for CASH.  A request that
    returns hands over its list as it is, the empty list included. *)
Theorem fallback_on_exception (E : env) (payload : pyval) :
  fst (Validators.validate_tick_payload payload) = true ->
  let positions := section_items payload "Positions" in
  (AITool.evaluate_portfolio E payload = Raise ->
   Business.get_recommendations E payload (PList positions)
   = Val (Spec.stay_set positions))
  /\ (forall text recs,
        AITool.evaluate_portfolio E payload = Val (text, recs) ->
        Business.get_recommendations E payload (PList positions) = Val recs).
Proof.
  intros Hv positions. apply validate_true_accepted in Hv.
  destruct (accepted_sections payload Hv) as [_ [_ [Hps _]]].
  unfold Business.get_recommendations. split.
  - intros ->. now apply fallback_recommendations_stay_set.
  - now intros text recs ->.
Qed.

(** The language model is unreachable: AAPL and MSFT stay, CASH is left
    out. *)
Lemma fallback_on_exception_witness :
  Business.get_recommendations (Sample.world LlmRaises HttpRaises)
    Sample.payload (PList Sample.positions)
  = Val [Spec.stay "AAPL"; Spec.stay "MSFT"].
Proof.
  apply (fallback_on_exception (Sample.world LlmRaises HttpRaises)
           Sample.payload); reflexivity.
Defined.

(** C1 fails as stated: the language model answers with text and no
    structured invocation, the requester returns the empty list, and the
    orchestrator goes on with that empty list instead of the synthetic
    set; nothing is logged. *)
Lemma empty_result_has_no_fallback :
  let E := Sample.world (LlmMessage (Some "Hold everything.") None)
             HttpRaises in
  AITool.evaluate_portfolio E Sample.payload = Val ("Hold everything.", [])
  /\ Spec.stay_set Sample.positions = [Spec.stay "AAPL"; Spec.stay "MSFT"]
  /\ Business.get_recommendations E Sample.payload (PList Sample.positions)
     = Val []
  /\ Business.TRADING_HISTORY_FILE
       (snd (Business.analyze_tick E Sample.payload "t1" Sample.no_files))
     = Business.Missing.
Proof.
  repeat split.
Qed.

(* ===================================================================== *)
(** ** The trading history *)
(* ===================================================================== *)

Lemma append_loop (date_str : pyval) (prices : dict)
  (recs : list recommendation) (h : list pyval) :
  for_each recs
    (fun history rec =>
       Business.py_append history (Business.transaction date_str prices rec))
    (PList h)
  = Val (PList (h ++ map (Business.transaction date_str prices) recs)).
Proof.
  revert h. induction recs as [|rec recs IH]; intros h; simpl.
  - now rewrite app_nil_r.
  - now rewrite IH, <- app_assoc.
Qed.

Lemma transaction_quantity (date_str : pyval) (prices : dict)
  (rec : recommendation) :
  has_field (Business.transaction date_str prices rec) "quantity"
  = (0 <? quantity rec).
Proof.
  unfold Business.transaction. now destruct (0 <? quantity rec).
Qed.

(** One call of [log_ai_recommendations] on a readable history. *)
Lemma log_appends (recs : list recommendation) (date_str : pyval)
  (ms h : list pyval) (fs : Business.files) :
  forallb summary_shape ms = true ->
  Business.load_history fs = PList h ->
  exists prices,
    Business.price_dict (PList ms) = Val prices
    /\ Business.log_ai_recommendations recs date_str (PList ms) fs
       = (Val tt,
          Business.write_history fs
            (PList (h ++ map (Business.transaction date_str prices) recs))).
Proof.
  intros Hms Hh. destruct (price_dict_lookup ms Hms) as [prices [Hp _]].
  exists prices. split; [exact Hp|].
  unfold Business.log_ai_recommendations. rewrite Hp, Hh. simpl.
  now rewrite append_loop.
Qed.

Lemma log_ticks_length (ticks : list logged) :
  Forall (fun t => forallb summary_shape (snd t) = true) ticks ->
  forall fs h,
    Business.load_history fs = PList h ->
    exists fs' h',
      log_ticks ticks fs = (Val tt, fs')
      /\ Business.load_history fs' = PList h'
      /\ List.length h'
         = (List.length h + list_sum (map logged_count ticks))%nat.
Proof.
  induction 1 as [|[[recs date_str] ms] ticks Hms _ IH]; intros fs h Hh.
  - exists fs, h. simpl. repeat split; [exact Hh | lia].
  - simpl in Hms.
    destruct (log_appends recs date_str ms h fs Hms Hh) as [prices [_ Hlog]].
    simpl. unfold Business.io_bind. rewrite Hlog.
    destruct (IH (Business.write_history fs
                    (PList (h ++ map (Business.transaction date_str prices)
                                     recs)))
                 _ eq_refl) as [fs' [h' [Hrun [Hh' Hlen]]]].
    exists fs', h'. repeat split; [exact Hrun | exact Hh' |].
    rewrite Hlen, length_app, length_map. unfold logged_count. simpl. lia.
Qed.

(** C8.  On a history that reads as a list (an absent or unreadable file
    reading as the empty list), logging a batch appends one entry per
    recommendation, an entry having a [quantity] field exactly when the
    recommended quantity is positive; and over successive ticks the
    history grows by the sum of the sizes of their batches. *)
Theorem history_grows_by_batches (fs : Business.files) (h : list pyval) :
  Business.load_history fs = PList h ->
  (forall recs date_str ms,
     forallb summary_shape ms = true ->
     exists entries,
       Business.log_ai_recommendations recs date_str (PList ms) fs
       = (Val tt, Business.write_history fs (PList (h ++ entries)))
       /\ List.length entries = List.length recs
       /\ Forall2 (fun rec entry =>
                     has_field entry "quantity" = (0 <? quantity rec))
            recs entries)
  /\ (forall ticks,
        Forall (fun t => forallb summary_shape (snd t) = true) ticks ->
        exists fs' h',
          log_ticks ticks fs = (Val tt, fs')
          /\ Business.load_history fs' = PList h'
          /\ List.length h'
             = (List.length h + list_sum (map logged_count ticks))%nat).
Proof.
  intros Hh. split.
  - intros recs date_str ms Hms.
    destruct (log_appends recs date_str ms h fs Hms Hh) as [prices [_ Hlog]].
    exists (map (Business.transaction date_str prices) recs).
    repeat split; [exact Hlog | apply length_map |].
    clear Hlog. induction recs as [|rec recs IH]; simpl; constructor.
    + apply transaction_quantity.
    + exact IH.
  - intros ticks Hticks. exact (log_ticks_length ticks Hticks fs h Hh).
Qed.

(** A SELL of five AAPL and a STAY on MSFT are logged into a missing
    history file: two entries, the first with a quantity. *)
Lemma history_grows_by_batches_witness :
  exists entries,
    Business.log_ai_recommendations
      [{| action := "SELL"; ticker := "AAPL"; quantity := 5 |};
       Spec.stay "MSFT"]
      (PStr "2025-01-02") (PList Sample.market_summary) Sample.no_files
    = (Val tt, Business.write_history Sample.no_files (PList ([] ++ entries)))
    /\ List.length entries = 2%nat
    /\ Forall2 (fun rec entry =>
                  has_field entry "quantity" = (0 <? quantity rec))
         [{| action := "SELL"; ticker := "AAPL"; quantity := 5 |};
          Spec.stay "MSFT"]
         entries.
Proof.
  apply (proj1 (history_grows_by_batches Sample.no_files [] eq_refl)).
  reflexivity.
Defined.

Example logged_entries :
  Business.TRADING_HISTORY_FILE
    (snd (Business.log_ai_recommendations
            [{| action := "SELL"; ticker := "AAPL"; quantity := 5 |};
             Spec.stay "MSFT"]
            (PStr "2025-01-02") (PList Sample.market_summary)
            Sample.no_files))
  = Business.Holds
      (PList
         [PDict [("date", PStr "2025-01-02"); ("ticker", PStr "AAPL");
                 ("action", PStr "SELL"); ("price", PFloat 182.5);
                 ("note", PStr "AI recommendation: SELL 5 shares");
                 ("quantity", PInt 5)];
          PDict [("date", PStr "2025-01-02"); ("ticker", PStr "MSFT");
                 ("action", PStr "STAY"); ("price", PFloat 405.0);
                 ("note", PStr "AI recommendation: STAY 0 shares")]]).
Proof. reflexivity. Qed.

(* ===================================================================== *)
(** ** Persisting the positions *)
(* ===================================================================== *)

(** On an accepted payload [save_positions] writes the snapshot derived
    from the payload, or raises and writes nothing when the arithmetic of
    a row raises. *)
Lemma save_positions_snapshot (payload : pyval) (fs : Business.files) :
  accepted payload = true ->
  Business.save_positions payload fs
  = match Spec.snapshot (section_items payload "Positions")
            (section_items payload "Market_Summary") with
    | Val rows => (Val tt, Business.write_positions fs (PList rows))
    | Raise => (Raise, fs)
    end.
Proof.
  intros Hacc.
  destruct (accepted_sections payload Hacc) as [HP [HS [Hps Hms]]].
  destruct (price_dict_lookup _ Hms) as [prices [Hprices Hget]].
  unfold Business.save_positions, Business.io_bind, Business.pure.
  rewrite HP, HS. simpl. rewrite Hprices. simpl.
  rewrite (rows_loop prices _ Hget _ _ Hps).
  now destruct (Spec.snapshot _ _).
Qed.

(** The current price of a snapshot row: that of the matching entry, and
    the purchase price when there is none. *)
Lemma snapshot_current_prices (ps ms rows : list pyval) :
  Spec.snapshot ps ms = Val rows ->
  Forall2 (fun pos row =>
             field row "current_price"
             = match Spec.summary_price ms (str_field pos "ticker") with
               | Some cp => cp
               | None => field pos "purchase_price"
               end)
    ps rows.
Proof.
  unfold Spec.snapshot. revert rows.
  induction ps as [|pos ps IH]; simpl; intros rows H.
  - inversion H. constructor.
  - destruct (Spec.snapshot_row ms pos) as [row|] eqn:Hrow; [|discriminate].
    simpl in H. destruct (map_exn _ ps) as [rows'|]; [|discriminate].
    inversion H. constructor; [|now apply IH].
    unfold Spec.snapshot_row in Hrow.
    destruct (Spec.pnl _ pos) as [u|]; [|discriminate]. simpl in Hrow.
    destruct (py_round2 u) as [r|]; [|discriminate].
    inversion Hrow. reflexivity.
Qed.

Lemma make_trade_failed (E : env) (trade_id : string)
  (recs : list recommendation) :
  failed (post_make_trade E (trade_request trade_id recs)) = true ->
  Business.make_trade E trade_id recs = PNone.
Proof.
  unfold Business.make_trade, trade_request.
  destruct (negb _); [reflexivity|].
  destruct (post_make_trade E _) as [|st body]; [reflexivity|].
  simpl. destruct (st =? 200); [|reflexivity].
  destruct body as [|[]]; simpl; try reflexivity; discriminate.
Qed.

Lemma make_trade_no_position (E : env) (trade_id : string)
  (recs : list recommendation) :
  reports_no_position (post_make_trade E (trade_request trade_id recs)) = true ->
  py_truthy (Business.make_trade E trade_id recs) = false.
Proof.
  unfold Business.make_trade, trade_request.
  destruct (negb _); [reflexivity|].
  destruct (post_make_trade E _) as [|st body]; [reflexivity|].
  simpl. destruct body as [|[]]; try discriminate.
  destruct (st =? 200); [|reflexivity]. simpl.
  destruct (dict_get d "Positions") as [[]|]; try discriminate;
    [|reflexivity].
  now destruct l.
Qed.

Lemma make_trade_confirmed (E : env) (trade_id : string)
  (recs : list recommendation) (body : dict) (positions : pyval) :
  Business.key_present (MOTHERSHIP_API_KEY E) = true ->
  post_make_trade E (trade_request trade_id recs)
  = HttpResponse 200 (Parses (PDict body)) ->
  dict_get body "Positions" = Some positions ->
  Business.make_trade E trade_id recs = positions.
Proof.
  intros Hkey Hpost Hbody. unfold Business.make_trade.
  unfold trade_request in Hpost. rewrite Hkey. cbn [negb].
  rewrite Hpost. simpl. now rewrite Hbody.
Qed.


(** The running total of the accounting loop is a float throughout. *)
Lemma unrealized_pnl_loop_float (prices : dict) (items : list pyval)
  (a : float) (n : Z) (totals : pyval * Z) :
  for_each items
    (fun '(total_unrealized_pnl, positions_evaluated) position =>
       ticker <- py_getitem position "ticker" ;;
       quantity <- py_getitem position "quantity" ;;
       purchase_price <- py_getitem position "purchase_price" ;;
       found <- Business.prices_mem prices ticker ;;
       if found then
         current_price <- Business.prices_getitem prices ticker ;;
         diff <- py_sub current_price purchase_price ;;
         position_pnl <- py_mul diff quantity ;;
         total <- py_add total_unrealized_pnl position_pnl ;;
         Val (total, positions_evaluated + 1)
       else Val (total_unrealized_pnl, positions_evaluated))
    (PFloat a, n) = Val totals ->
  exists b, fst totals = PFloat b.
Proof.
  revert a n. induction items as [|pos items IH]; intros a n; simpl.
  - intros H. inversion H. simpl. eauto.
  - destruct (py_getitem pos "ticker") as [t|]; [|discriminate]. simpl.
    destruct (py_getitem pos "quantity") as [q|]; [|discriminate]. simpl.
    destruct (py_getitem pos "purchase_price") as [pp|]; [|discriminate].
    simpl.
    destruct (Business.prices_mem prices t) as [[]|]; simpl;
      [| apply IH | discriminate].
    destruct (Business.prices_getitem prices t) as [cp|]; [|discriminate].
    simpl.
    destruct (py_sub cp pp) as [diff|]; [|discriminate]. simpl.
    destruct (py_mul diff q) as [pnl|]; [|discriminate]. simpl.
    destruct (py_add (PFloat a) pnl) as [total|] eqn:Hadd; [|discriminate].
    simpl. destruct (py_add_float a pnl total Hadd) as [b ->]. apply IH.
Qed.

(** A tick on an accepted payload: the accounting, then the
    recommendations and the date, which never raise, then logging,
    forwarding and persisting. *)
Lemma analyze_tick_unfold (E : env) (payload : pyval) (trade_id : string)
  (fs : Business.files) :
  accepted payload = true ->
  exists recs date_str,
    Business.get_recommendations E payload
      (PList (section_items payload "Positions")) = Val recs
    /\ py_get payload "DAY" (PStr (today E)) = Val date_str
    /\ Business.analyze_tick E payload trade_id fs
       = match accounting payload with
         | Raise => (Raise, fs)
         | Val (n, u) =>
             match Business.log_forward_persist E payload trade_id
                     (PList (section_items payload "Market_Summary"))
                     date_str recs fs with
             | (Val _, fs') => (Val (Business.tick_result n u), fs')
             | (Raise, fs') => (Raise, fs')
             end
         end.
Proof.
  intros Hok.
  destruct (accepted_sections payload Hok) as [HP [HS [Hps Hms]]].
  assert (Hrecs : exists recs,
             Business.get_recommendations E payload
               (PList (section_items payload "Positions")) = Val recs).
  { unfold Business.get_recommendations.
    destruct (AITool.evaluate_portfolio E payload) as [[text recs]|];
      [eauto|].
    rewrite fallback_recommendations_stay_set; eauto. }
  destruct Hrecs as [recs Hrecs].
  assert (Hday : exists date_str,
             py_get payload "DAY" (PStr (today E)) = Val date_str).
  { destruct payload; try discriminate. simpl. eauto. }
  destruct Hday as [date_str Hday].
  exists recs, date_str. repeat split; [exact Hrecs | exact Hday |].
  destruct (price_dict_lookup _ Hms) as [prices [Hprices _]].
  unfold accounting, Business.analyze_tick, Business.io_bind, Business.pure,
    Business.io_ret.
  rewrite HP, HS. simpl. rewrite Hprices. simpl.
  destruct (Business.unrealized_pnl_loop prices _) as [totals|] eqn:Hloop;
    [|reflexivity].
  simpl. rewrite Hrecs, Hday.
  destruct (unrealized_pnl_loop_float prices _ _ _ totals Hloop) as [b Hb].
  rewrite Hb. simpl.
  destruct (Business.log_forward_persist _ _ _ _ _ _ _) as [[[]|] fs'];
    reflexivity.
Qed.

Section Tick.
Import Business.
Variables (E : env) (payload : pyval) (trade_id : string) (fs : files).
Hypothesis valid : fst (Validators.validate_tick_payload payload) = true.
Hypothesis readable : is_list (load_history fs) = true.

(** When the forwarder hands back nothing to persist, the tick ends as
    the arithmetic decides, whatever the file held: with the snapshot of
    the payload in the positions file, or raising with that file as it
    was. *)
Lemma tick_persists_snapshot (recs : list recommendation) :
  get_recommendations E payload (PList (section_items payload "Positions"))
  = Val recs ->
  (recs <> [] -> py_truthy (make_trade E trade_id recs) = false) ->
  match accounting payload,
        Spec.snapshot (section_items payload "Positions")
          (section_items payload "Market_Summary") with
  | Val (n, u), Val rows =>
      exists fs',
        analyze_tick E payload trade_id fs = (Val (tick_result n u), fs')
        /\ POSITIONS_FILE fs' = Holds (PList rows)
  | _, _ =>
      exists fs',
        analyze_tick E payload trade_id fs = (Raise, fs')
        /\ POSITIONS_FILE fs' = POSITIONS_FILE fs
  end.
Proof.
  intros Hrecs Hnone.
  pose proof (validate_true_accepted payload valid) as Hok.
  destruct (accepted_sections payload Hok) as [_ [_ [_ Hms]]].
  destruct (analyze_tick_unfold E payload trade_id fs Hok)
    as [recs' [date_str [Hrecs' [_ Hrun]]]].
  rewrite Hrecs in Hrecs'. injection Hrecs' as <-.
  rewrite Hrun. clear Hrun.
  destruct (accounting payload) as [[n u]|];
    [|eexists; split; reflexivity].
  assert (Hh : exists h, load_history fs = PList h).
  { destruct (load_history fs); try discriminate. eauto. }
  destruct Hh as [h Hh].
  unfold log_forward_persist. destruct recs as [|rec recs].
  - rewrite (save_positions_snapshot payload fs Hok).
    destruct (Spec.snapshot _ _); eauto.
  - destruct (log_appends (rec :: recs) date_str _ h fs Hms Hh)
      as [prices [_ Hlog]].
    unfold io_bind. rewrite Hlog, Hnone by discriminate.
    rewrite (save_positions_snapshot payload _ Hok).
    destruct (Spec.snapshot _ _); eauto.
Qed.

End Tick.

(** C7, amended.  On an accepted payload and a readable history, when the
    call the tick makes to the trade-execution service fails (it raises,
    answers another status than 200, or a body that is no JSON object),
    the tick ends as its arithmetic decides.  When neither the accounting
    nor a row of the snapshot raises, it completes and leaves in the
    positions file the snapshot derived from the payload's Positions and
    Market_Summary (the current price of a position being that of its
    matching entry, or its purchase price when it has none), whatever
    the file held before; otherwise it raises, and the positions file is
    left as the prior tick left it. *)
Theorem failed_forwarding_persists_payload (E : env) (payload : pyval)
  (trade_id : string) (fs : Business.files) :
  fst (Validators.validate_tick_payload payload) = true ->
  is_list (Business.load_history fs) = true ->
  (forall recs,
     Business.get_recommendations E payload
       (PList (section_items payload "Positions")) = Val recs ->
     failed (post_make_trade E (trade_request trade_id recs)) = true) ->
  match accounting payload,
        Spec.snapshot (section_items payload "Positions")
          (section_items payload "Market_Summary") with
  | Val (n, u), Val rows =>
      (exists fs',
         Business.analyze_tick E payload trade_id fs
         = (Val (Business.tick_result n u), fs')
         /\ Business.POSITIONS_FILE fs' = Business.Holds (PList rows))
      /\ Forall2 (fun pos row =>
                    field row "current_price"
                    = match Spec.summary_price
                              (section_items payload "Market_Summary")
                              (str_field pos "ticker") with
                      | Some cp => cp
                      | None => field pos "purchase_price"
                      end)
           (section_items payload "Positions") rows
  | _, _ =>
      exists fs',
        Business.analyze_tick E payload trade_id fs = (Raise, fs')
        /\ Business.POSITIONS_FILE fs' = Business.POSITIONS_FILE fs
  end.
Proof.
  intros Hv Hread Hfail.
  destruct (analyze_tick_unfold E payload trade_id fs
              (validate_true_accepted payload Hv))
    as [recs [_ [Hrecs _]]].
  pose proof (tick_persists_snapshot E payload trade_id fs Hv Hread recs Hrecs)
    as Htick.
  rewrite (make_trade_failed E trade_id recs (Hfail recs Hrecs)) in Htick.
  specialize (Htick (fun _ => eq_refl)).
  destruct (accounting payload) as [[n u]|]; [|exact Htick].
  destruct (Spec.snapshot _ _) as [rows|] eqn:Hrows; [|exact Htick].
  split; [exact Htick | now apply snapshot_current_prices].
Qed.

(** C9, amended.  On an accepted payload and a readable history, when the
    trade-execution service answers the call of the tick with 200 and a
    body whose [Positions] is absent or empty, the tick ends as it does
    after a failed call.  When neither the accounting nor a row of the
    snapshot raises, the positions file holds the snapshot derived from
    the payload, which is not the empty list; otherwise the tick raises,
    and the positions file is left as it was. *)
Theorem empty_confirmation_persists_payload (E : env) (payload : pyval)
  (trade_id : string) (fs : Business.files) :
  fst (Validators.validate_tick_payload payload) = true ->
  is_list (Business.load_history fs) = true ->
  (forall recs,
     Business.get_recommendations E payload
       (PList (section_items payload "Positions")) = Val recs ->
     reports_no_position (post_make_trade E (trade_request trade_id recs))
     = true) ->
  match accounting payload,
        Spec.snapshot (section_items payload "Positions")
          (section_items payload "Market_Summary") with
  | Val (n, u), Val rows =>
      rows <> []
      /\ exists fs',
           Business.analyze_tick E payload trade_id fs
           = (Val (Business.tick_result n u), fs')
           /\ Business.POSITIONS_FILE fs' = Business.Holds (PList rows)
  | _, _ =>
      exists fs',
        Business.analyze_tick E payload trade_id fs = (Raise, fs')
        /\ Business.POSITIONS_FILE fs' = Business.POSITIONS_FILE fs
  end.
Proof.
  intros Hv Hread Hrep.
  destruct (analyze_tick_unfold E payload trade_id fs
              (validate_true_accepted payload Hv))
    as [recs [_ [Hrecs _]]].
  pose proof (tick_persists_snapshot E payload trade_id fs Hv Hread recs Hrecs
                (fun _ => make_trade_no_position E trade_id recs
                            (Hrep recs Hrecs)))
    as Htick.
  destruct (accounting payload) as [[n u]|]; [|exact Htick].
  destruct (Spec.snapshot _ _) as [rows|] eqn:Hrows; [|exact Htick].
  split; [|exact Htick].
  pose proof (accepted_has_positions payload
                (validate_true_accepted payload Hv)) as Hne.
  apply map_exn_length in Hrows. intros ->.
  destruct (section_items payload "Positions");
    [contradiction | discriminate].
Qed.

(** C10.  On a payload whose [Positions] is [ps] and whose
    [Market_Summary] is [ms], [save_positions] does what
    [update_positions_from_api ps ms] does: the same document is written,
    or both raise and write nothing. *)
Theorem save_positions_agrees_with_update (d : dict) (ps ms : pyval)
  (fs : Business.files) :
  dict_get d "Positions" = Some ps ->
  dict_get d "Market_Summary" = Some ms ->
  Business.save_positions (PDict d) fs
  = Business.update_positions_from_api ps ms fs.
Proof.
  intros HP HS.
  unfold Business.save_positions, Business.update_positions_from_api,
    Business.io_bind, Business.pure.
  simpl. rewrite HP, HS. reflexivity.
Qed.

(** C2.  The payload whose only position has the quantity [true] breaks
    rule 2, a boolean being no number, and is accepted all the same:
    [isinstance(True, (int, float))] holds. *)
Theorem boolean_quantity_accepted :
  Spec.satisfies_rules Sample.boolean_quantity = false
  /\ Validators.validate_tick_payload Sample.boolean_quantity = (true, "").
Proof. split; reflexivity. Qed.

(** The service answers 503 to the call of tick [t1], and would confirm
    12 AAPL to any other, while the positions file holds the empty list
    of an earlier tick: the file ends with the three rows of the
    payload. *)
Lemma failed_forwarding_persists_payload_witness :
  (exists fs',
     Business.analyze_tick
       (Sample.service_for_t1 (HttpResponse 503 Unparsable))
       Sample.payload "t1"
       {| Business.POSITIONS_FILE := Business.Holds (PList []);
          Business.TRADING_HISTORY_FILE := Business.Corrupt |}
     = (Val (Business.tick_result (PInt 2) (PFloat 0.0)), fs')
     /\ Business.POSITIONS_FILE fs' = Business.Holds (PList Sample.rows))
  /\ Forall2 (fun pos row =>
                field row "current_price"
                = match Spec.summary_price Sample.market_summary
                          (str_field pos "ticker") with
                  | Some cp => cp
                  | None => field pos "purchase_price"
                  end)
       Sample.positions Sample.rows.
Proof.
  apply (failed_forwarding_persists_payload
           (Sample.service_for_t1 (HttpResponse 503 Unparsable))
           Sample.payload "t1"
           {| Business.POSITIONS_FILE := Business.Holds (PList []);
              Business.TRADING_HISTORY_FILE := Business.Corrupt |}).
  - reflexivity.
  - reflexivity.
  - intros recs _. reflexivity.
Defined.

(** C7 fails as stated: on an accepted payload whose unquoted CASH has
    the quantity [10 ^ 400], with the language model down and the service
    answering 503, the accounting completes but the CASH row of the
    snapshot overflows the doubles; the tick raises, and the positions
    file still holds what the prior tick left, here the empty list. *)
Lemma huge_cash_blocks_failed_forwarding :
  let E := Sample.world LlmRaises (HttpResponse 503 Unparsable) in
  let fs := {| Business.POSITIONS_FILE := Business.Holds (PList []);
               Business.TRADING_HISTORY_FILE := Business.Missing |} in
  Validators.validate_tick_payload Sample.huge_cash = (true, "")
  /\ Business.get_recommendations E Sample.huge_cash
       (PList (section_items Sample.huge_cash "Positions"))
     = Val [Spec.stay "AAPL"]
  /\ failed (post_make_trade E (trade_request "t1" [Spec.stay "AAPL"])) = true
  /\ fst (Business.analyze_tick E Sample.huge_cash "t1" fs) = Raise
  /\ Business.POSITIONS_FILE
       (snd (Business.analyze_tick E Sample.huge_cash "t1" fs))
     = Business.Holds (PList []).
Proof. repeat split. Qed.

(** The service answers the call of tick [t1] with 200 and an empty
    [Positions]. *)
Lemma empty_confirmation_persists_payload_witness :
  Sample.rows <> []
  /\ exists fs',
       Business.analyze_tick
         (Sample.service_for_t1
            (HttpResponse 200 (Parses (PDict [("Positions", PList [])]))))
         Sample.payload "t1" Sample.no_files
       = (Val (Business.tick_result (PInt 2) (PFloat 0.0)), fs')
       /\ Business.POSITIONS_FILE fs' = Business.Holds (PList Sample.rows).
Proof.
  apply (empty_confirmation_persists_payload
           (Sample.service_for_t1
              (HttpResponse 200 (Parses (PDict [("Positions", PList [])]))))
           Sample.payload "t1" Sample.no_files).
  - reflexivity.
  - reflexivity.
  - intros recs _. reflexivity.
Defined.

(** C9 fails as stated: on the same payload, whose unquoted CASH has the
    quantity [10 ^ 400], the service answers 200 with an empty
    [Positions]; the tick raises in the CASH row of the snapshot, and
    nothing is persisted: the positions file is as absent as it was. *)
Lemma huge_cash_blocks_empty_confirmation :
  let E := Sample.world LlmRaises
             (HttpResponse 200 (Parses (PDict [("Positions", PList [])]))) in
  Validators.validate_tick_payload Sample.huge_cash = (true, "")
  /\ Business.get_recommendations E Sample.huge_cash
       (PList (section_items Sample.huge_cash "Positions"))
     = Val [Spec.stay "AAPL"]
  /\ reports_no_position
       (post_make_trade E (trade_request "t1" [Spec.stay "AAPL"])) = true
  /\ fst (Business.analyze_tick E Sample.huge_cash "t1" Sample.no_files) = Raise
  /\ Business.POSITIONS_FILE
       (snd (Business.analyze_tick E Sample.huge_cash "t1" Sample.no_files))
     = Business.Missing.
Proof. repeat split. Qed.

Lemma save_positions_agrees_with_update_witness :
  Business.save_positions Sample.payload Sample.no_files
  = Business.update_positions_from_api (PList Sample.positions)
      (PList Sample.market_summary) Sample.no_files.
Proof.
  apply save_positions_agrees_with_update; reflexivity.
Defined.

(* ===================================================================== *)
(** ** Further properties of the validator *)
(* ===================================================================== *)

(** X1.  The validator accepts, with the empty message, exactly the
    payloads of the accepted shape, and every rejection carries a message
    that is not empty. *)
Theorem validator_accepts_exactly_shape (payload : pyval) :
  (Validators.validate_tick_payload payload = (true, "")
   <-> accepted payload = true)
  /\ (fst (Validators.validate_tick_payload payload) = true
      <-> snd (Validators.validate_tick_payload payload) = "").
Proof.
  destruct (validate_tick_payload_decides payload)
    as [[Hv Hacc] | [m [Hv [Hm Hacc]]]]; rewrite Hv, Hacc; simpl.
  - tauto.
  - split; split; intros H; try discriminate. now subst.
Qed.

Lemma shaped_position_passes (i : nat) (pos : pyval) :
  position_shape pos = true -> Validators.check_position i pos = None.
Proof.
  intros H. pose proof (check_position_decides i pos) as Hd.
  unfold decides in Hd. destruct (Validators.check_position i pos);
    [|reflexivity].
  destruct Hd as [Hd _]. congruence.
Qed.

Lemma first_failure_after_good (good rest : list pyval) (bad : pyval)
  (i : nat) (msg : string) :
  forallb position_shape good = true ->
  Validators.check_position (i + List.length good) bad = Some msg ->
  Validators.first_failure Validators.check_position i (good ++ bad :: rest)
  = Some msg.
Proof.
  revert i. induction good as [|x good IH]; intros i; simpl.
  - intros _. rewrite Nat.add_0_r. now intros ->.
  - rewrite andb_true_iff. intros [Hx Hgood] Hbad.
    rewrite (shaped_position_passes i x Hx).
    apply IH; [exact Hgood|]. now rewrite Nat.add_succ_comm.
Qed.

(** X2.  Validation stops at the first position that fails: the message
    is the one of that position, built with its index, whatever follows
    it in the list and whatever the other sections hold. *)
Theorem first_bad_position_reported (d : dict) (good rest : list pyval)
  (bad : pyval) (msg : string) :
  dict_get d "Positions" = Some (PList (good ++ bad :: rest)) ->
  forallb position_shape good = true ->
  Validators.check_position (List.length good) bad = Some msg ->
  Validators.validate_tick_payload (PDict d) = (false, msg).
Proof.
  intros Hd Hgood Hbad.
  unfold Validators.validate_tick_payload, Validators.check_section.
  rewrite Hd.
  rewrite (first_failure_after_good good rest bad 0 msg Hgood Hbad).
  destruct (good ++ bad :: rest)%list eqn:Hl; [|reflexivity].
  now destruct good.
Qed.

(** The second position of three lacks its quantity: the message names
    index 1, and the third position, which is no object, is not looked
    at. *)
Lemma first_bad_position_reported_witness :
  Validators.validate_tick_payload
    (PDict [("Positions",
             PList [Sample.position "AAPL" (PInt 10) (PFloat 180.0);
                    PDict [("ticker", PStr "MSFT");
                           ("purchase_price", PFloat 410.0)];
                    PStr "CASH"])])
  = (false, "Position at index 1 missing 'quantity'").
Proof.
  apply (first_bad_position_reported _
           [Sample.position "AAPL" (PInt 10) (PFloat 180.0)]
           [PStr "CASH"]
           (PDict [("ticker", PStr "MSFT"); ("purchase_price", PFloat 410.0)]));
    reflexivity.
Defined.

(** X3.  A top-level field other than the four the validator knows is
    not looked at: adding one changes neither verdict nor message. *)
Theorem unknown_field_ignored (d : dict) (k : string) (v : pyval) :
  k <> "Positions" -> k <> "Market_Summary" -> k <> "market_history" ->
  k <> "DAY" ->
  Validators.validate_tick_payload (PDict ((k, v) :: d))
  = Validators.validate_tick_payload (PDict d).
Proof.
  intros H1 H2 H3 H4.
  unfold Validators.validate_tick_payload, Validators.check_section. simpl.
  destruct (String.eqb_spec k "Positions"); [contradiction|].
  destruct (String.eqb_spec k "Market_Summary"); [contradiction|].
  destruct (String.eqb_spec k "market_history"); [contradiction|].
  destruct (String.eqb_spec k "DAY"); [contradiction|].
  reflexivity.
Qed.

Lemma unknown_field_ignored_witness :
  Validators.validate_tick_payload
    (PDict [("comment", PInt 7); ("Positions", PList Sample.positions);
            ("Market_Summary", PList Sample.market_summary);
            ("market_history", PList Sample.market_history)])
  = Validators.validate_tick_payload Sample.payload.
Proof.
  apply unknown_field_ignored; discriminate.
Defined.

(* ===================================================================== *)
(** ** Further properties of the requester *)
(* ===================================================================== *)

Section RequesterFacts.
Import AITool.
Variable E : env.

(** The loop over the items of a batch is a map that stops at the first
    item that raises. *)
Lemma normalize_loop_map (items : list pyval) (acc : list recommendation) :
  for_each items
    (fun normalized item =>
       r <- normalize_item E item ;; Val (normalized ++ [r])%list) acc
  = (l <- map_exn (normalize_item E) items ;; Val (acc ++ l)%list).
Proof.
  revert acc. induction items as [|item items IH]; intros acc; simpl.
  - now rewrite app_nil_r.
  - destruct (normalize_item E item) as [r|]; simpl; [|reflexivity].
    rewrite IH. destruct (map_exn _ items); simpl; [|reflexivity].
    now rewrite <- app_assoc.
Qed.

Lemma map_exn_Forall2 {A B : Type} (f : A -> exn B) (xs : list A)
  (ys : list B) :
  map_exn f xs = Val ys -> Forall2 (fun x y => f x = Val y) xs ys.
Proof.
  revert ys. induction xs as [|x xs IH]; simpl; intros ys H.
  - inversion H. constructor.
  - destruct (f x) as [y|] eqn:Hy; [|discriminate]. simpl in H.
    destruct (map_exn f xs) as [ys'|]; [|discriminate].
    inversion H. constructor; auto.
Qed.

Lemma parse_call_items (call : tool_call) (l : list recommendation) :
  parse_call E call = Val (Some l) ->
  exists d,
    function_arguments call = Parses (PDict d)
    /\ map_exn (normalize_item E)
         (match dict_get d "recommendations" with
          | Some (PList items) => items
          | _ => []
          end) = Val l.
Proof.
  unfold parse_call.
  destruct (function_arguments call) as [|args]; [discriminate|].
  destruct args as [| | | | | |d]; try discriminate. simpl.
  intros H. exists d. split; [reflexivity|].
  destruct (dict_get d "recommendations") as [recs|].
  - destruct recs; try discriminate.
    rewrite normalize_loop_map in H.
    destruct (map_exn _ l0); [|discriminate]. simpl in H. now inversion H.
  - simpl in H. now inversion H.
Qed.

Lemma scan_other_tools (calls : list tool_call) (recs : list recommendation) :
  fold_left (scan_call E) calls recs
  = fold_left (scan_call E) (filter names_schema calls) recs.
Proof.
  revert recs. induction calls as [|call calls IH]; intros recs; simpl;
    [reflexivity|].
  destruct (names_schema call) eqn:Hn; simpl.
  - apply IH.
  - unfold scan_call at 2. rewrite Hn. apply IH.
Qed.

(** X5.  An invocation that is parsed yields one recommendation per item
    of its list, in the order of the items, each being what its item
    normalizes to (an absent list counting as the empty one). *)
Theorem batch_keeps_items_in_order (call : tool_call)
  (l : list recommendation) :
  parse_call E call = Val (Some l) ->
  exists d,
    function_arguments call = Parses (PDict d)
    /\ Forall2 (fun item r => normalize_item E item = Val r)
         (match dict_get d "recommendations" with
          | Some (PList items) => items
          | _ => []
          end) l.
Proof.
  intros H. destruct (parse_call_items call l H) as [d [Hd Hmap]].
  exists d. split; [exact Hd|]. now apply map_exn_Forall2.
Qed.

(** X6.  Invocations of other tools, wherever they stand among the tool
    calls, have no part in the result: it is the one the invocations
    that name the schema give by themselves. *)
Theorem other_tools_ignored (p : pyval) (content : option string)
  (calls : list tool_call) :
  chat_completion E p = LlmMessage content (Some calls) ->
  evaluate_portfolio E p
  = Val (py_strip E (match content with Some s => s | None => "" end),
         fold_left (scan_call E) (filter names_schema calls) []).
Proof.
  intros H. unfold evaluate_portfolio. rewrite H.
  now rewrite scan_other_tools.
Qed.

End RequesterFacts.

Lemma batch_keeps_items_in_order_witness :
  exists d,
    function_arguments
      (Sample.invocation [Sample.item "buy" "MSFT" (PInt 2);
                          Sample.item "stay" "AAPL" (PInt 0)])
    = Parses (PDict d)
    /\ Forall2
         (fun item r =>
            AITool.normalize_item (Sample.world LlmRaises HttpRaises) item
            = Val r)
         (match dict_get d "recommendations" with
          | Some (PList items) => items
          | _ => []
          end)
         [{| action := "BUY"; ticker := "MSFT"; quantity := 2 |};
          {| action := "STAY"; ticker := "AAPL"; quantity := 0 |}].
Proof.
  apply (batch_keeps_items_in_order (Sample.world LlmRaises HttpRaises)).
  reflexivity.
Defined.

(** Two invocations of a tool called [search] surround the one that
    names the schema. *)
Lemma other_tools_ignored_witness :
  let search := {| call_type := "function"; function_name := "search";
                   function_arguments := Unparsable |} in
  let calls := [search;
                Sample.invocation [Sample.item "buy" "MSFT" (PInt 2)];
                search] in
  AITool.evaluate_portfolio
    (Sample.world (Sample.answers calls) HttpRaises) Sample.payload
  = Val (AITool.py_strip (Sample.world (Sample.answers calls) HttpRaises) "",
         fold_left
           (AITool.scan_call (Sample.world (Sample.answers calls) HttpRaises))
           (filter AITool.names_schema calls) []).
Proof.
  intros search calls.
  apply (other_tools_ignored
           (Sample.world (Sample.answers calls) HttpRaises)
           Sample.payload None calls).
  reflexivity.
Defined.

(* ===================================================================== *)
(** ** Further properties of a tick *)
(* ===================================================================== *)

Lemma save_positions_keeps_history (payload : pyval) (fs : Business.files) :
  Business.TRADING_HISTORY_FILE (snd (Business.save_positions payload fs))
  = Business.TRADING_HISTORY_FILE fs.
Proof.
  unfold Business.save_positions, Business.io_bind, Business.pure.
  now destruct (bind _ _).
Qed.

Lemma update_positions_keeps_history (api ms : pyval) (fs : Business.files) :
  Business.TRADING_HISTORY_FILE
    (snd (Business.update_positions_from_api api ms fs))
  = Business.TRADING_HISTORY_FILE fs.
Proof.
  unfold Business.update_positions_from_api, Business.io_bind, Business.pure.
  now destruct (bind _ _).
Qed.

(** X8.  Without a key of the trade-execution service (the variable is
    unset or empty) nothing is forwarded: whatever the service would
    answer, an accepted tick on a readable history ends as its arithmetic
    decides, completing with the snapshot of its payload in the positions
    file when neither the accounting nor a row of the snapshot raises,
    and raising with the positions file unchanged otherwise. *)
Theorem missing_key_persists_payload (E : env) (payload : pyval)
  (trade_id : string) (fs : Business.files) :
  fst (Validators.validate_tick_payload payload) = true ->
  is_list (Business.load_history fs) = true ->
  Business.key_present (MOTHERSHIP_API_KEY E) = false ->
  match accounting payload,
        Spec.snapshot (section_items payload "Positions")
          (section_items payload "Market_Summary") with
  | Val (n, u), Val rows =>
      exists fs',
        Business.analyze_tick E payload trade_id fs
        = (Val (Business.tick_result n u), fs')
        /\ Business.POSITIONS_FILE fs' = Business.Holds (PList rows)
  | _, _ =>
      exists fs',
        Business.analyze_tick E payload trade_id fs = (Raise, fs')
        /\ Business.POSITIONS_FILE fs' = Business.POSITIONS_FILE fs
  end.
Proof.
  intros Hv Hread Hkey.
  destruct (analyze_tick_unfold E payload trade_id fs
              (validate_true_accepted payload Hv))
    as [recs [_ [Hrecs _]]].
  apply (tick_persists_snapshot E payload trade_id fs Hv Hread recs Hrecs).
  intros _. unfold Business.make_trade. now rewrite Hkey.
Qed.

(** The service would confirm a position of its own, but the key is
    empty. *)
Lemma missing_key_persists_payload_witness :
  exists fs',
    Business.analyze_tick
      {| py_repr := fun _ => "";
         unicode_upper := fun s => s;
         unicode_strip := fun s => s;
         unicode_int := fun _ => None;
         int_max_str_digits := 4300;
         chat_completion := fun _ => LlmRaises;
         post_make_trade :=
           fun _ => HttpResponse 200
                      (Parses (PDict [("Positions",
                                       PList [Sample.position "CASH" (PInt 5)
                                                (PFloat 1.0)])]));
         MOTHERSHIP_API_KEY := Some "";
         today := "2025-01-01" |}
      Sample.payload "t1" Sample.no_files
    = (Val (Business.tick_result (PInt 2) (PFloat 0.0)), fs')
    /\ Business.POSITIONS_FILE fs' = Business.Holds (PList Sample.rows).
Proof.
  apply (missing_key_persists_payload
           {| py_repr := fun _ => "";
              unicode_upper := fun s => s;
              unicode_strip := fun s => s;
              unicode_int := fun _ => None;
              int_max_str_digits := 4300;
              chat_completion := fun _ => LlmRaises;
              post_make_trade :=
                fun _ => HttpResponse 200
                           (Parses (PDict [("Positions",
                                            PList [Sample.position "CASH"
                                                     (PInt 5) (PFloat 1.0)])]));
              MOTHERSHIP_API_KEY := Some "";
              today := "2025-01-01" |}
           Sample.payload "t1" Sample.no_files); reflexivity.
Defined.



(** A confirmed position whose quantity is beyond the doubles: the tick
    raises after the call, and the positions file is left as it was. *)
Example confirmed_position_overflows :
  let E := Sample.service_for_t1
             (HttpResponse 200
                (Parses (PDict [("Positions",
                                 PList [Sample.position "GOLD"
                                          (PInt (10 ^ 400)) (PFloat 50.0)])])))
  in
  fst (Business.analyze_tick E Sample.payload "t1" Sample.no_files) = Raise
  /\ Business.POSITIONS_FILE
       (snd (Business.analyze_tick E Sample.payload "t1" Sample.no_files))
     = Business.Missing.
Proof. split; reflexivity. Qed.

(** X10.  A tick without recommendations logs nothing and forwards
    nothing, whatever the service would have answered: the history file
    is left as it is, even unreadable.  When neither the accounting nor
    a row of the snapshot raises, the tick completes and the positions
    file receives the snapshot of the payload; otherwise the tick raises
    and both files are left as they were. *)
Theorem no_recommendation_no_forwarding (E : env) (payload : pyval)
  (trade_id : string) (fs : Business.files) :
  fst (Validators.validate_tick_payload payload) = true ->
  Business.get_recommendations E payload
    (PList (section_items payload "Positions")) = Val [] ->
  Business.analyze_tick E payload trade_id fs
  = match accounting payload,
          Spec.snapshot (section_items payload "Positions")
            (section_items payload "Market_Summary") with
    | Val (n, u), Val rows =>
        (Val (Business.tick_result n u),
         {| Business.POSITIONS_FILE := Business.Holds (PList rows);
            Business.TRADING_HISTORY_FILE :=
              Business.TRADING_HISTORY_FILE fs |})
    | _, _ => (Raise, fs)
    end.
Proof.
  intros Hv Hrecs.
  pose proof (validate_true_accepted payload Hv) as Hok.
  destruct (analyze_tick_unfold E payload trade_id fs Hok)
    as [recs' [date_str [Hrecs' [_ Hrun]]]].
  rewrite Hrecs in Hrecs'. injection Hrecs' as <-.
  rewrite Hrun. destruct (accounting payload) as [[n u]|]; [|reflexivity].
  unfold Business.log_forward_persist.
  rewrite (save_positions_snapshot payload fs Hok).
  now destruct (Spec.snapshot _ _).
Qed.

(** The language model answers without any structured invocation while
    the history file holds a JSON object. *)
Lemma no_recommendation_no_forwarding_witness :
  Business.analyze_tick
    (Sample.world (LlmMessage (Some "Nothing to do.") None)
       (HttpResponse 200 (Parses (PDict []))))
    Sample.payload "t1"
    {| Business.POSITIONS_FILE := Business.Missing;
       Business.TRADING_HISTORY_FILE := Business.Holds (PDict []) |}
  = (Val (Business.tick_result (PInt 2) (PFloat 0.0)),
     {| Business.POSITIONS_FILE := Business.Holds (PList Sample.rows);
        Business.TRADING_HISTORY_FILE := Business.Holds (PDict []) |}).
Proof.
  apply (no_recommendation_no_forwarding
           (Sample.world (LlmMessage (Some "Nothing to do.") None)
              (HttpResponse 200 (Parses (PDict []))))
           Sample.payload "t1"
           {| Business.POSITIONS_FILE := Business.Missing;
              Business.TRADING_HISTORY_FILE := Business.Holds (PDict []) |});
    reflexivity.
Defined.

(** X11.  A tick that completes only appends to the history: the entries
    it finds are kept in place, and one entry per recommendation of the
    tick follows them, dated with the [DAY] of the payload or, without
    one, with the current date. *)
Theorem tick_appends_to_history (E : env) (payload : pyval)
  (trade_id : string) (fs fs' : Business.files) (h : list pyval)
  (result : pyval) :
  fst (Validators.validate_tick_payload payload) = true ->
  Business.load_history fs = PList h ->
  Business.analyze_tick E payload trade_id fs = (Val result, fs') ->
  exists recs prices,
    Business.get_recommendations E payload
      (PList (section_items payload "Positions")) = Val recs
    /\ Business.price_dict (PList (section_items payload "Market_Summary"))
       = Val prices
    /\ Business.load_history fs'
       = PList (h ++ map (Business.transaction
                            (match field payload "DAY" with
                             | PNone => PStr (today E)
                             | day => day
                             end) prices) recs).
Proof.
  intros Hv Hh Hrun.
  pose proof (validate_true_accepted payload Hv) as Hok.
  destruct (accepted_sections payload Hok) as [_ [_ [_ Hms]]].
  destruct (analyze_tick_unfold E payload trade_id fs Hok)
    as [recs [date_str [Hrecs [Hday Hstep]]]].
  rewrite Hstep in Hrun. clear Hstep.
  destruct (accounting payload) as [[n u]|]; [|discriminate].
  assert (Hdate : date_str = match field payload "DAY" with
                             | PNone => PStr (today E)
                             | day => day
                             end).
  { unfold accepted in Hok. destruct payload as [| | | | | |d];
      try discriminate.
    apply andb_true_iff in Hok. destruct Hok as [_ Hd].
    unfold day_shape in Hd. simpl in Hday. simpl.
    destruct (dict_get d "DAY") as [day|]; inversion Hday; subst;
      [|reflexivity].
    now destruct date_str. }
  destruct (price_dict_lookup _ Hms) as [prices [Hprices _]].
  exists recs, prices. repeat split; [exact Hrecs | exact Hprices |].
  rewrite <- Hdate. clear Hdate.
  unfold Business.log_forward_persist in Hrun.
  destruct recs as [|rec recs].
  - destruct (Business.save_positions payload fs) as [[[]|] fs1] eqn:Hsave;
      [|discriminate].
    inversion Hrun; subst fs1.
    pose proof (save_positions_keeps_history payload fs) as Hframe.
    rewrite Hsave in Hframe. simpl in Hframe.
    unfold Business.load_history in *. rewrite Hframe, Hh.
    simpl. now rewrite app_nil_r.
  - destruct (log_appends (rec :: recs) date_str _ h fs Hms Hh)
      as [prices' [Hprices' Hlog]].
    rewrite Hprices in Hprices'. inversion Hprices'; subst prices'.
    unfold Business.io_bind in Hrun. rewrite Hlog in Hrun.
    match type of Hrun with
    | context [(if ?c then ?a else ?b) ?f] =>
        assert (Hframe : Business.TRADING_HISTORY_FILE
                           (snd ((if c then a else b) f))
                         = Business.TRADING_HISTORY_FILE f);
        [ destruct c;
          [ apply update_positions_keeps_history
          | apply save_positions_keeps_history ]
        | destruct ((if c then a else b) f) as [[[]|] fs1]; [|discriminate] ]
    end.
    inversion Hrun; subst fs1. simpl in Hframe.
    unfold Business.load_history. now rewrite Hframe.
Qed.

(** The fallback of a tick dated by its payload is logged after the entry
    the history already held. *)
Lemma tick_appends_to_history_witness :
  let E := Sample.world LlmRaises HttpRaises in
  let payload :=
    PDict [("Positions", PList Sample.positions);
           ("Market_Summary", PList Sample.market_summary);
           ("market_history", PList Sample.market_history);
           ("DAY", PStr "2025-03-04")] in
  let fs := {| Business.POSITIONS_FILE := Business.Missing;
               Business.TRADING_HISTORY_FILE :=
                 Business.Holds (PList [PStr "earlier"]) |} in
  exists recs prices,
    Business.get_recommendations E payload
      (PList (section_items payload "Positions")) = Val recs
    /\ Business.price_dict (PList (section_items payload "Market_Summary"))
       = Val prices
    /\ Business.load_history (snd (Business.analyze_tick E payload "t1" fs))
       = PList ([PStr "earlier"]
                ++ map (Business.transaction (PStr "2025-03-04") prices) recs).
Proof.
  intros E payload fs.
  apply (tick_appends_to_history E payload "t1" fs
           (snd (Business.analyze_tick E payload "t1" fs))
           [PStr "earlier"]
           (Business.tick_result (PInt 2) (PFloat 0.0)));
    reflexivity.
Defined.

(* ===================================================================== *)
(** ** Further properties of the persistence *)
(* ===================================================================== *)

Lemma transaction_fields (date_str : pyval) (prices : dict)
  (rec : recommendation) :
  field (Business.transaction date_str prices rec) "date" = date_str
  /\ field (Business.transaction date_str prices rec) "ticker"
     = PStr (ticker rec)
  /\ field (Business.transaction date_str prices rec) "action"
     = PStr (action rec)
  /\ field (Business.transaction date_str prices rec) "price"
     = match dict_get prices (ticker rec) with
       | Some p => p
       | None => PFloat 0
       end.
Proof.
  unfold Business.transaction.
  destruct (0 <? quantity rec); repeat split.
Qed.

(** X12.  Every logged entry repeats the date it is given and the ticker
    and action of its recommendation, and is priced at the current price
    of the market-summary entry of that ticker, or at 0.0 when the
    summary has none (a recommendation to buy a ticker that is not
    quoted). *)
Theorem logged_entries_priced (recs : list recommendation)
  (date_str : pyval) (ms h : list pyval) (fs : Business.files) :
  forallb summary_shape ms = true ->
  Business.load_history fs = PList h ->
  exists entries,
    Business.log_ai_recommendations recs date_str (PList ms) fs
    = (Val tt, Business.write_history fs (PList (h ++ entries)))
    /\ Forall2 (fun rec entry =>
                  field entry "date" = date_str
                  /\ field entry "ticker" = PStr (ticker rec)
                  /\ field entry "action" = PStr (action rec)
                  /\ field entry "price"
                     = match Spec.summary_price ms (ticker rec) with
                       | Some p => p
                       | None => PFloat 0
                       end)
         recs entries.
Proof.
  intros Hms Hh.
  destruct (price_dict_lookup ms Hms) as [prices [Hp Hget]].
  destruct (log_appends recs date_str ms h fs Hms Hh) as [prices' [Hp' Hlog]].
  rewrite Hp in Hp'. inversion Hp'; subst prices'.
  exists (map (Business.transaction date_str prices) recs).
  split; [exact Hlog|]. clear Hlog.
  induction recs as [|rec recs IH]; simpl; constructor; [|exact IH].
  rewrite <- Hget. apply transaction_fields.
Qed.

(** A BUY of a ticker the summary does not quote is priced 0.0. *)
Lemma logged_entries_priced_witness :
  exists entries,
    Business.log_ai_recommendations
      [{| action := "BUY"; ticker := "TSLA"; quantity := 3 |}]
      (PStr "2025-01-02") (PList Sample.market_summary) Sample.no_files
    = (Val tt, Business.write_history Sample.no_files (PList ([] ++ entries)))
    /\ Forall2 (fun rec entry =>
                  field entry "date" = PStr "2025-01-02"
                  /\ field entry "ticker" = PStr (ticker rec)
                  /\ field entry "action" = PStr (action rec)
                  /\ field entry "price"
                     = match Spec.summary_price Sample.market_summary
                               (ticker rec) with
                       | Some p => p
                       | None => PFloat 0
                       end)
         [{| action := "BUY"; ticker := "TSLA"; quantity := 3 |}] entries.
Proof.
  apply logged_entries_priced; reflexivity.
Defined.

Lemma log_on_other_document (rec : recommendation)
  (recs : list recommendation) (date_str ms : pyval) (fs : Business.files) :
  is_list (Business.load_history fs) = false ->
  Business.log_ai_recommendations (rec :: recs) date_str ms fs = (Raise, fs).
Proof.
  intros Hdoc. unfold Business.log_ai_recommendations.
  destruct (Business.price_dict ms) as [prices|]; simpl; [|reflexivity].
  now destruct (Business.load_history fs).
Qed.

(** X13.  When the history file holds a JSON document that is no list,
    every accepted tick that has a recommendation to log raises, before
    anything is forwarded, and leaves both files as they were. *)
Theorem history_document_blocks_tick (E : env) (payload : pyval)
  (trade_id : string) (fs : Business.files) (rec : recommendation)
  (recs : list recommendation) :
  fst (Validators.validate_tick_payload payload) = true ->
  is_list (Business.load_history fs) = false ->
  Business.get_recommendations E payload
    (PList (section_items payload "Positions")) = Val (rec :: recs) ->
  Business.analyze_tick E payload trade_id fs = (Raise, fs).
Proof.
  intros Hv Hdoc Hrecs.
  pose proof (validate_true_accepted payload Hv) as Hok.
  destruct (analyze_tick_unfold E payload trade_id fs Hok)
    as [recs' [date_str [Hrecs' [_ Hrun]]]].
  rewrite Hrecs in Hrecs'. inversion Hrecs'; subst recs'.
  rewrite Hrun. destruct (accounting payload) as [[n u]|]; [|reflexivity].
  unfold Business.log_forward_persist, Business.io_bind.
  now rewrite log_on_other_document.
Qed.

Lemma history_document_blocks_tick_witness :
  Business.analyze_tick
    (Sample.world LlmRaises
       (HttpResponse 200 (Parses (PDict [("Positions", PList [])]))))
    Sample.payload "t1"
    {| Business.POSITIONS_FILE := Business.Missing;
       Business.TRADING_HISTORY_FILE := Business.Holds (PDict []) |}
  = (Raise,
     {| Business.POSITIONS_FILE := Business.Missing;
        Business.TRADING_HISTORY_FILE := Business.Holds (PDict []) |}).
Proof.
  apply (history_document_blocks_tick _ _ _ _ (Spec.stay "AAPL")
           [Spec.stay "MSFT"]); reflexivity.
Defined.

Lemma rows_loop_unreadable (prices : dict) (api acc : list pyval) :
  existsb unreadable_position api = true ->
  for_each api
    (fun positions_data position =>
       ticker <- py_getitem position "ticker" ;;
       quantity <- py_getitem position "quantity" ;;
       purchase_price <- py_getitem position "purchase_price" ;;
       current_price <-
         Business.prices_get prices ticker purchase_price ;;
       diff <- py_sub current_price purchase_price ;;
       unrealized_pnl <- py_mul diff quantity ;;
       rounded <- py_round2 unrealized_pnl ;;
       Val (positions_data ++
            [PDict [("ticker", ticker); ("quantity", quantity);
                    ("purchase_price", purchase_price);
                    ("current_price", current_price);
                    ("unrealized_pnl", rounded)]])%list)
    acc = Raise.
Proof.
  revert acc. induction api as [|pos api IH]; intros acc; simpl;
    [discriminate|].
  unfold unreadable_position at 1.
  destruct (py_getitem pos "ticker") as [t|]; simpl; [|reflexivity].
  destruct (py_getitem pos "quantity") as [q|]; simpl; [|reflexivity].
  destruct (py_getitem pos "purchase_price") as [pp|]; simpl; [|reflexivity].
  intros Hbad.
  destruct (Business.prices_get prices t pp) as [cp|]; simpl; [|reflexivity].
  destruct (py_sub cp pp) as [diff|]; simpl; [|reflexivity].
  destruct (py_mul diff q) as [pnl|]; simpl; [|reflexivity].
  destruct (py_round2 pnl) as [r|]; simpl; [|reflexivity].
  apply IH, Hbad.
Qed.

(** X14.  The positions the service reports are not validated: if one of
    them is no object or lacks its ticker, quantity or purchase price,
    [update_positions_from_api] raises and writes nothing, not even the
    rows of the elements that precede it. *)
Theorem unreadable_confirmation_writes_nothing (api : list pyval)
  (ms : pyval) (fs : Business.files) :
  existsb unreadable_position api = true ->
  Business.update_positions_from_api (PList api) ms fs = (Raise, fs).
Proof.
  intros Hbad.
  unfold Business.update_positions_from_api, Business.io_bind, Business.pure.
  destruct (Business.price_dict ms) as [prices|]; simpl; [|reflexivity].
  now rewrite rows_loop_unreadable.
Qed.

(** A well-formed position followed by one without purchase price. *)
Lemma unreadable_confirmation_writes_nothing_witness :
  Business.update_positions_from_api
    (PList [Sample.position "AAPL" (PInt 12) (PFloat 181.0);
            PDict [("ticker", PStr "MSFT"); ("quantity", PInt 1)]])
    (PList Sample.market_summary) Sample.no_files
  = (Raise, Sample.no_files).
Proof.
  apply unreadable_confirmation_writes_nothing. reflexivity.
Defined.

(** The comprehension of [price_dict] on any list of objects that have a
    string [ticker] and a [current_price]. *)
Lemma price_loop_priced (items : list pyval) (acc : dict) :
  Forall (fun item =>
            py_getitem item "ticker" = Val (PStr (str_field item "ticker"))
            /\ py_getitem item "current_price"
               = Val (field item "current_price")) items ->
  exists prices,
    for_each items
      (fun prices item =>
         t <- py_getitem item "ticker" ;;
         p <- py_getitem item "current_price" ;;
         match t with
         | PStr k => Val (dict_set prices k p)
         | _ => Raise
         end)
      acc = Val prices
    /\ forall t, dict_get prices t
                 = match Spec.summary_price items t with
                   | Some p => Some p
                   | None => dict_get acc t
                   end.
Proof.
  intros H. revert acc. induction H as [|item items [Ht Hp] _ IH];
    intros acc; simpl.
  - exists acc. auto.
  - rewrite Ht, Hp. simpl.
    destruct (IH (dict_set acc (str_field item "ticker")
                    (field item "current_price"))) as [prices [Hrun Hget]].
    exists prices. split; [exact Hrun|].
    intros t. rewrite Hget.
    destruct (Spec.summary_price items t); [reflexivity|].
    destruct (String.eqb_spec (str_field item "ticker") t) as [<-|Hne].
    + apply dict_get_set_eq.
    + now apply dict_get_set_neq.
Qed.

Lemma snapshot_row_priced (ms : list pyval) (pos row : pyval) :
  Spec.snapshot_row ms pos = Val row ->
  py_getitem row "ticker" = Val (PStr (str_field row "ticker"))
  /\ py_getitem row "current_price" = Val (field row "current_price")
  /\ str_field row "ticker" = str_field pos "ticker"
  /\ field row "current_price"
     = match Spec.summary_price ms (str_field pos "ticker") with
       | Some cp => cp
       | None => field pos "purchase_price"
       end.
Proof.
  unfold Spec.snapshot_row.
  destruct (Spec.pnl _ pos) as [u|]; [|discriminate]. simpl.
  destruct (py_round2 u) as [r|]; [|discriminate]. simpl.
  intros H. inversion H. repeat split.
Qed.

Lemma snapshot_rows_priced (ms ps rows : list pyval) :
  Spec.snapshot ps ms = Val rows ->
  Forall (fun item =>
            py_getitem item "ticker" = Val (PStr (str_field item "ticker"))
            /\ py_getitem item "current_price"
               = Val (field item "current_price")) rows.
Proof.
  unfold Spec.snapshot. revert rows.
  induction ps as [|pos ps IH]; simpl; intros rows H.
  - inversion H. constructor.
  - destruct (Spec.snapshot_row ms pos) as [row|] eqn:Hrow; [|discriminate].
    simpl in H. destruct (map_exn _ ps) as [rows'|]; [|discriminate].
    inversion H. constructor; [|now apply IH].
    destruct (snapshot_row_priced ms pos row Hrow) as [Ht [Hp _]]. now split.
Qed.

(** The price the rows of a snapshot give for a ticker. *)
Lemma snapshot_rows_lookup (ms ps rows : list pyval) :
  Spec.snapshot ps ms = Val rows ->
  NoDup (map (fun pos => str_field pos "ticker") ps) ->
  (forall pos,
     In pos ps ->
     Spec.summary_price rows (str_field pos "ticker")
     = Some (match Spec.summary_price ms (str_field pos "ticker") with
             | Some cp => cp
             | None => field pos "purchase_price"
             end))
  /\ (forall t,
        ~ In t (map (fun pos => str_field pos "ticker") ps) ->
        Spec.summary_price rows t = None).
Proof.
  unfold Spec.snapshot. revert rows.
  induction ps as [|pos ps IH]; simpl; intros rows H Hnd.
  - inversion H. split; [contradiction | reflexivity].
  - destruct (Spec.snapshot_row ms pos) as [row|] eqn:Hrow; [|discriminate].
    simpl in H. destruct (map_exn _ ps) as [rows'|]; [|discriminate].
    inversion H; subst rows. clear H.
    inversion Hnd as [|? ? Hnotin Hnd']; subst.
    destruct (IH rows' eq_refl Hnd') as [IHin IHout].
    destruct (snapshot_row_priced ms pos row Hrow) as [_ [_ [Ht Hcp]]].
    split.
    + intros pos' [<-|Hin]; simpl.
      * rewrite (IHout _ Hnotin), Ht, String.eqb_refl. now rewrite Hcp.
      * now rewrite (IHin pos' Hin).
    + intros t Hout. simpl. rewrite IHout by tauto. rewrite Ht.
      destruct (String.eqb_spec (str_field pos "ticker") t); [|reflexivity].
      tauto.
Qed.

(** X15.  What [save_positions] writes, [load_previous_prices] reads
    back: on an accepted payload whose positions have distinct tickers,
    the dict gives for the ticker of every position the current price of
    its row (that of its market-summary entry, or else its purchase
    price), and holds no other ticker. *)
Theorem saved_prices_read_back (payload : pyval) (fs fs' : Business.files) :
  fst (Validators.validate_tick_payload payload) = true ->
  Business.save_positions payload fs = (Val tt, fs') ->
  NoDup (map (fun pos => str_field pos "ticker")
           (section_items payload "Positions")) ->
  (forall pos,
     In pos (section_items payload "Positions") ->
     dict_get (Business.load_previous_prices fs') (str_field pos "ticker")
     = Some (match Spec.summary_price
                     (section_items payload "Market_Summary")
                     (str_field pos "ticker") with
             | Some cp => cp
             | None => field pos "purchase_price"
             end))
  /\ (forall t,
        ~ In t (map (fun pos => str_field pos "ticker")
                  (section_items payload "Positions")) ->
        dict_get (Business.load_previous_prices fs') t = None).
Proof.
  intros Hv Hsave Hnd.
  pose proof (validate_true_accepted payload Hv) as Hok.
  rewrite (save_positions_snapshot payload fs Hok) in Hsave.
  destruct (Spec.snapshot _ _) as [rows|] eqn:Hrows; [|discriminate].
  inversion Hsave; subst fs'. clear Hsave.
  destruct (price_loop_priced rows [] (snapshot_rows_priced _ _ _ Hrows))
    as [prices [Hrun Hget]].
  unfold Business.load_previous_prices, Business.price_dict. simpl.
  rewrite Hrun.
  destruct (snapshot_rows_lookup _ _ _ Hrows Hnd) as [Hin Hout].
  split.
  - intros pos Hpos. now rewrite Hget, (Hin pos Hpos).
  - intros t Ht. now rewrite Hget, (Hout t Ht).
Qed.

Lemma saved_prices_read_back_witness :
  let fs' := snd (Business.save_positions Sample.payload Sample.no_files) in
  dict_get (Business.load_previous_prices fs') "AAPL" = Some (PFloat 182.5)
  /\ dict_get (Business.load_previous_prices fs') "CASH" = Some (PFloat 1.0)
  /\ dict_get (Business.load_previous_prices fs') "TSLA" = None.
Proof.
  intros fs'.
  assert (Hnd : NoDup (map (fun pos => str_field pos "ticker")
                         (section_items Sample.payload "Positions"))).
  { repeat constructor; simpl; intuition discriminate. }
  destruct (saved_prices_read_back Sample.payload Sample.no_files fs'
              eq_refl eq_refl Hnd) as [Hin Hout].
  split; [|split].
  - apply (Hin (Sample.position "AAPL" (PInt 10) (PFloat 180.0))).
    simpl. auto.
  - apply (Hin (Sample.position "CASH" (PInt 1000) (PFloat 1.0))).
    simpl. auto.
  - apply Hout. simpl. intuition discriminate.
Defined.

(** X16.  The dashboard shows what the tick functions wrote: after
    [save_positions] on an accepted payload and [log_ai_recommendations]
    on a readable history, its positions are the snapshot of the payload
    and its trading history is the earlier history followed by one entry
    per recommendation. *)
Theorem dashboard_shows_written_files (payload : pyval)
  (recs : list recommendation) (date_str : pyval) (ms h rows : list pyval)
  (fs : Business.files) :
  fst (Validators.validate_tick_payload payload) = true ->
  Spec.snapshot (section_items payload "Positions")
    (section_items payload "Market_Summary") = Val rows ->
  forallb summary_shape ms = true ->
  Business.load_history fs = PList h ->
  exists entries,
    List.length entries = List.length recs
    /\ Business.get_dashboard_data
         (snd (Business.log_ai_recommendations recs date_str (PList ms)
                 (snd (Business.save_positions payload fs))))
       = PDict [("positions", PList rows);
                ("trading_history", PList (h ++ entries))].
Proof.
  intros Hv Hrows Hms Hh.
  pose proof (validate_true_accepted payload Hv) as Hok.
  rewrite (save_positions_snapshot payload fs Hok), Hrows. simpl.
  destruct (log_appends recs date_str ms h
              (Business.write_positions fs (PList rows)) Hms Hh)
    as [prices [_ Hlog]].
  rewrite Hlog. simpl.
  exists (map (Business.transaction date_str prices) recs).
  split; [apply length_map | reflexivity].
Qed.

Lemma dashboard_shows_written_files_witness :
  exists entries,
    List.length entries = 1%nat
    /\ Business.get_dashboard_data
         (snd (Business.log_ai_recommendations [Spec.stay "AAPL"]
                 (PStr "2025-01-02") (PList Sample.market_summary)
                 (snd (Business.save_positions Sample.payload
                         Sample.no_files))))
       = PDict [("positions", PList Sample.rows);
                ("trading_history", PList ([] ++ entries))].
Proof.
  apply (dashboard_shows_written_files Sample.payload [Spec.stay "AAPL"]
           (PStr "2025-01-02") Sample.market_summary [] Sample.rows
           Sample.no_files); reflexivity.
Defined.

(* ===================================================================== *)
(** ** Further properties of the accounting *)
(* ===================================================================== *)

(** X17.  When no position of an accepted payload has a market-summary
    entry, nothing is evaluated and nothing can raise: the summary is 0
    positions and 0.0, whatever the quantities and prices are. *)
Theorem nothing_quoted_nothing_evaluated (payload : pyval) :
  fst (Validators.validate_tick_payload payload) = true ->
  forallb (fun pos =>
             negb (Spec.has_entry (section_items payload "Market_Summary") pos))
    (section_items payload "Positions") = true ->
  accounting payload = Val (PInt 0, PFloat 0).
Proof.
  intros Hv Hnone.
  rewrite (accounting_on_accepted payload (validate_true_accepted _ Hv)).
  unfold Spec.accounting.
  assert (Hfilter : filter (Spec.has_entry
                              (section_items payload "Market_Summary"))
                      (section_items payload "Positions") = []).
  { induction (section_items payload "Positions") as [|pos ps IH];
      [reflexivity|].
    simpl in *. apply andb_true_iff in Hnone. destruct Hnone as [Hpos Hps].
    destruct (Spec.has_entry _ pos); [discriminate | auto]. }
  rewrite Hfilter. reflexivity.
Qed.

(** A position in an instrument that is not quoted, with an integer
    quantity too large for a float. *)
Lemma nothing_quoted_nothing_evaluated_witness :
  accounting
    (PDict [("Positions",
             PList [Sample.position "GOLD" (PInt (10 ^ 400)) (PFloat 1.0)]);
            ("Market_Summary", PList Sample.market_summary);
            ("market_history", PList Sample.market_history)])
  = Val (PInt 0, PFloat 0).
Proof.
  apply nothing_quoted_nothing_evaluated; reflexivity.
Defined.

Lemma summary_price_float (ms : list pyval) (t : string) (p : pyval) :
  forallb float_summary ms = true ->
  Spec.summary_price ms t = Some p -> exists f, p = PFloat f.
Proof.
  induction ms as [|entry ms IH]; simpl; [discriminate|].
  rewrite andb_true_iff. intros [Hentry Hms].
  destruct (Spec.summary_price ms t) as [p'|].
  - intros H. inversion H; subst. now apply IH.
  - destruct (String.eqb _ t); [|discriminate].
    intros H. inversion H; subst. unfold float_summary in Hentry.
    destruct (field entry "current_price"); try discriminate. eauto.
Qed.

Lemma float_pnl (cp : float) (pos : pyval) :
  float_position pos = true ->
  exists f, Spec.pnl (PFloat cp) pos = Val (PFloat f).
Proof.
  unfold float_position, Spec.pnl.
  destruct (field pos "quantity"); try discriminate.
  destruct (field pos "purchase_price"); try discriminate.
  intros _. eexists. reflexivity.
Qed.

Lemma float_sum (pnls : list pyval) (a : float) :
  Forall (fun x => exists f, x = PFloat f) pnls ->
  exists b, for_each pnls py_add (PFloat a) = Val (PFloat b).
Proof.
  intros H. revert a. induction H as [|x pnls [f ->] _ IH]; intros a; simpl.
  - eauto.
  - apply IH.
Qed.

Lemma float_entry_pnls (ms ps : list pyval) :
  forallb float_summary ms = true ->
  forallb float_position ps = true ->
  exists pnls,
    map_exn (Spec.entry_pnl ms) (filter (Spec.has_entry ms) ps) = Val pnls
    /\ Forall (fun x => exists f, x = PFloat f) pnls.
Proof.
  intros Hms. induction ps as [|pos ps IH]; simpl.
  - intros _. exists []. split; [reflexivity | constructor].
  - rewrite andb_true_iff. intros [Hpos Hps].
    destruct (IH Hps) as [pnls [Hmap Hall]].
    unfold Spec.has_entry at 1.
    destruct (Spec.summary_price ms (str_field pos "ticker")) as [cp|] eqn:Hcp;
      [|eauto].
    destruct (summary_price_float ms _ cp Hms Hcp) as [c ->].
    destruct (float_pnl c pos Hpos) as [f Hf].
    simpl. unfold Spec.entry_pnl at 1. rewrite Hcp, Hf. simpl.
    rewrite Hmap. simpl. exists (PFloat f :: pnls). split; [reflexivity|].
    constructor; eauto.
Qed.

Lemma float_snapshot (ms ps : list pyval) :
  forallb float_summary ms = true ->
  forallb float_position ps = true ->
  exists rows, Spec.snapshot ps ms = Val rows.
Proof.
  intros Hms. unfold Spec.snapshot. induction ps as [|pos ps IH]; simpl.
  - eauto.
  - rewrite andb_true_iff. intros [Hpos Hps].
    destruct (IH Hps) as [rows Hrows]. rewrite Hrows.
    unfold Spec.snapshot_row.
    destruct (Spec.summary_price ms (str_field pos "ticker")) as [cp|] eqn:Hcp.
    + destruct (summary_price_float ms _ cp Hms Hcp) as [c ->].
      destruct (float_pnl c pos Hpos) as [f ->]. simpl. eauto.
    + unfold float_position in Hpos.
      destruct (field pos "quantity") eqn:Hq; try discriminate.
      destruct (field pos "purchase_price") as [| | |pp| | |] eqn:Hpp;
        try discriminate.
      assert (Hpnl : exists g, Spec.pnl (PFloat pp) pos = Val (PFloat g)).
      { apply float_pnl. unfold float_position. now rewrite Hq, Hpp. }
      destruct Hpnl as [g ->]. simpl. eauto.
Qed.

(** X18.  The arithmetic of a tick can raise only through an integer: on
    an accepted payload whose quantities and prices are all floats, the
    accounting step and the snapshot of the payload are both computed,
    whatever the values (infinities and NaN included). *)
Theorem float_payload_never_raises (payload : pyval) :
  fst (Validators.validate_tick_payload payload) = true ->
  forallb float_position (section_items payload "Positions") = true ->
  forallb float_summary (section_items payload "Market_Summary") = true ->
  (exists n u, accounting payload = Val (n, u))
  /\ (exists rows,
        Spec.snapshot (section_items payload "Positions")
          (section_items payload "Market_Summary") = Val rows).
Proof.
  intros Hv Hps Hms. split; [|now apply float_snapshot].
  rewrite (accounting_on_accepted payload (validate_true_accepted _ Hv)).
  unfold Spec.accounting.
  destruct (float_entry_pnls _ _ Hms Hps) as [pnls [-> Hall]]. simpl.
  destruct (float_sum pnls 0 Hall) as [b ->]. simpl. eauto.
Qed.

(** A payload with float quantities, an infinite price among them. *)
Lemma float_payload_never_raises_witness :
  let payload :=
    PDict [("Positions",
            PList [Sample.position "AAPL" (PFloat 10.0) (PFloat 180.0);
                   Sample.position "CASH" (PFloat 1000.0) (PFloat 1.0)]);
           ("Market_Summary",
            PList [Sample.summary "AAPL" (PFloat PrimFloat.infinity) "high"]);
           ("market_history", PList Sample.market_history)] in
  (exists n u, accounting payload = Val (n, u))
  /\ (exists rows,
        Spec.snapshot (section_items payload "Positions")
          (section_items payload "Market_Summary") = Val rows).
Proof.
  intros payload. apply float_payload_never_raises; reflexivity.
Defined.

(** X25.  The arithmetic of a tick raises nothing on moderate numbers:
    on an accepted payload whose quantities and prices are floats,
    booleans or ints below [2 ^ 26] in magnitude, the accounting step and
    the snapshot of the payload are both computed. *)
Theorem plain_payload_never_raises (payload : pyval) :
  fst (Validators.validate_tick_payload payload) = true ->
  forallb Spec.plain_position (section_items payload "Positions") = true ->
  forallb Spec.plain_summary (section_items payload "Market_Summary") = true ->
  (exists n u, accounting payload = Val (n, u))
  /\ (exists rows,
        Spec.snapshot (section_items payload "Positions")
          (section_items payload "Market_Summary") = Val rows).
Proof.
  intros Hv Hps Hms. split; [|now apply plain_snapshot].
  rewrite (accounting_on_accepted payload (validate_true_accepted _ Hv)).
  unfold Spec.accounting.
  destruct (plain_total _ _ Hps Hms) as [t Ht].
  unfold Spec.total in Ht.
  destruct (map_exn _ _) as [pnls|]; [|discriminate]. simpl in *.
  rewrite Ht. simpl. eauto.
Qed.

(** The sample payload, with its int quantities 10, 5 and 1000. *)
Lemma plain_payload_never_raises_witness :
  (exists n u, accounting Sample.payload = Val (n, u))
  /\ (exists rows,
        Spec.snapshot (section_items Sample.payload "Positions")
          (section_items Sample.payload "Market_Summary") = Val rows).
Proof.
  apply plain_payload_never_raises; reflexivity.
Defined.

(** X19.  When the service answers the call of a tick with a
    confirmation that cannot be read (an element that is no object or
    lacks one of the three fields), the tick fails after the fact: once
    the accounting is done, the recommendations are logged and forwarded,
    the history file holds their entries, the tick raises, and the
    positions file is left as it was.  (When the accounting itself
    raises, the tick raises before anything is logged.) *)
Theorem unreadable_confirmation_fails_after_logging (E : env)
  (payload : pyval) (trade_id : string) (fs : Business.files)
  (h : list pyval) (rec : recommendation)
  (recs : list recommendation) (body : dict) (pos : pyval)
  (api : list pyval) :
  fst (Validators.validate_tick_payload payload) = true ->
  Business.load_history fs = PList h ->
  Business.get_recommendations E payload
    (PList (section_items payload "Positions")) = Val (rec :: recs) ->
  Business.key_present (MOTHERSHIP_API_KEY E) = true ->
  post_make_trade E (trade_request trade_id (rec :: recs))
  = HttpResponse 200 (Parses (PDict body)) ->
  dict_get body "Positions" = Some (PList (pos :: api)) ->
  existsb unreadable_position (pos :: api) = true ->
  match accounting payload with
  | Val _ =>
      exists entries,
        List.length entries = S (List.length recs)
        /\ Business.analyze_tick E payload trade_id fs
           = (Raise,
              {| Business.POSITIONS_FILE := Business.POSITIONS_FILE fs;
                 Business.TRADING_HISTORY_FILE :=
                   Business.Holds (PList (h ++ entries)) |})
  | Raise => Business.analyze_tick E payload trade_id fs = (Raise, fs)
  end.
Proof.
  intros Hv Hh Hrecs Hkey Hpost Hbody Hbad.
  pose proof (validate_true_accepted payload Hv) as Hok.
  destruct (accepted_sections payload Hok) as [_ [_ [_ Hms]]].
  destruct (analyze_tick_unfold E payload trade_id fs Hok)
    as [recs' [date_str [Hrecs' [_ Hrun]]]].
  rewrite Hrecs in Hrecs'. injection Hrecs' as <-.
  rewrite Hrun. clear Hrun.
  destruct (accounting payload) as [[n u]|]; [|reflexivity].
  destruct (log_appends (rec :: recs) date_str _ h fs Hms Hh)
    as [prices [Hprices Hlog]].
  exists (map (Business.transaction date_str prices) (rec :: recs)).
  split; [now rewrite length_map|].
  unfold Business.log_forward_persist, Business.io_bind.
  rewrite Hlog.
  rewrite (make_trade_confirmed E trade_id _ body _ Hkey Hpost Hbody).
  cbn [py_truthy].
  unfold Business.update_positions_from_api, Business.io_bind, Business.pure.
  rewrite Hprices. cbn [bind py_iter].
  now rewrite rows_loop_unreadable.
Qed.

(** The service answers the call of tick [t1], and no other, by
    confirming a position without purchase price. *)
Lemma unreadable_confirmation_fails_after_logging_witness :
  exists entries,
    List.length entries = 2%nat
    /\ Business.analyze_tick
         (Sample.service_for_t1
            (HttpResponse 200
               (Parses (PDict [("Positions",
                                PList [PDict [("ticker", PStr "AAPL");
                                              ("quantity", PInt 12)]])]))))
         Sample.payload "t1" Sample.no_files
       = (Raise,
          {| Business.POSITIONS_FILE := Business.Missing;
             Business.TRADING_HISTORY_FILE :=
               Business.Holds (PList ([] ++ entries)) |}).
Proof.
  apply (unreadable_confirmation_fails_after_logging
           (Sample.service_for_t1
              (HttpResponse 200
                 (Parses (PDict [("Positions",
                                  PList [PDict [("ticker", PStr "AAPL");
                                                ("quantity", PInt 12)]])]))))
           Sample.payload "t1" Sample.no_files []
           (Spec.stay "AAPL") [Spec.stay "MSFT"]
           [("Positions",
             PList [PDict [("ticker", PStr "AAPL"); ("quantity", PInt 12)]])]
           (PDict [("ticker", PStr "AAPL"); ("quantity", PInt 12)]) []);
    reflexivity.
Defined.

(* ===================================================================== *)
(** ** The routes *)
(* ===================================================================== *)

Lemma no_key_unauthorized (API_KEY : string) (req : App.request) :
  Business.key_present (App.header_apikey req) = false ->
  Business.key_present (App.header_api_key req) = false ->
  Business.key_present (App.header_x_api_key req) = false ->
  Business.key_present (App.header_Authorization req) = false ->
  App.authorized API_KEY req = false.
Proof.
  intros H1 H2 H3 H4. unfold App.authorized, App.presented_key, App.py_or.
  rewrite H1, H2, H3.
  destruct (App.header_Authorization req) as [k|]; [|reflexivity].
  rewrite H4. simpl. simpl in H4.
  destruct (String.eqb k ""); [reflexivity | discriminate].
Qed.

(** X20.  A request none of whose four key headers is present and not
    empty is answered 401 by both protected routes, whatever the
    configured key is, and a tick so rejected touches no file. *)
Theorem request_without_key_rejected (E : env) (API_KEY trade_id : string)
  (req : App.request) (fs : Business.files) :
  Business.key_present (App.header_apikey req) = false ->
  Business.key_present (App.header_api_key req) = false ->
  Business.key_present (App.header_x_api_key req) = false ->
  Business.key_present (App.header_Authorization req) = false ->
  App.tick E API_KEY trade_id req fs
  = (App.Reply (App.failure "Unauthorized") 401, fs)
  /\ App.healthcheck API_KEY req fs
     = (App.Reply (App.failure "Unauthorized") 401, fs).
Proof.
  intros H1 H2 H3 H4.
  unfold App.tick, App.healthcheck, App.require_auth.
  now rewrite (no_key_unauthorized API_KEY req H1 H2 H3 H4).
Qed.

(** An empty [x-api-key] against an empty configured key. *)
Lemma request_without_key_rejected_witness :
  let req := {| App.header_apikey := None;
                App.header_api_key := None;
                App.header_x_api_key := Some "";
                App.header_Authorization := None;
                App.is_json := true;
                App.get_json := Parses Sample.payload |} in
  App.tick (Sample.world LlmRaises HttpRaises) "" "t1" req Sample.no_files
  = (App.Reply (App.failure "Unauthorized") 401, Sample.no_files)
  /\ App.healthcheck "" req Sample.no_files
     = (App.Reply (App.failure "Unauthorized") 401, Sample.no_files).
Proof.
  intros req. apply request_without_key_rejected; reflexivity.
Defined.

(** X21.  The configured key, when it is not empty, authorizes a request
    that sends it as [Authorization: Bearer <key>] and no other key
    header. *)
Theorem bearer_token_authorizes (API_KEY : string) (json : bool)
  (body : json_text) (fs : Business.files) :
  API_KEY <> "" ->
  App.healthcheck API_KEY (bearer_request API_KEY json body) fs
  = (App.Reply (PDict [("result", PStr "success");
                       ("message", PStr "Ready to Trade")]) 200, fs).
Proof.
  intros Hne.
  unfold App.healthcheck, App.require_auth, App.authorized,
    App.presented_key, bearer_request.
  destruct API_KEY as [|c k]; [contradiction|]. simpl.
  now rewrite Ascii.eqb_refl, String.eqb_refl.
Qed.

Lemma bearer_token_authorizes_witness :
  App.healthcheck "k-123" (bearer_request "k-123" false Unparsable)
    Sample.no_files
  = (App.Reply (PDict [("result", PStr "success");
                       ("message", PStr "Ready to Trade")]) 200,
     Sample.no_files).
Proof.
  apply bearer_token_authorizes. discriminate.
Defined.

Lemma py_or_left (a b : option string) :
  Business.key_present a = true -> App.py_or a b = a.
Proof. unfold App.py_or. now intros ->. Qed.

(** X22.  Only the first key header that is present and not empty is
    consulted: when [apikey] is one, two requests that agree on it are
    authorized alike, whatever their other headers carry. *)
Theorem first_header_decides (API_KEY : string) (req req' : App.request) :
  Business.key_present (App.header_apikey req) = true ->
  App.header_apikey req' = App.header_apikey req ->
  App.authorized API_KEY req' = App.authorized API_KEY req.
Proof.
  intros Hkey Heq. unfold App.authorized, App.presented_key.
  rewrite Heq. now rewrite !(py_or_left _ _ Hkey).
Qed.

(** A wrong [apikey] hides the right key sent in [x-api-key]. *)
Lemma first_header_decides_witness :
  App.authorized "k-123"
    {| App.header_apikey := Some "guess";
       App.header_api_key := None;
       App.header_x_api_key := Some "k-123";
       App.header_Authorization := None;
       App.is_json := true;
       App.get_json := Unparsable |}
  = App.authorized "k-123"
      {| App.header_apikey := Some "guess";
         App.header_api_key := None;
         App.header_x_api_key := None;
         App.header_Authorization := None;
         App.is_json := true;
         App.get_json := Unparsable |}.
Proof.
  apply first_header_decides; reflexivity.
Defined.

(** X23.  The orchestrator is the only part of the tick route that
    touches the files or answers 200, and it runs only for an authorized
    request with a JSON body that the validator accepts. *)
Theorem tick_gate (E : env) (API_KEY trade_id : string) (req : App.request)
  (fs fs' : Business.files) (resp : App.response) :
  App.tick E API_KEY trade_id req fs = (resp, fs') ->
  fs' <> fs \/ (exists body, resp = App.Reply body 200) ->
  App.authorized API_KEY req = true
  /\ App.is_json req = true
  /\ exists payload,
       App.get_json req = Parses payload
       /\ Validators.validate_tick_payload payload = (true, "")
       /\ snd (Business.analyze_tick E payload trade_id fs) = fs'.
Proof.
  unfold App.tick, App.require_auth. intros Hrun Hseen.
  assert (Hstop : forall body status,
             (resp, fs') = (App.Reply body status, fs) -> status <> 200 ->
             False).
  { intros body status H Hs. inversion H; subst.
    destruct Hseen as [Hfs | [body' Hb]]; [now apply Hfs|].
    inversion Hb. contradiction. }
  destruct (App.authorized API_KEY req);
    [|exfalso; symmetry in Hrun; apply (Hstop _ _ Hrun); discriminate].
  destruct (App.is_json req); simpl in Hrun;
    [|exfalso; symmetry in Hrun; apply (Hstop _ _ Hrun); discriminate].
  destruct (App.get_json req) as [|payload].
  { exfalso. inversion Hrun; subst.
    destruct Hseen as [Hfs | [body Hb]]; [now apply Hfs | discriminate]. }
  repeat split. exists payload. split; [reflexivity|].
  destruct (validate_tick_payload_decides payload)
    as [[Hv _] | [msg [Hv _]]]; rewrite Hv in *; simpl in Hrun.
  - split; [reflexivity|].
    destruct (Business.analyze_tick E payload trade_id fs) as [[r|] fs1];
      now inversion Hrun.
  - exfalso. symmetry in Hrun. apply (Hstop _ _ Hrun). discriminate.
Qed.

(** An authorized tick on the sample payload answers 200. *)
Lemma tick_gate_witness :
  let E := Sample.world LlmRaises HttpRaises in
  let req := bearer_request "k-123" true (Parses Sample.payload) in
  App.authorized "k-123" req = true
  /\ App.is_json req = true
  /\ exists payload,
       App.get_json req = Parses payload
       /\ Validators.validate_tick_payload payload = (true, "")
       /\ snd (Business.analyze_tick E payload "t1" Sample.no_files)
          = snd (App.tick E "k-123" "t1" req Sample.no_files).
Proof.
  intros E req.
  apply (tick_gate E "k-123" "t1" req Sample.no_files
           (snd (App.tick E "k-123" "t1" req Sample.no_files))
           (App.Reply (Business.tick_result (PInt 2) (PFloat 0.0)) 200)).
  - reflexivity.
  - right. eexists. reflexivity.
Defined.

(** X24.  An authorized JSON request whose payload has not the accepted
    shape is answered 400 with the message of the validator, which is
    not empty, after the words "Invalid payload: "; no file is touched
    and neither the language model nor the service is consulted. *)
Theorem rejected_payload_answered_400 (E : env) (API_KEY trade_id : string)
  (req : App.request) (payload : pyval) (fs : Business.files) :
  App.authorized API_KEY req = true ->
  App.is_json req = true ->
  App.get_json req = Parses payload ->
  accepted payload = false ->
  exists msg,
    msg <> ""
    /\ Validators.validate_tick_payload payload = (false, msg)
    /\ App.tick E API_KEY trade_id req fs
       = (App.Reply (App.failure ("Invalid payload: " ++ msg)) 400, fs).
Proof.
  intros Hauth Hjson Hbody Hshape.
  destruct (validate_tick_payload_decides payload)
    as [[_ Hacc] | [msg [Hv [Hm _]]]]; [congruence|].
  exists msg. repeat split; [exact Hm | exact Hv |].
  unfold App.tick, App.require_auth.
  now rewrite Hauth, Hjson, Hbody, Hv.
Qed.

Lemma rejected_payload_answered_400_witness :
  exists msg,
    msg <> ""
    /\ Validators.validate_tick_payload (PDict []) = (false, msg)
    /\ App.tick (Sample.world LlmRaises HttpRaises) "k-123" "t1"
         (bearer_request "k-123" true (Parses (PDict []))) Sample.no_files
       = (App.Reply (App.failure ("Invalid payload: " ++ msg)) 400,
          Sample.no_files).
Proof.
  apply rejected_payload_answered_400; reflexivity.
Defined.
